(** * A shallow embedding of the economy and session logic of BOT.py

    The Discord bot keeps a global dict [user_data] from user ids to
    per-user dicts, two histories of posts keyed by guild id and a table
    of running blackjack games.  Handlers mutate these shared objects in
    place; here every handler takes the store and returns the new one.

    Modelling conventions:
    - a user dict is a record; a key the code reads with
      [data.get(k, d)] and that a record may lack is an [option] field,
      read back with [dget];
    - [user_data] is keyed by [str(user_id)]; [str] is injective on ints,
      so the store is keyed by the integer id itself;
    - [save_user_data] only writes the store out (database or JSON
      file); it does not change the in-memory store, so the handlers
      leave it out; it is modelled on its own with [load_user_data];
    - float arithmetic ([int(b * 0.20)], [int(mise * 2.5)]) is IEEE
      binary64, with its rounding and overflow;
    - random draws, the clock ([get_today_date], [time.time]) and the
      network are inputs of the functions that use them. *)

From Stdlib Require Import ZArith Lia Ascii Sorting.Sorted Reals Lra.
From stdpp Require Import base gmap strings list.

Open Scope Z_scope.

(** [data.get(k, d)] on a key that may be missing. *)
Definition dget {A} (o : option A) (d : A) : A :=
  match o with Some x => x | None => d end.

(** The entry stored in a user's favorites list (the dict built by
    [fav_callback]); only the id takes part in the logic. *)
Record FavPost := mkFavPost { fav_id : option Z }.

(** A Danbooru post as a JSON dict: the keys the economy reads. *)
Record Post := mkPost {
  id : option Z;
  score : option Z;
  fav_count : option Z;
  tag_string_artist : option string
}.

(** A user dict of [user_data]. *)
Record Account := mkAccount {
  favorites : list FavPost;
  view_count : option Z;
  waifame : option Z;
  daily_favs : option Z;
  last_fav_date : option string;
  last_daily : option string;
  daily_streak : option Z;
  last_steal : option Z
}.

(** Dict item assignment [data[k] = v], one per key. *)
Definition set_favorites (v : list FavPost) (a : Account) : Account :=
  mkAccount v (view_count a) (waifame a) (daily_favs a) (last_fav_date a)
    (last_daily a) (daily_streak a) (last_steal a).
Definition set_view_count (v : Z) (a : Account) : Account :=
  mkAccount (favorites a) (Some v) (waifame a) (daily_favs a) (last_fav_date a)
    (last_daily a) (daily_streak a) (last_steal a).
Definition set_waifame (v : Z) (a : Account) : Account :=
  mkAccount (favorites a) (view_count a) (Some v) (daily_favs a) (last_fav_date a)
    (last_daily a) (daily_streak a) (last_steal a).
Definition set_daily_favs (v : Z) (a : Account) : Account :=
  mkAccount (favorites a) (view_count a) (waifame a) (Some v) (last_fav_date a)
    (last_daily a) (daily_streak a) (last_steal a).
Definition set_last_fav_date (v : string) (a : Account) : Account :=
  mkAccount (favorites a) (view_count a) (waifame a) (daily_favs a) (Some v)
    (last_daily a) (daily_streak a) (last_steal a).
Definition set_last_daily (v : string) (a : Account) : Account :=
  mkAccount (favorites a) (view_count a) (waifame a) (daily_favs a) (last_fav_date a)
    (Some v) (daily_streak a) (last_steal a).
Definition set_daily_streak (v : Z) (a : Account) : Account :=
  mkAccount (favorites a) (view_count a) (waifame a) (daily_favs a) (last_fav_date a)
    (last_daily a) (Some v) (last_steal a).
Definition set_last_steal (v : Z) (a : Account) : Account :=
  mkAccount (favorites a) (view_count a) (waifame a) (daily_favs a) (last_fav_date a)
    (last_daily a) (daily_streak a) (Some v).

(** The global [user_data]. *)
Abbreviation Store := (gmap Z Account).

(** The dict [get_user_data] creates for a new user. *)
Definition new_account : Account :=
  mkAccount [] (Some 0) (Some 0) (Some 0) (Some ""%string) None None None.

(** "Ensure new fields exist for old users". *)
Definition backfill (a : Account) : Account :=
  mkAccount (favorites a) (view_count a)
    (Some (dget (waifame a) 0)) (Some (dget (daily_favs a) 0))
    (Some (dget (last_fav_date a) ""%string))
    (last_daily a) (daily_streak a) (last_steal a).

(** The dict [get_user_data] hands back for [uid]: it is also what every
    [data.get(k, d)] on that user reads, so two stores with the same
    [observe] are indistinguishable for the handlers. *)
Definition observe (st : Store) (uid : Z) : Account :=
  match st !! uid with
  | Some a => backfill a
  | None => new_account
  end.

(** [get_user_data(user_id)]: get or create, then backfill. *)
Definition get_user_data (st : Store) (uid : Z) : Store * Account :=
  (<[uid := observe st uid]> st, observe st uid).

(** ** Daily favorite gate *)

Definition reset_day (today : string) (a : Account) : Account :=
  if decide (last_fav_date a = Some today) then a
  else set_last_fav_date today (set_daily_favs 0 a).

(** [can_add_favorite(user_id)]; [today] is [get_today_date()]. *)
Definition can_add_favorite (st : Store) (uid : Z) (today : string)
    : Store * bool :=
  let '(st1, data) := get_user_data st uid in
  let data1 := reset_day today data in
  (<[uid := data1]> st1, bool_decide (dget (daily_favs data1) 0 < 5)).

(** [use_daily_favorite(user_id)]: returns the remaining slots. *)
Definition use_daily_favorite (st : Store) (uid : Z) (today : string)
    : Store * Z :=
  let '(st1, data) := get_user_data st uid in
  let data1 := reset_day today data in
  let data2 := set_daily_favs (dget (daily_favs data1) 0 + 1) data1 in
  (<[uid := data2]> st1, 5 - dget (daily_favs data2) 0).

(** ** Views and currency *)

(** [increment_view_count(user_id, post=None)]. *)
Definition increment_view_count (st : Store) (uid : Z) : Store * Z :=
  let '(st1, data) := get_user_data st uid in
  let data1 := set_view_count (dget (view_count data) 0 + 1) data in
  (<[uid := data1]> st1, dget (view_count data1) 0).

(** ** Image sessions ([ImageView]) *)

(** Python truthiness of [self.user_id] ([None] and [0] are false). *)
Definition truthy (o : option Z) : bool :=
  match o with Some x => negb (x =? 0) | None => false end.

(** [ImageView.check_user]: [true] when the click is allowed. *)
Definition check_user (user_id : option Z) (clicker : Z) : bool :=
  negb (truthy user_id && negb (bool_decide (Some clicker = user_id))).

Record ImageView := mkImageView {
  iv_guild_id : Z;
  iv_post : Post;
  iv_user_id : option Z;
  iv_current_tags : string
}.

(** The notice sent back to the clicker. *)
Inductive Reply :=
  | NotYourSession        (* check_user refused the click *)
  | FavRemoved
  | FavLimitReached
  | FavAdded (remaining : Z)
  | NothingToRewind
  | ShowPost (p : Post)
  | QuizAlreadyAnswered
  | QuizResult (correct : bool)
  | GameOver
  | BlackjackShown
  | BlackjackNatural (winnings : Z)
  | BlackjackBust
  | BlackjackSettled
  | Ok.

Definition fav_entry (p : Post) : FavPost := mkFavPost (id p).

Definition is_fav_of (pid : option Z) (favs : list FavPost) : bool :=
  existsb (fun q => bool_decide (fav_id q = pid)) favs.

(** [ImageView.fav_callback]. *)
Definition fav_callback (st : Store) (v : ImageView) (clicker : Z)
    (today : string) : Store * ImageView * Reply :=
  if negb (check_user (iv_user_id v) clicker) then (st, v, NotYourSession)
  else
  let v1 := if truthy (iv_user_id v) then v
            else mkImageView (iv_guild_id v) (iv_post v) (Some clicker)
                   (iv_current_tags v) in
  let uid := dget (iv_user_id v1) clicker in
  let '(st1, data) := get_user_data st uid in
  let user_favs := favorites data in
  let pid := id (iv_post v1) in
  if is_fav_of pid user_favs then
    let data1 := set_favorites
                   (filter (fun q => fav_id q <> pid) user_favs) data in
    (<[uid := data1]> st1, v1, FavRemoved)
  else
    let '(st2, ok) := can_add_favorite st1 uid today in
    if negb ok then (st2, v1, FavLimitReached)
    else
      let '(st3, data3) := get_user_data st2 uid in
      let st4 := <[uid := set_favorites
                            (favorites data3 ++ [fav_entry (iv_post v1)])
                            data3]> st3 in
      let '(st5, remaining) := use_daily_favorite st4 uid today in
      (st5, v1, FavAdded remaining).

(** [use_daily_favorite] applied [n] times on the same day. *)
Fixpoint consume_times (n : nat) (st : Store) (uid : Z) (today : string)
    : Store :=
  match n with
  | O => st
  | S n' => consume_times n' (fst (use_daily_favorite st uid today)) uid today
  end.

(** A user whose stored dict is already backfilled. *)
Definition normal_at (st : Store) (uid : Z) : Prop :=
  exists a, st !! uid = Some a /\ backfill a = a.

(** ** Blackjack cards *)

(** The rank strings of [values] in [blackjack]: ["A"], ["2"] .. ["10"],
    ["J"], ["Q"], ["K"].  [int(card)] on a numeral rank is [Num n]. *)
Inductive Rank := RA | Num (n : Z) | RJ | RQ | RK.

(** A card [(value, suit)]; the suit is never inspected. *)
Abbreviation Card := (Rank * string)%type.

(** A running game, the dict stored in [blackjack_games]. *)
Record Game := mkGame {
  deck : list Card;
  player : list Card;
  dealer : list Card;
  mise : Z;
  active : bool
}.

(** ** The bot's global state *)

Record World := mkWorld {
  user_data : Store;
  history : gmap Z (list Post);
  video_history : gmap Z (list Post);
  blackjack_games : gmap Z Game
}.

Definition set_user_data (st : Store) (w : World) : World :=
  mkWorld st (history w) (video_history w) (blackjack_games w).
Definition set_history (h : gmap Z (list Post)) (w : World) : World :=
  mkWorld (user_data w) h (video_history w) (blackjack_games w).
Definition set_video_history (h : gmap Z (list Post)) (w : World) : World :=
  mkWorld (user_data w) (history w) h (blackjack_games w).
Definition set_blackjack_games (g : gmap Z Game) (w : World) : World :=
  mkWorld (user_data w) (history w) (video_history w) g.

(** What a handler ends with: it returns normally, or an exception
    escapes it after the mutations it made so far. *)
Inductive Exn := TypeError | IndexError | OverflowError | ValueError.

Inductive Outcome (S : Type) :=
  | Done (w : World) (s : S) (r : Reply)
  | Raised (w : World) (s : S) (e : Exn).
Arguments Done {S} w s r.
Arguments Raised {S} w s e.

(** Python values, for the tuple unpacking in the view handlers. *)
Inductive PyVal := PyInt (z : Z) | PyTuple (items : list Z).

(** [a, b, c = v]: a [TypeError] unless [v] is a 3-tuple. *)
Definition unpack3 (v : PyVal) : option (PyVal * PyVal * PyVal) :=
  match v with
  | PyTuple [a; b; c] => Some (PyInt a, PyInt b, PyInt c)
  | _ => None
  end.

(** [history[g].append(post)], creating the list if needed. *)
Definition hist_append (h : gmap Z (list Post)) (g : Z) (p : Post)
    : gmap Z (list Post) :=
  <[g := dget (h !! g) [] ++ [p]]> h.

(** [l.pop()] then [l[-1]]: the list without its last element, and the
    element now last. *)
Definition pop_then_last (l : list Post) : list Post * option Post :=
  (removelast l, last (removelast l)).

Definition set_iv_post (p : Post) (v : ImageView) : ImageView :=
  mkImageView (iv_guild_id v) p (iv_user_id v) (iv_current_tags v).
Definition set_iv_tags (t : string) (v : ImageView) : ImageView :=
  mkImageView (iv_guild_id v) (iv_post v) (iv_user_id v) t.

(** [ImageView.update_image]; [fetched] is [get_danbooru_image(tags)]. *)
Definition update_image (w : World) (v : ImageView) (fetched : option Post)
    : Outcome ImageView :=
  match fetched with
  | None => Done w v Ok   (* "Erreur lors de la recuperation" follow-up *)
  | Some post =>
      let w1 := set_history (hist_append (history w) (iv_guild_id v) post) w in
      let v1 := set_iv_post post v in
      if truthy (iv_user_id v1) then
        let '(st, n) := increment_view_count (user_data w1)
                          (dget (iv_user_id v1) 0) in
        let w2 := set_user_data st w1 in
        match unpack3 (PyInt n) with
        | None => Raised w2 v1 TypeError
        | Some _ => Done w2 v1 (ShowPost post)
        end
      else Done w1 v1 (ShowPost post)
  end.

(** The buttons of an [ImageView]. *)
Inductive ImageAction :=
  | ISafe | IQues | IExpl | INext | IRewind | ISearch | IFav | IHelp.

(** [ImageView.rewind_callback] after [check_user]. *)
Definition image_rewind (w : World) (v : ImageView) : Outcome ImageView :=
  let g := iv_guild_id v in
  match history w !! g with
  | Some l =>
      if bool_decide (1 < length l)%nat then
        let '(l', prev) := pop_then_last l in
        match prev with
        | Some p => Done (set_history (<[g := l']> (history w)) w)
                         (set_iv_post p v) (ShowPost p)
        | None => Done w v NothingToRewind  (* unreachable: length l >= 2 *)
        end
      else Done w v NothingToRewind
  | None => Done w v NothingToRewind
  end.

(** One click on an [ImageView]: [clicker] is [interaction.user.id],
    [fetched] the post the API returns if the button fetches one. *)
Definition image_click (w : World) (v : ImageView) (a : ImageAction)
    (clicker : Z) (today : string) (fetched : option Post)
    : Outcome ImageView :=
  match a with
  | IHelp => Done w v Ok
  | IFav =>
      let '(st, v', r) := fav_callback (user_data w) v clicker today in
      Done (set_user_data st w) v' r
  | _ =>
      if negb (check_user (iv_user_id v) clicker) then Done w v NotYourSession
      else match a with
      | ISafe => update_image w (set_iv_tags "rating:safe" v) fetched
      | IQues => update_image w (set_iv_tags "rating:questionable" v) fetched
      | IExpl => update_image w (set_iv_tags "rating:explicit" v) fetched
      | INext => update_image w v fetched
      | IRewind => image_rewind w v
      | _ => Done w v Ok   (* ISearch: the search modal is opened *)
      end
  end.

(** ** Video sessions ([VideoView]) and [vnext] *)

Record VideoView := mkVideoView {
  vv_guild_id : Z;
  vv_post : Post;
  vv_user_id : option Z;
  vv_current_tags : string
}.

Definition set_vv_post (p : Post) (v : VideoView) : VideoView :=
  mkVideoView (vv_guild_id v) p (vv_user_id v) (vv_current_tags v).
Definition set_vv_tags (t : string) (v : VideoView) : VideoView :=
  mkVideoView (vv_guild_id v) (vv_post v) (vv_user_id v) t.

(** [VideoView.update_video]; [fetched] is [get_danbooru_video(tags)]. *)
Definition update_video (w : World) (v : VideoView) (fetched : option Post)
    : Outcome VideoView :=
  match fetched with
  | None => Done w v Ok   (* "Aucune video trouvee" follow-up *)
  | Some post =>
      let w1 := set_video_history
                  (hist_append (video_history w) (vv_guild_id v) post) w in
      let v1 := set_vv_post post v in
      if truthy (vv_user_id v1) then
        let '(st, n) := increment_view_count (user_data w1)
                          (dget (vv_user_id v1) 0) in
        let w2 := set_user_data st w1 in
        match unpack3 (PyInt n) with
        | None => Raised w2 v1 TypeError
        | Some _ => Done w2 v1 (ShowPost post)
        end
      else Done w1 v1 (ShowPost post)
  end.

(** [VideoView.rewind_callback] after [check_user]. *)
Definition video_rewind (w : World) (v : VideoView) : Outcome VideoView :=
  let g := vv_guild_id v in
  match video_history w !! g with
  | Some l =>
      if bool_decide (1 < length l)%nat then
        let '(l', prev) := pop_then_last l in
        match prev with
        | Some p => Done (set_video_history (<[g := l']> (video_history w)) w)
                         (set_vv_post p v) (ShowPost p)
        | None => Done w v NothingToRewind  (* unreachable: length l >= 2 *)
        end
      else Done w v NothingToRewind
  | None => Done w v NothingToRewind
  end.

Inductive VideoAction := VSafe | VQues | VExpl | VNext | VRewind | VHelp.

(** One click on a [VideoView]. *)
Definition video_click (w : World) (v : VideoView) (a : VideoAction)
    (clicker : Z) (fetched : option Post) : Outcome VideoView :=
  match a with
  | VHelp => Done w v Ok
  | _ =>
      if negb (check_user (vv_user_id v) clicker) then Done w v NotYourSession
      else match a with
      | VSafe => update_video w (set_vv_tags "rating:safe" v) fetched
      | VQues => update_video w (set_vv_tags "rating:questionable" v) fetched
      | VExpl => update_video w (set_vv_tags "rating:explicit" v) fetched
      | VNext => update_video w v fetched
      | _ => video_rewind w v
      end
  end.

(** The [vnext] command up to the creation of its [VideoView]; [author]
    is [ctx.author.id], [guild] is [ctx.guild.id]. *)
Definition vnext (w : World) (author guild : Z) (fetched : option Post)
    : Outcome unit :=
  match fetched with
  | None => Done w tt Ok   (* "Impossible de trouver une video" *)
  | Some post =>
      let w1 := set_video_history (hist_append (video_history w) guild post) w in
      let '(st, n) := increment_view_count (user_data w1) author in
      let w2 := set_user_data st w1 in
      match unpack3 (PyInt n) with
      | None => Raised w2 tt TypeError
      | Some _ => Done w2 tt Ok
      end
  end.

(** ** Python floats

    A [float] is an IEEE 754 binary64 number: a finite [m * 2^e], an
    infinity or NaN.  Every operation rounds its exact result to the
    nearest representable value, ties to even (53-bit significand,
    least exponent -1074), and gives an infinity when the rounded value
    reaches 2^1024. *)
Inductive PyFloat := Fin (m e : Z) | Inf (neg : bool) | NaN.

(** The number of low bits dropped when rounding [a * 2^e] ([a >= 0]). *)
Definition round_shift (a e : Z) : Z := Z.max (Z.log2 a + 1 - 53) (-1074 - e).

(** [a / 2^k] rounded to nearest, ties to even ([k > 0]). *)
Definition round_div (a k : Z) : Z :=
  let q := a / 2 ^ k in
  let r := a mod 2 ^ k in
  if (2 ^ (k - 1) <? r) || ((r =? 2 ^ (k - 1)) && Z.odd q) then q + 1 else q.

Definition too_big (q e : Z) : bool :=
  if 0 <=? e then 2 ^ 1024 <=? q * 2 ^ e else 2 ^ (1024 - e) <=? q.

(** The float nearest to the exact value [m * 2^e]. *)
Definition round_binary64 (m e : Z) : PyFloat :=
  let a := Z.abs m in
  let k := round_shift a e in
  let q := if 0 <? k then round_div a k else a in
  let e' := if 0 <? k then e + k else e in
  if too_big q e' then Inf (m <? 0) else Fin (Z.sgn m * q) e'.

(** [float(z)] of an int, as [int * float] converts its left operand:
    [OverflowError] when [z] rounds to 2^1024 or beyond. *)
Definition float_of_int (z : Z) : Exn + PyFloat :=
  match round_binary64 z 0 with
  | Inf _ => inl OverflowError
  | x => inr x
  end.

Definition fmul (x y : PyFloat) : PyFloat :=
  match x, y with
  | Fin m1 e1, Fin m2 e2 => round_binary64 (m1 * m2) (e1 + e2)
  | NaN, _ | _, NaN => NaN
  | Inf s, Fin m _ | Fin m _, Inf s => if m =? 0 then NaN else Inf (xorb s (m <? 0))
  | Inf s1, Inf s2 => Inf (xorb s1 s2)
  end.

Definition fadd (x y : PyFloat) : PyFloat :=
  match x, y with
  | Fin m1 e1, Fin m2 e2 =>
      let e := Z.min e1 e2 in
      round_binary64 (m1 * 2 ^ (e1 - e) + m2 * 2 ^ (e2 - e)) e
  | NaN, _ | _, NaN => NaN
  | Inf s1, Inf s2 => if Bool.eqb s1 s2 then Inf s1 else NaN
  | Inf s, Fin _ _ | Fin _ _, Inf s => Inf s
  end.

Definition fneg (x : PyFloat) : PyFloat :=
  match x with Fin m e => Fin (- m) e | Inf s => Inf (negb s) | NaN => NaN end.

Definition fsub (x y : PyFloat) : PyFloat := fadd x (fneg y).

(** [int(x)]: truncation toward zero; [OverflowError] on an infinity,
    [ValueError] on NaN. *)
Definition py_int (x : PyFloat) : Exn + Z :=
  match x with
  | Fin m e => inr (if 0 <=? e then m * 2 ^ e else Z.quot m (2 ^ (- e)))
  | Inf _ => inl OverflowError
  | NaN => inl ValueError
  end.

(** [int(z * x)] for an int [z] and a float [x]. *)
Definition int_times_float (z : Z) (x : PyFloat) : Exn + Z :=
  match float_of_int z with
  | inl e => inl e
  | inr fz => py_int (fmul fz x)
  end.

(** The literals [0.20], [2.5], [0.10], [0.30] and [0.15]. *)
Definition f0_20 : PyFloat := Fin 7205759403792794 (-55).
Definition f2_5 : PyFloat := Fin 5 (-1).
Definition f0_10 : PyFloat := Fin 7205759403792794 (-56).
Definition f0_30 : PyFloat := Fin 5404319552844595 (-54).
Definition f0_15 : PyFloat := Fin 5404319552844595 (-55).

(** [random.uniform(a, b)] is [a + (b - a) * random.random()]. *)
Definition py_uniform (a b u : PyFloat) : PyFloat := fadd a (fmul (fsub b a) u).

(** A finite float whose value lies in [1/10, 3/10]. *)
Definition percent_ok (x : PyFloat) : bool :=
  match x with
  | Fin m e => (e <? 0) && (2 ^ (- e) <=? 10 * m) && (10 * m <=? 3 * 2 ^ (- e))
  | _ => false
  end.

(** The real value of [Fin m e]. *)
Definition fval (m e : Z) : R := (IZR m * powerRZ 2 e)%R.

(** ** Blackjack *)

Definition card_add (acc : Z * nat) (c : Card) : Z * nat :=
  let '(value, aces) := acc in
  match fst c with
  | RJ | RQ | RK => (value + 10, aces)
  | RA => (value + 11, S aces)
  | Num n => (value + n, aces)
  end.

(** [while value > 21 and aces: value -= 10; aces -= 1]. *)
Fixpoint soften (value : Z) (aces : nat) : Z :=
  match aces with
  | O => value
  | S a => if bool_decide (21 < value) then soften (value - 10) a else value
  end.

(** [hand_value(hand)] (the nested one of [blackjack] and
    [BlackjackView.hand_value] have the same body). *)
Definition hand_value (hand : list Card) : Z :=
  let '(value, aces) := fold_left card_add hand (0, O) in
  soften value aces.

(** [deck.pop()]: the last card, or [IndexError] on an empty deck. *)
Definition deck_pop (d : list Card) : option (list Card * Card) :=
  match last d with
  | Some c => Some (removelast d, c)
  | None => None
  end.

Record BlackjackView := mkBlackjackView { bj_user_id : Z; bj_mise : Z }.

(** The [blackjack] command; [shuffled] is the deck after
    [random.shuffle]. *)
Definition blackjack (w : World) (uid : Z) (m : Z) (shuffled : list Card)
    : Outcome (option BlackjackView) :=
  if bool_decide (m < 10) then Done w None Ok   (* minimum wager *)
  else
  let '(st1, data) := get_user_data (user_data w) uid in
  let w1 := set_user_data st1 w in
  if bool_decide (dget (waifame data) 0 < m) then Done w1 None Ok
  else
  match deck_pop shuffled with None => Raised w1 None IndexError | Some (d1, p1) =>
  match deck_pop d1 with None => Raised w1 None IndexError | Some (d2, p2) =>
  match deck_pop d2 with None => Raised w1 None IndexError | Some (d3, c1) =>
  match deck_pop d3 with None => Raised w1 None IndexError | Some (d4, c2) =>
    let player_hand := [p1; p2] in
    let dealer_hand := [c1; c2] in
    let games := <[uid := mkGame d4 player_hand dealer_hand m true]>
                   (blackjack_games w1) in
    if bool_decide (hand_value player_hand = 21) then
      (* the game is already stored when [int(mise * 2.5)] raises *)
      match int_times_float m f2_5 with
      | inl e => Raised (set_blackjack_games games w1) None e
      | inr winnings =>
        let data1 := set_waifame (dget (waifame data) 0 + winnings - m) data in
        Done (set_blackjack_games (delete uid games)
                (set_user_data (<[uid := data1]> st1) w1))
             None (BlackjackNatural winnings)
      end
    else Done (set_blackjack_games games w1)
              (Some (mkBlackjackView uid m)) BlackjackShown
  end end end end.

Definition set_game_deck_player (d p : list Card) (g : Game) : Game :=
  mkGame d p (dealer g) (mise g) (active g).
Definition set_game_dealer (d dl : list Card) (g : Game) : Game :=
  mkGame d (player g) dl (mise g) (active g).
Definition set_game_inactive (g : Game) : Game :=
  mkGame (deck g) (player g) (dealer g) (mise g) false.

(** [waifame] of [uid] changed by [delta], through [get_user_data]. *)
Definition add_to_waifame (st : Store) (uid delta : Z) : Store :=
  let '(st1, data) := get_user_data st uid in
  <[uid := set_waifame (dget (waifame data) 0 + delta) data]> st1.

(** [BlackjackView.hit]. *)
Definition hit (w : World) (v : BlackjackView) (clicker : Z)
    : Outcome BlackjackView :=
  let u := bj_user_id v in
  if bool_decide (clicker <> u) then Done w v NotYourSession
  else
  match blackjack_games w !! u with
  | None => Done w v GameOver
  | Some g =>
    if negb (active g) then Done w v GameOver
    else
    match deck_pop (deck g) with
    | None => Raised w v IndexError
    | Some (d', c) =>
      let g1 := set_game_deck_player d' (player g ++ [c]) g in
      if bool_decide (21 < hand_value (player g1)) then
        Done (set_blackjack_games (delete u (blackjack_games w))
                (set_user_data (add_to_waifame (user_data w) u (- bj_mise v)) w))
             v BlackjackBust
      else Done (set_blackjack_games (<[u := g1]> (blackjack_games w)) w)
                v BlackjackShown
    end
  end.

(** [while hand_value(dealer) < 17: dealer.append(deck.pop())] on the
    game's own lists: the deck and the dealer's hand it leaves, and
    whether the loop ended ([false]: [deck.pop()] raised on the empty
    deck after the earlier draws).  The fuel exceeds the number of cards,
    so only an empty deck stops it early. *)
Fixpoint dealer_play (fuel : nat) (d dl : list Card)
    : (list Card * list Card) * bool :=
  if bool_decide (hand_value dl < 17) then
    match fuel with
    | O => ((d, dl), false)
    | S f => match deck_pop d with
             | None => ((d, dl), false)
             | Some (d', c) => dealer_play f d' (dl ++ [c])
             end
    end
  else ((d, dl), true).

(** [BlackjackView.stand]. *)
Definition stand (w : World) (v : BlackjackView) (clicker : Z)
    : Outcome BlackjackView :=
  let u := bj_user_id v in
  if bool_decide (clicker <> u) then Done w v NotYourSession
  else
  match blackjack_games w !! u with
  | None => Done w v GameOver
  | Some g =>
    if negb (active g) then Done w v GameOver
    else
    let g1 := set_game_inactive g in
    match dealer_play (S (length (deck g1))) (deck g1) (dealer g1) with
    | ((d', dl), false) =>
        Raised (set_blackjack_games
                  (<[u := mkGame d' (player g1) dl (mise g1) false]> (blackjack_games w)) w)
               v IndexError
    | ((_, dl), true) =>
      let pv := hand_value (player g1) in
      let dv := hand_value dl in
      let delta := if bool_decide (21 < dv \/ dv < pv) then bj_mise v * 2 - bj_mise v
                   else if bool_decide (pv < dv) then - bj_mise v
                   else 0 in
      Done (set_blackjack_games (delete u (blackjack_games w))
              (set_user_data (add_to_waifame (user_data w) u delta) w))
           v BlackjackSettled
    end
  end.

(** ** Quiz sessions ([QuizView]) *)

Definition ascii_lower (c : ascii) : ascii :=
  let n := Ascii.nat_of_ascii c in
  if (65 <=? n)%nat && (n <=? 90)%nat then Ascii.ascii_of_nat (n + 32) else c.

(** [str.lower()] on ASCII text. *)
Fixpoint py_lower (s : string) : string :=
  match s with
  | EmptyString => EmptyString
  | String c s' => String (ascii_lower c) (py_lower s')
  end.

Record QuizView := mkQuizView {
  correct_answer : string;
  qv_post_id : option Z;
  qv_user_id : Z;
  answered : bool
}.

(** The callback [QuizView.make_callback(answer)] installs on the button
    of [answer]; [clicker] is [interaction.user.id]. *)
Definition quiz_answer (q : QuizView) (answer : string) (clicker : Z)
    : QuizView * Reply :=
  if answered q then (q, QuizAlreadyAnswered)
  else
    let is_correct := String.eqb (py_lower answer) (py_lower (correct_answer q)) in
    (mkQuizView (correct_answer q) (qv_post_id q) (qv_user_id q) true,
     QuizResult is_correct).

(** ** All interactive sessions *)

Inductive Session :=
  | SImage (v : ImageView)
  | SVideo (v : VideoView)
  | SQuiz (q : QuizView)
  | SBlackjack (b : BlackjackView).

Inductive Action :=
  | AImage (a : ImageAction)
  | AVideo (a : VideoAction)
  | AQuiz (answer : string)
  | AHit
  | AStand.

Definition map_outcome {S T} (f : S -> T) (o : Outcome S) : Outcome T :=
  match o with
  | Done w s r => Done w (f s) r
  | Raised w s e => Raised w (f s) e
  end.

(** A click on one of the session's buttons. *)
Definition click (w : World) (s : Session) (a : Action) (clicker : Z)
    (today : string) (fetched : option Post) : Outcome Session :=
  match s, a with
  | SImage v, AImage b => map_outcome SImage (image_click w v b clicker today fetched)
  | SVideo v, AVideo b => map_outcome SVideo (video_click w v b clicker fetched)
  | SQuiz q, AQuiz ans =>
      let '(q', r) := quiz_answer q ans clicker in Done w (SQuiz q') r
  | SBlackjack b, AHit => map_outcome SBlackjack (hit w b clicker)
  | SBlackjack b, AStand => map_outcome SBlackjack (stand w b clicker)
  | _, _ => Done w s Ok   (* a message only carries its own buttons *)
  end.

(** The user a session was created for, if any: the [user_id] each view
    stores ([None] or [0] for the image and video views means unbound). *)
Definition bound_user (s : Session) : option Z :=
  match s with
  | SImage v => if truthy (iv_user_id v) then iv_user_id v else None
  | SVideo v => if truthy (vv_user_id v) then vv_user_id v else None
  | SQuiz q => Some (qv_user_id q)
  | SBlackjack b => Some (bj_user_id b)
  end.

Definition is_help (a : Action) : bool :=
  match a with AImage IHelp | AVideo VHelp => true | _ => false end.

(** The hand value as the claim describes it: face cards 10, numerals
    their number, each ace 11 at first, and one ace after another
    counted as 1 while the total is over 21. *)
Definition spec_points (c : Card) : Z :=
  match fst c with RJ | RQ | RK => 10 | RA => 11 | Num n => n end.

Definition is_ace (r : Rank) : bool := match r with RA => true | _ => false end.

Definition spec_aces (hand : list Card) : nat :=
  length (filter (fun c : Card => is_ace (fst c) = true) hand).

(** How many aces must drop from 11 to 1 to bring [total] to 21 or less. *)
Definition aces_needed (total : Z) : nat :=
  if bool_decide (21 < total) then Z.to_nat ((total - 12) / 10) else O.

Definition spec_hand_value (hand : list Card) : Z :=
  let total := fold_right (fun c s => spec_points c + s) 0 hand in
  total - 10 * Z.of_nat (Nat.min (spec_aces hand) (aces_needed total)).

(** ** Mini-games on the balance *)

(** The world after a handler, whether it returned or raised. *)
Definition outcome_world {S} (o : Outcome S) : World :=
  match o with Done w _ _ => w | Raised w _ _ => w end.

(** The symbols of [slots]: cherry, lemon, orange, diamond, seven. *)
Inductive Symbol := Cherry | Lemon | Orange | Diamond | Seven.

Definition sym_eqb (a b : Symbol) : bool :=
  match a, b with
  | Cherry, Cherry | Lemon, Lemon | Orange, Orange
  | Diamond, Diamond | Seven, Seven => true
  | _, _ => false
  end.

Definition slots_multiplier (r0 r1 r2 : Symbol) : Z :=
  if sym_eqb r0 r1 && sym_eqb r1 r2 then
    match r0 with Seven => 20 | Diamond => 15 | _ => 10 end
  else if sym_eqb r0 r1 || sym_eqb r1 r2 || sym_eqb r0 r2 then 2
  else 0.

(** The [slots] command; [r0 r1 r2] is [random.choices(...)]. *)
Definition slots (w : World) (uid m : Z) (r0 r1 r2 : Symbol) : Outcome unit :=
  if bool_decide (m < 10) then Done w tt Ok
  else
  let '(st1, data) := get_user_data (user_data w) uid in
  if bool_decide (dget (waifame data) 0 < m) then Done (set_user_data st1 w) tt Ok
  else
  let winnings := m * slots_multiplier r0 r1 r2 in
  Done (set_user_data
          (<[uid := set_waifame (dget (waifame data) 0 - m + winnings) data]> st1) w)
       tt Ok.

(** The [discord.Member] argument of [steal]. *)
Record Member := mkMember { member_id : Z; member_bot : bool }.

(** The [steal] command.  [now] is [time.time()] (in seconds),
    [success] is [random.random() < 0.40] and [steal_percent] is
    [random.uniform(0.10, 0.30)].  [int(b * f)] is computed in floats;
    when it raises, the thief's [last_steal] is already set. *)
Definition steal (w : World) (author : Z) (target : option Member)
    (now : Z) (success : bool) (steal_percent : PyFloat) : Outcome unit :=
  match target with
  | None => Done w tt Ok
  | Some t =>
    let tid := member_id t in
    if bool_decide (tid = author) then Done w tt Ok
    else if member_bot t then Done w tt Ok
    else
    let '(st1, thief_data) := get_user_data (user_data w) author in
    let '(st2, victim_data) := get_user_data st1 tid in
    let time_left := dget (last_steal thief_data) 0 + 60 * 60 - now in
    if bool_decide (0 < time_left) then Done (set_user_data st2 w) tt Ok
    else
    let victim_waifame := dget (waifame victim_data) 0 in
    if bool_decide (victim_waifame < 50) then Done (set_user_data st2 w) tt Ok
    else
    let thief1 := set_last_steal now thief_data in
    let st3 := <[author := thief1]> st2 in
    if success then
      match int_times_float victim_waifame steal_percent with
      | inl e => Raised (set_user_data st3 w) tt e
      | inr s =>
        let stolen := Z.max s 10 in
        let thief2 := set_waifame (dget (waifame thief1) 0 + stolen) thief1 in
        let victim2 := set_waifame (dget (waifame victim_data) 0 - stolen) victim_data in
        Done (set_user_data (<[tid := victim2]> (<[author := thief2]> st2)) w) tt Ok
      end
    else
      match int_times_float (dget (waifame thief1) 0) f0_20 with
      | inl e => Raised (set_user_data st3 w) tt e
      | inr f =>
        let fine := Z.max f 10 in
        let thief2 := set_waifame (Z.max 0 (dget (waifame thief1) 0 - fine)) thief1 in
        Done (set_user_data (<[author := thief2]> st2) w) tt Ok
      end
  end.

(** The [daily] command; [today] and [yesterday] are the two formatted
    dates, [base_reward] is [random.randint(50, 150)]. *)
Definition daily (w : World) (uid : Z) (today yesterday : string)
    (base_reward : Z) : Outcome unit :=
  let '(st1, data) := get_user_data (user_data w) uid in
  let last := dget (last_daily data) ""%string in
  let streak := dget (daily_streak data) 0 in
  if bool_decide (last = today) then Done (set_user_data st1 w) tt Ok
  else
  let streak1 := if bool_decide (last = yesterday) then streak + 1 else 1 in
  let total_reward := base_reward + Z.min (streak1 * 10) 100 in
  let data1 := set_daily_streak streak1
                 (set_last_daily today
                    (set_waifame (dget (waifame data) 0 + total_reward) data)) in
  Done (set_user_data (<[uid := data1]> st1) w) tt Ok.

(** The deal of the counterexample to C4: the player gets Q and 5 (15),
    the dealer 3 and 2, and the next card is a King. *)
Definition bj_deck0 : list Card :=
  [(RK, "spades"); (Num 2, "hearts"); (Num 3, "hearts");
   (Num 5, "diamonds"); (RQ, "clubs")]%string.

Definition world0 : World :=
  mkWorld {[ 1 := set_waifame 100 new_account ]} ∅ ∅ ∅.

(** ** Earned currency of a post *)

(** The answer of [GET tags.json?search[name]=...]: the request failed
    (exception, timeout, or a body that is not JSON), or it returned a
    status and a JSON list of tag records, each with an optional
    [post_count]. *)
Inductive TagResponse :=
  | RespError
  | RespStatus (status : Z) (records : list (option Z)).

(** Whitespace for [str.split()] (the ASCII part of [str.isspace]). *)
Definition is_py_space (c : ascii) : bool :=
  let n := Ascii.nat_of_ascii c in
  ((9 <=? n) && (n <=? 13) || (28 <=? n) && (n <=? 32))%nat.

Fixpoint split_go (s : string) (cur : list ascii) : list string :=
  match s with
  | EmptyString =>
      match cur with [] => [] | _ => [String.string_of_list_ascii (rev cur)] end
  | String c s' =>
      if is_py_space c then
        match cur with
        | [] => split_go s' []
        | _ => String.string_of_list_ascii (rev cur) :: split_go s' []
        end
      else split_go s' (c :: cur)
  end.

(** [s.split()]. *)
Definition py_split (s : string) : list string := split_go s [].

Section ArtistFame.

(** The Danbooru tag API, as a function of the artist name. *)
Variable tags_lookup : string -> TagResponse.

(** The [post_count] the uncached branch of [get_artist_fame_bonus]
    computes. *)
Definition lookup_post_count (artist_name : string) : Z :=
  match tags_lookup artist_name with
  | RespError => 0
  | RespStatus status records =>
      if bool_decide (status = 200) then
        match records with
        | r :: _ => dget r 0
        | [] => 0
        end
      else 0
  end.

Definition fame_bonus (post_count : Z) : Z :=
  if bool_decide (10000 <= post_count) then 10
  else if bool_decide (5000 <= post_count) then 7
  else if bool_decide (2000 <= post_count) then 5
  else if bool_decide (1000 <= post_count) then 3
  else if bool_decide (500 <= post_count) then 2
  else if bool_decide (100 <= post_count) then 1
  else 0.

(** [get_artist_fame_bonus(post)]; the function-attached cache is the
    map threaded through. *)
Definition get_artist_fame_bonus (cache : gmap string Z) (post : Post)
    : gmap string Z * Z :=
  match py_split (dget (tag_string_artist post) ""%string) with
  | [] => (cache, 0)
  | artist_name :: _ =>
      match cache !! artist_name with
      | Some post_count => (cache, fame_bonus post_count)
      | None =>
          let post_count := lookup_post_count artist_name in
          (<[artist_name := post_count]> cache, fame_bonus post_count)
      end
  end.

(** [calculate_waifame(post)]. *)
Definition calculate_waifame (cache : gmap string Z) (post : Post)
    : gmap string Z * Z :=
  let sc := dget (score post) 0 in
  let fc := dget (fav_count post) 0 in
  let base := 1 in
  let score_bonus := Z.max 0 sc / 50 in
  let fav_bonus := fc / 100 in
  let '(cache1, artist_bonus) := get_artist_fame_bonus cache post in
  (cache1, base + score_bonus + fav_bonus + artist_bonus).

(** The cache holds what the API answers for each name. *)
Definition cache_ok (cache : gmap string Z) : Prop :=
  forall name pc, cache !! name = Some pc -> pc = lookup_post_count name.

End ArtistFame.

(** The bonus table as the claim lists it. *)
Definition spec_artist_bonus (post_count : Z) : Z :=
  if 10000 <=? post_count then 10
  else if 5000 <=? post_count then 7
  else if 2000 <=? post_count then 5
  else if 1000 <=? post_count then 3
  else if 500 <=? post_count then 2
  else if 100 <=? post_count then 1
  else 0.

(** ** Commands and views outside the economy claims *)

(** [add_waifame(user_id, post)] (defined, not called by any handler):
    returns [(earned, new total)]. *)
Definition add_waifame (tags_lookup : string -> TagResponse)
    (cache : gmap string Z) (st : Store) (uid : Z) (post : Post)
    : gmap string Z * Store * (Z * Z) :=
  let '(st1, data) := get_user_data st uid in
  let '(cache1, earned) := calculate_waifame tags_lookup cache post in
  let data1 := set_waifame (dget (waifame data) 0 + earned) data in
  (cache1, <[uid := data1]> st1, (earned, dget (waifame data1) 0)).

(** The numbers of the [stats] embed. *)
Record Stats := mkStats {
  stats_view_count : Z;
  stats_fav_count : Z;
  stats_waifame : Z;
  stats_daily_remaining : Z
}.

(** The [stats] command; [today] is [get_today_date()]. *)
Definition stats (st : Store) (uid : Z) (today : string) : Store * Stats :=
  let '(st1, data) := get_user_data st uid in
  let daily_remaining :=
    if bool_decide (last_fav_date data <> Some today) then 5
    else 5 - dget (daily_favs data) 0 in
  (st1, mkStats (dget (view_count data) 0) (Z.of_nat (length (favorites data)))
                (dget (waifame data) 0) daily_remaining).

Definition ADMIN_ID : Z := 571430702630043668.

(** The [give] command; [author] is [ctx.author.id]. *)
Definition give (w : World) (author : Z) (target : option Member) (amount : Z)
    : Outcome unit :=
  if bool_decide (author <> ADMIN_ID) then Done w tt Ok
  else
  match target with
  | None => Done w tt Ok
  | Some t =>
      if bool_decide (amount <= 0) then Done w tt Ok
      else
      let '(st1, data) := get_user_data (user_data w) (member_id t) in
      Done (set_user_data
              (<[member_id t := set_waifame (dget (waifame data) 0 + amount) data]> st1) w)
           tt Ok
  end.

(** The dict [reset] stores; its keys [fish_caught] and [last_fish] are
    read only by [fish] and are not fields of [Account]. *)
Definition reset_account : Account :=
  mkAccount [] (Some 0) (Some 0) (Some 0) (Some ""%string)
    (Some ""%string) (Some 0) (Some 0).

(** The [reset] command. *)
Definition reset (w : World) (author : Z) (target : option Member) : Outcome unit :=
  if bool_decide (author <> ADMIN_ID) then Done w tt Ok
  else
  let user_id := match target with None => author | Some t => member_id t end in
  match user_data w !! user_id with
  | Some _ => Done (set_user_data (<[user_id := reset_account]> (user_data w)) w) tt Ok
  | None => Done w tt Ok   (* "Utilisateur non trouve" *)
  end.

(** [leaderboard_data.sort(key=lambda x: x[1], reverse=True)] is a
    stable sort on descending balance: each entry goes after every entry
    already placed whose balance is at least as large. *)
Fixpoint insert_desc (x : Z * Z) (l : list (Z * Z)) : list (Z * Z) :=
  match l with
  | [] => [x]
  | y :: l' => if bool_decide (snd x <= snd y) then y :: insert_desc x l' else x :: l
  end.

Definition sort_desc (l : list (Z * Z)) : list (Z * Z) :=
  fold_left (fun acc x => insert_desc x acc) l [].

(** The [leaderboard] command over [user_data.items()] (in the dict's
    order): the rows shown (the first 10) and the footer's total. *)
Definition leaderboard (items : list (Z * Account)) : list (Z * Z) * Z :=
  let leaderboard_data :=
    filter (fun e : Z * Z => 0 < snd e)
      (map (fun '(uid, data) => (uid, dget (waifame data) 0)) items) in
  let sorted := sort_desc leaderboard_data in
  (take 10 sorted, Z.of_nat (length sorted)).

(** A [FavoritesView]: its user, [self.index], and the [disabled] flags
    of the two navigation buttons. *)
Record FavoritesView := mkFavoritesView {
  fv_user_id : Z;
  fv_index : Z;
  prev_disabled : bool;
  next_disabled : bool
}.

Definition set_fv_index (i : Z) (v : FavoritesView) : FavoritesView :=
  mkFavoritesView (fv_user_id v) i (prev_disabled v) (next_disabled v).

(** What a [FavoritesView] click answers: the favorite shown (index,
    entry, list length), the "list is now empty" message, or nothing
    (the interaction gets no response). *)
Inductive FavReply :=
  | FavShown (index : Z) (entry : FavPost) (count : Z)
  | FavListEmpty
  | FavNoResponse.

(** [FavoritesView.get_user_favs]: the list object stored in the user's
    dict. *)
Definition get_user_favs (st : Store) (v : FavoritesView) : Store * list FavPost :=
  let '(st1, data) := get_user_data st (fv_user_id v) in (st1, favorites data).

(** [FavoritesView.update_view]. *)
Definition update_view (st : Store) (v : FavoritesView) : Store * FavoritesView :=
  let '(st1, user_favs) := get_user_favs st v in
  (st1, mkFavoritesView (fv_user_id v) (fv_index v)
          (bool_decide (fv_index v = 0))
          (bool_decide (Z.of_nat (length user_favs) - 1 <= fv_index v))).

(** [FavoritesView.show_favorite]. *)
Definition show_favorite (st : Store) (v : FavoritesView) : Store * FavReply :=
  let '(st1, user_favs) := get_user_favs st v in
  if bool_decide (0 <= fv_index v < Z.of_nat (length user_favs)) then
    match user_favs !! Z.to_nat (fv_index v) with
    | Some p => (st1, FavShown (fv_index v) p (Z.of_nat (length user_favs)))
    | None => (st1, FavNoResponse)   (* unreachable: the index is in range *)
    end
  else (st1, FavNoResponse).

(** [FavoritesView.prev_callback] and [next_callback]. *)
Definition fv_prev_callback (st : Store) (v : FavoritesView)
    : Store * FavoritesView * FavReply :=
  let '(st1, v1) := update_view st (set_fv_index (fv_index v - 1) v) in
  let '(st2, r) := show_favorite st1 v1 in (st2, v1, r).

Definition fv_next_callback (st : Store) (v : FavoritesView)
    : Store * FavoritesView * FavReply :=
  let '(st1, v1) := update_view st (set_fv_index (fv_index v + 1) v) in
  let '(st2, r) := show_favorite st1 v1 in (st2, v1, r).

(** [FavoritesView.delete_callback]: [user_favs.pop(self.index)] acts on
    the list inside the user's dict, so the store changes with it. *)
Definition fv_delete_callback (st : Store) (v : FavoritesView)
    : Store * FavoritesView * FavReply :=
  let '(st1, data) := get_user_data st (fv_user_id v) in
  let user_favs := favorites data in
  let i := fv_index v in
  if bool_decide (0 <= i < Z.of_nat (length user_favs)) then
    let rest := take (Z.to_nat i) user_favs ++ drop (S (Z.to_nat i)) user_favs in
    let st2 := <[fv_user_id v := set_favorites rest data]> st1 in
    if bool_decide (length rest = O) then (st2, v, FavListEmpty)
    else
      let i1 := if bool_decide (Z.of_nat (length rest) <= i)
                then Z.of_nat (length rest) - 1 else i in
      let '(st3, v1) := update_view st2 (set_fv_index i1 v) in
      let '(st4, r) := show_favorite st3 v1 in (st4, v1, r)
  else (st1, v, FavNoResponse).

(** The [favorites_list] command: [FavoritesView(ctx.author.id)] at index
    0 and its first favorite, or [None] with "Tu n'as pas encore de
    favoris". *)
Definition favorites_list (st : Store) (uid : Z)
    : Store * option (FavoritesView * FavPost) :=
  let '(st1, data) := get_user_data st uid in
  match favorites data with
  | [] => (st1, None)
  | first_post :: _ =>
      let '(st2, v) := update_view st1 (mkFavoritesView uid 0 false false) in
      (st2, Some (v, first_post))
  end.

(** [ImageView.__init__]: the fields, and the [get_user_data(user_id)]
    behind the favorite button when [user_id] is truthy; the boolean is
    [is_fav]. *)
Definition image_view_init (st : Store) (guild : Z) (post : Post)
    (tags : string) (user_id : option Z) : Store * ImageView * bool :=
  let v := mkImageView guild post user_id tags in
  if truthy user_id then
    let '(st1, data) := get_user_data st (dget user_id 0) in
    (st1, v, is_fav_of (id post) (favorites data))
  else (st, v, false).

(** [send_main_view(ctx, post, tags, user_id)]: the world, the view sent
    and the view count of its footer. *)
Definition send_main_view (w : World) (guild : Z) (post : Post) (tags : string)
    (user_id : Z) : World * ImageView * Z :=
  let w1 := set_history (hist_append (history w) guild post) w in
  let '(st2, view_count) := increment_view_count (user_data w1) user_id in
  let '(st3, v, _) := image_view_init st2 guild post tags (Some user_id) in
  (set_user_data st3 w1, v, view_count).

(** The [next] command; [fetched] is [get_danbooru_image(tags)]. *)
Definition next_cmd (w : World) (author guild : Z) (tags : string)
    (fetched : option Post) : World * option ImageView :=
  match fetched with
  | None => (w, None)
  | Some post =>
      let '(w1, v, _) := send_main_view w guild post tags author in (w1, Some v)
  end.

(** One entry of the autocomplete answer, with its optional keys. *)
Record TagItem := mkTagItem { item_value : option string; item_label : option string }.

Inductive AutoResponse :=
  | AutoError
  | AutoStatus (status : Z) (items : list TagItem).

(** [get_tag_suggestions(query)]; [resp] is the autocomplete answer. *)
Definition get_tag_suggestions (resp : AutoResponse) : list string :=
  match resp with
  | AutoError => []
  | AutoStatus status data =>
      if bool_decide (status = 200) then
        map (fun item => dget (item_value item) (dget (item_label item) ""%string))
          (take 10 data)
      else []
  end.

(** The option values of [TagSelectView]: [tag[:100]] for the first ten
    suggestions, then the original query. *)
Definition tag_select_values (suggestions : list string) (original_query : string)
    : list string :=
  map (fun tag => String.substring 0 100 tag) (take 10 suggestions) ++ [original_query].

(** [TagSearchModal.do_search]; the modal's [user_id] is the one of the
    [ImageView] that opened it, an int in every view the program creates. *)
Definition do_search (w : World) (user_id guild : Z) (tags : string)
    (fetched : option Post) : World * option ImageView :=
  match fetched with
  | None => (w, None)
  | Some post =>
      let w1 := set_history (hist_append (history w) guild post) w in
      let '(st2, _) := increment_view_count (user_data w1) user_id in
      let '(st3, v, _) := image_view_init st2 guild post tags (Some user_id) in
      (set_user_data st3 w1, Some v)
  end.

(** What [TagSearchModal.on_submit] leads to: a [TagSelectView] with
    these option values, or the direct search. *)
Inductive SearchStep :=
  | TagSelector (values : list string)
  | Searched (v : option ImageView).

(** [TagSearchModal.on_submit]; [resp] is the autocomplete answer and
    [fetched] the image a direct search gets. *)
Definition on_submit (w : World) (user_id guild : Z) (query : string)
    (resp : AutoResponse) (fetched : option Post) : World * SearchStep :=
  let suggestions := get_tag_suggestions resp in
  if bool_decide (1 < length suggestions)%nat then
    (w, TagSelector (tag_select_values suggestions query))
  else
    let '(w1, v) := do_search w user_id guild query fetched in (w1, Searched v).

(** [TagSelectView.select_callback] runs the body of [do_search] on the
    selected value. *)
Definition select_callback (w : World) (user_id guild : Z) (selected_tag : string)
    (fetched : option Post) : World * option ImageView :=
  do_search w user_id guild selected_tag fetched.

(** [str.replace("_", " ")]. *)
Fixpoint replace_underscore (s : string) : string :=
  match s with
  | EmptyString => EmptyString
  | String c s' =>
      String (if Ascii.eqb c "_"%char then " "%char else c) (replace_underscore s')
  end.

Definition is_ascii_letter (c : ascii) : bool :=
  let n := Ascii.nat_of_ascii c in
  ((65 <=? n) && (n <=? 90) || (97 <=? n) && (n <=? 122))%nat.

Definition ascii_upper (c : ascii) : ascii :=
  let n := Ascii.nat_of_ascii c in
  if (97 <=? n)%nat && (n <=? 122)%nat then Ascii.ascii_of_nat (n - 32) else c.

(** [str.title()] on ASCII text: a letter after a letter is lowered, any
    other letter raised, and a non-letter starts a new word. *)
Fixpoint title_go (prev_cased : bool) (s : string) : string :=
  match s with
  | EmptyString => EmptyString
  | String c s' =>
      if is_ascii_letter c then
        String (if prev_cased then ascii_lower c else ascii_upper c) (title_go true s')
      else String c (title_go false s')
  end.

Definition py_title (s : string) : string := title_go false s.

(** [all_decoys] of the [quiz] command. *)
Definition all_decoys : list string := [
  "Hatsune Miku"; "Sakura Haruno"; "Rem"; "Emilia"; "Zero Two"; "Asuna Yuuki";
  "Mikasa Ackerman"; "Hinata Hyuga"; "Naruto Uzumaki"; "Sasuke Uchiha";
  "Goku"; "Vegeta"; "Luffy"; "Zoro"; "Nami"; "Robin"; "Erza Scarlet";
  "Lucy Heartfilia"; "Natsu Dragneel"; "Megumin"; "Aqua"; "Darkness";
  "Tohru"; "Kanna Kamui"; "Saber"; "Rin Tohsaka"; "Shinobu Oshino";
  "Taiga Aisaka"; "Misaka Mikoto"; "Kurisu Makise"; "Mai Sakurajima";
  "Nezuko Kamado"; "Tanjiro Kamado"; "Zenitsu Agatsuma"; "Inosuke Hashibira";
  "Yor Forger"; "Anya Forger"; "Power"; "Makima"; "Denji"; "Aki Hayakawa";
  "Marin Kitagawa"; "Chika Fujiwara"; "Kaguya Shinomiya"; "Ai Hoshino";
  "Frieren"; "Fern"; "Bocchi"; "Ryo Yamada"; "Kobayashi"; "Elma";
  "Yuki Nagato"; "Haruhi Suzumiya"; "C.C."; "Lelouch"; "Levi Ackerman";
  "Eren Yeager"; "Historia Reiss"; "Annie Leonhart"; "Violet Evergarden";
  "Raphtalia"; "Naofumi"; "Aqua Hoshino"; "Ruby Hoshino"; "Kana Arima"]%string.

(** [random.shuffle] as the permutation [perm] of the positions. *)
Definition permute (perm : list nat) (l : list string) : list string :=
  map (fun i => nth i l ""%string) perm.

(** The [quiz] command.  A fetch is the post with its
    [tag_string_character]; [sample] are the positions [random.sample]
    picks in [available_decoys] and [perm] the shuffle.  The result is the
    [QuizView] and the answers of its buttons. *)
Definition quiz_cmd (author : Z) (fetched1 fetched2 : option (Post * option string))
    (sample perm : list nat) : option (QuizView * list string) :=
  match fetched1 with
  | None => None
  | Some (post1, chars1) =>
    let found :=
      match py_split (dget chars1 ""%string) with
      | [] => match fetched2 with
              | Some (post2, chars2) => Some (post2, py_split (dget chars2 ""%string))
              | None => None
              end
      | char_tags => Some (post1, char_tags)
      end in
    match found with
    | None | Some (_, []) => None
    | Some (post, tag :: _) =>
        let correct := py_title (replace_underscore tag) in
        let available_decoys :=
          filter (fun d => py_lower d <> py_lower correct) all_decoys in
        let wrong_answers := map (fun i => nth i available_decoys ""%string) sample in
        let all_answers := permute perm (correct :: wrong_answers) in
        Some (mkQuizView correct (id post) author false, all_answers)
    end
  end.

(** The verdict of the button of [answer] on a fresh quiz. *)
Definition judged_correct (q : QuizView) (answer : string) : bool :=
  match snd (quiz_answer q answer (qv_user_id q)) with
  | QuizResult b => b
  | _ => false
  end.

(** A post of the [posts.json] answer with the URL keys the fetchers read. *)
Record ApiPost := mkApiPost {
  ap_post : Post;
  ap_file_url : option string;
  ap_large_file_url : option string;
  ap_file_ext : option string
}.

Definition set_ap_file_url (u : string) (p : ApiPost) : ApiPost :=
  mkApiPost (ap_post p) (Some u) (ap_large_file_url p) (ap_file_ext p).

(** The [posts.json] request: failed (also a body that is not a JSON
    list), or a status and the posts. *)
Inductive PostsResponse :=
  | PostsError
  | PostsStatus (status : Z) (posts : list ApiPost).

(** Python truthiness of an optional string. *)
Definition str_truthy (o : option string) : bool :=
  match o with Some s => negb (String.eqb s ""%string) | None => false end.

(** [post.get('file_url') or post.get('large_file_url')]. *)
Definition file_url_of (p : ApiPost) : option string :=
  if str_truthy (ap_file_url p) then ap_file_url p else ap_large_file_url p.

(** [s.endswith(suffix)]. *)
Definition ends_with (suffix s : string) : bool :=
  let n := String.length s in
  let k := String.length suffix in
  (k <=? n)%nat && String.eqb (String.substring (n - k) k s) suffix.

Definition image_exts : list string := [".jpg"; ".jpeg"; ".png"; ".gif"; ".webp"]%string.

Definition is_image_url (u : string) : bool :=
  existsb (fun e => ends_with e (py_lower u)) image_exts.

(** The loop of [get_danbooru_image] over the answer. *)
Fixpoint first_image (posts : list ApiPost) : option ApiPost :=
  match posts with
  | [] => None
  | p :: ps =>
      match file_url_of p with
      | Some u => if str_truthy (Some u) && is_image_url u
                  then Some (set_ap_file_url u p) else first_image ps
      | None => first_image ps
      end
  end.

(** [get_danbooru_image(tags)]; [resp] is the API's answer. *)
Definition get_danbooru_image (resp : PostsResponse) : option ApiPost :=
  match resp with
  | PostsError => None
  | PostsStatus status data => if bool_decide (status = 200) then first_image data else None
  end.

(** The loop of [get_danbooru_video]. *)
Fixpoint first_video (posts : list ApiPost) : option ApiPost :=
  match posts with
  | [] => None
  | p :: ps =>
      let file_ext := dget (ap_file_ext p) ""%string in
      match file_url_of p with
      | Some u => if str_truthy (Some u) &&
                     (String.eqb file_ext "mp4" || String.eqb file_ext "webm")
                  then Some (set_ap_file_url u p) else first_video ps
      | None => first_video ps
      end
  end.

(** [get_danbooru_video(tags)]; [resp] answers the tags [tags + " video"]. *)
Definition get_danbooru_video (resp : PostsResponse) : option ApiPost :=
  match resp with
  | PostsError => None
  | PostsStatus status data => if bool_decide (status = 200) then first_video data else None
  end.

(** A row of the [users] table.  [view_count], [waifame] and
    [daily_favs] are [INTEGER] columns, so a stored value is a 32-bit
    integer.  [favorites] holds [json.dumps] of the list, read back with
    [json.loads]; the column is the list itself. *)
Record DbRow := mkDbRow {
  row_view_count : Z;
  row_waifame : Z;
  row_daily_favs : Z;
  row_last_fav_date : string;
  row_favorites : list FavPost
}.

Abbreviation Db := (gmap Z DbRow).

(** Where [save_user_data] writes: the [users] table, and the JSON file
    [DATA_FILE] ([None] while it does not exist). *)
Record Storage := mkStorage { table : Db; json_file : option Store }.

(** The values [save_user_data] writes for one user. *)
Definition db_row (data : Account) : DbRow :=
  mkDbRow (dget (view_count data) 0) (dget (waifame data) 0)
    (dget (daily_favs data) 0) (dget (last_fav_date data) ""%string) (favorites data).

(** A value PostgreSQL accepts in an [INTEGER] column. *)
Definition int4_ok (z : Z) : bool := (- 2 ^ 31 <=? z) && (z <? 2 ^ 31).

Definition row_fits (r : DbRow) : bool :=
  int4_ok (row_view_count r) && int4_ok (row_waifame r) && int4_ok (row_daily_favs r).

(** Every upsert of the loop succeeds ([integer out of range] otherwise). *)
Definition save_ok (st : Store) : bool :=
  forallb (fun '(_, data) => row_fits (db_row data)) (map_to_list st).

(** [save_user_data()].  [connected] tells whether [get_db_connection()]
    returned a connection.  With one, it runs one upsert per user and
    commits at the end; an upsert that fails raises inside the [try], the
    error is printed and nothing is committed.  Without one, it dumps
    [user_data] to the JSON file. *)
Definition save_user_data (connected : bool) (st : Store) (s : Storage) : Storage :=
  if connected then
    if save_ok st then
      mkStorage (fold_left (fun acc '(uid, data) => <[uid := db_row data]> acc)
                   (map_to_list st) (table s)) (json_file s)
    else s
  else mkStorage (table s) (Some st).

(** The dict [load_user_data] builds from a row ([row[4] or ""] is the
    stored string). *)
Definition account_of_row (row : DbRow) : Account :=
  mkAccount (row_favorites row) (Some (row_view_count row)) (Some (row_waifame row))
    (Some (row_daily_favs row)) (Some (row_last_fav_date row)) None None None.

(** [load_user_data_json()]: the file's dict replaces [user_data] when
    the file exists. *)
Definition load_user_data_json (s : Storage) (st : Store) : Store :=
  match json_file s with Some f => f | None => st end.

(** [load_user_data()]: with a connection every row overwrites the user
    in the current [user_data] (the [favorites] column, written by
    [json.dumps], always parses); without one, [load_user_data_json()]. *)
Definition load_user_data (connected : bool) (s : Storage) (st : Store) : Store :=
  if connected then
    fold_left (fun acc '(uid, row) => <[uid := account_of_row row]> acc) (map_to_list (table s)) st
  else load_user_data_json s st.

(** The order of [leaderboard_data.sort(key=lambda x: x[1], reverse=True)]. *)
Definition wf_ge (a b : Z * Z) : Prop := snd b <= snd a.

(** The test of [get_danbooru_image]'s loop on one post: the URL it
    would return, if any. *)
Definition image_ok (q : ApiPost) : option string :=
  match file_url_of q with
  | Some u => if str_truthy (Some u) && is_image_url u then Some u else None
  | None => None
  end.

(** The test of [get_danbooru_video]'s loop on one post. *)
Definition video_ok (q : ApiPost) : option string :=
  match file_url_of q with
  | Some u => if str_truthy (Some u) &&
                 (String.eqb (dget (ap_file_ext q) ""%string) "mp4" ||
                  String.eqb (dget (ap_file_ext q) ""%string) "webm")
              then Some u else None
  | None => None
  end.

(** A game of user 1 for a wager of 10: the player holds 10 and 7, the
    dealer 6 and 5, and the deck ends with a 9. *)
Definition game1 : Game :=
  mkGame [(Num 2, "clubs"); (Num 9, "hearts")]%string
         [(Num 10, "spades"); (Num 7, "hearts")]%string
         [(Num 6, "clubs"); (Num 5, "diamonds")]%string 10 true.

Definition world1 : World :=
  mkWorld {[1 := set_waifame 100 new_account]} ∅ ∅ {[1 := game1]}.

(** ** General facts about the store *)

Lemma backfill_idem (a : Account) : backfill (backfill a) = backfill a.
Proof. destruct a; reflexivity. Qed.

Lemma observe_insert_eq (st : Store) (uid : Z) (a : Account) :
  observe (<[uid := a]> st) uid = backfill a.
Proof. unfold observe. by rewrite lookup_insert_eq. Qed.

Lemma observe_insert_ne (st : Store) (uid uid' : Z) (a : Account) :
  uid <> uid' -> observe (<[uid := a]> st) uid' = observe st uid'.
Proof. intros H. unfold observe. by rewrite lookup_insert_ne. Qed.

Lemma get_user_data_normal (st : Store) (uid : Z) :
  normal_at st uid -> get_user_data st uid = (st, observe st uid).
Proof.
  intros (a & Hl & Hb). unfold get_user_data, observe. rewrite Hl, Hb.
  f_equal. by apply insert_id.
Qed.

Lemma use_daily_favorite_spec (st : Store) (uid : Z) (today : string) :
  let '(st', r) := use_daily_favorite st uid today in
  let k := if decide (last_fav_date (observe st uid) = Some today)
           then dget (daily_favs (observe st uid)) 0 else 0 in
  normal_at st' uid /\
  last_fav_date (observe st' uid) = Some today /\
  daily_favs (observe st' uid) = Some (k + 1) /\
  r = 5 - (k + 1) /\
  (forall uid', uid' <> uid -> observe st' uid' = observe st uid').
Proof.
  unfold use_daily_favorite, get_user_data, reset_day.
  destruct (observe st uid) as [f vc w df lf ld ds ls] eqn:Ho.
  unfold observe in Ho.
  assert (Hlf : exists s, lf = Some s) by
    (destruct (st !! uid); inversion Ho; subst; eauto).
  assert (Hw : exists s, w = Some s) by
    (destruct (st !! uid); inversion Ho; subst; eauto).
  destruct Hlf as [s ->]; destruct Hw as [wz ->]; simpl.
  destruct (decide (Some s = Some today)) as [E|E]; simpl.
  - refine (conj _ (conj _ (conj _ (conj _ _)))).
    + eexists; split; [by rewrite lookup_insert_eq | reflexivity].
    + by rewrite observe_insert_eq.
    + by rewrite observe_insert_eq.
    + reflexivity.
    + intros uid' Hne. rewrite !observe_insert_ne by congruence. reflexivity.
  - refine (conj _ (conj _ (conj _ (conj _ _)))).
    + eexists; split; [by rewrite lookup_insert_eq | reflexivity].
    + by rewrite observe_insert_eq.
    + by rewrite observe_insert_eq.
    + reflexivity.
    + intros uid' Hne. rewrite !observe_insert_ne by congruence. reflexivity.
Qed.

Lemma consume_same_day (st : Store) (uid : Z) (today : string) (k : Z) (n : nat) :
  last_fav_date (observe st uid) = Some today ->
  daily_favs (observe st uid) = Some k ->
  let st' := consume_times n st uid today in
  last_fav_date (observe st' uid) = Some today /\
  daily_favs (observe st' uid) = Some (k + Z.of_nat n) /\
  (n <> O -> normal_at st' uid).
Proof.
  revert st k. induction n as [|n IH]; intros st k Hd Hk; cbn [consume_times].
  - rewrite Hk. split; [exact Hd | split; [f_equal; lia | congruence]].
  - pose proof (use_daily_favorite_spec st uid today) as Hs.
    destruct (use_daily_favorite st uid today) as [st1 r]; cbn [fst].
    destruct Hs as (Hn1 & Hd1 & Hk1 & _ & _).
    rewrite Hd, Hk in Hk1. rewrite decide_True in Hk1 by reflexivity.
    simpl in Hk1.
    destruct (IH st1 (k + 1) Hd1 Hk1) as (H1 & H2 & H3).
    repeat split; [exact H1 | rewrite H2; f_equal; lia |].
    intros _. destruct n; [exact Hn1 | apply H3; discriminate].
Qed.

Lemma check_user_bound (uid : Z) :
  uid <> 0 -> check_user (Some uid) uid = true.
Proof.
  intros H. unfold check_user, truthy.
  rewrite bool_decide_eq_true_2 by reflexivity.
  destruct (uid =? 0); reflexivity.
Qed.

Lemma truthy_bound (uid : Z) : uid <> 0 -> truthy (Some uid) = true.
Proof. intros H. unfold truthy. apply negb_true_iff, Z.eqb_neq, H. Qed.

Lemma can_add_favorite_full (st : Store) (uid : Z) (today : string) (k : Z) :
  normal_at st uid ->
  last_fav_date (observe st uid) = Some today ->
  daily_favs (observe st uid) = Some k -> 5 <= k ->
  can_add_favorite st uid today = (st, false).
Proof.
  intros Hn Hd Hk Hle. unfold can_add_favorite.
  rewrite (get_user_data_normal st uid Hn).
  unfold reset_day. rewrite decide_True by exact Hd.
  rewrite Hk; simpl.
  pose proof (get_user_data_normal st uid Hn) as E.
  unfold get_user_data in E. injection E as E.
  rewrite E. f_equal. apply bool_decide_eq_false_2. lia.
Qed.

Lemma fav_callback_full (st : Store) (v : ImageView) (uid : Z)
    (today : string) (k : Z) :
  iv_user_id v = Some uid -> uid <> 0 ->
  normal_at st uid ->
  last_fav_date (observe st uid) = Some today ->
  daily_favs (observe st uid) = Some k -> 5 <= k ->
  is_fav_of (id (iv_post v)) (favorites (observe st uid)) = false ->
  fav_callback st v uid today = (st, v, FavLimitReached).
Proof.
  intros Hv Hu Hn Hd Hk Hle Hf. unfold fav_callback.
  rewrite Hv, (check_user_bound uid Hu), (truthy_bound uid Hu). cbn [negb dget].
  rewrite Hv; cbn [dget].
  rewrite (get_user_data_normal st uid Hn), Hf.
  rewrite (can_add_favorite_full st uid today k Hn Hd Hk Hle).
  reflexivity.
Qed.

(** ** Claim theorems: daily favorites and views *)

(** C1: starting from a day on which the account has used no favorite
    slot yet (its stored date is another day, or its counter is 0),
    five calls of [use_daily_favorite] leave [daily_favs] at exactly 5
    with the stored date equal to today; a sixth add of a post not yet in
    the favorites through [fav_callback] (by the bound user) is refused
    with the store unchanged; every call of [use_daily_favorite] returns
    5 minus the counter it leaves. *)
Theorem daily_favorite_gate_five (st : Store) (uid : Z) (today : string)
    (v : ImageView)
    (Hfresh : last_fav_date (observe st uid) <> Some today \/
              daily_favs (observe st uid) = Some 0)
    (Hbound : iv_user_id v = Some uid) (Huid : uid <> 0)
    (Hnew : is_fav_of (id (iv_post v))
              (favorites (observe (consume_times 5 st uid today) uid)) = false) :
  let st5 := consume_times 5 st uid today in
  daily_favs (observe st5 uid) = Some 5 /\
  last_fav_date (observe st5 uid) = Some today /\
  fav_callback st5 v uid today = (st5, v, FavLimitReached) /\
  (forall st' : Store,
     snd (use_daily_favorite st' uid today) =
     5 - dget (daily_favs (observe (fst (use_daily_favorite st' uid today)) uid)) 0).
Proof.
  cbv zeta.
  assert (Hrem : forall st' : Store,
     snd (use_daily_favorite st' uid today) =
     5 - dget (daily_favs (observe (fst (use_daily_favorite st' uid today)) uid)) 0).
  { intros st'. pose proof (use_daily_favorite_spec st' uid today) as Hs.
    destruct (use_daily_favorite st' uid today) as [st1 r].
    destruct Hs as (_ & _ & Hk & Hr & _). cbn [fst snd]. rewrite Hk, Hr.
    reflexivity. }
  change (consume_times 5 st uid today)
    with (consume_times 4 (fst (use_daily_favorite st uid today)) uid today) in *.
  pose proof (use_daily_favorite_spec st uid today) as Hs.
  destruct (use_daily_favorite st uid today) as [st1 r]. cbn [fst] in *.
  destruct Hs as (Hn1 & Hd1 & Hk1 & _ & _).
  assert (Hk1' : daily_favs (observe st1 uid) = Some 1).
  { rewrite Hk1. destruct (decide _) as [E|E]; [|reflexivity].
    destruct Hfresh as [H|H]; [contradiction|]. rewrite H. reflexivity. }
  destruct (consume_same_day st1 uid today 1 4 Hd1 Hk1') as (Hd5 & Hk5 & Hn5).
  cbn [Z.of_nat Pos.of_succ_nat Pos.succ] in Hk5.
  refine (conj Hk5 (conj Hd5 (conj _ Hrem))).
  apply (fav_callback_full _ v uid today 5); try assumption.
  - apply Hn5. discriminate.
  - lia.
Qed.

(** C2: [increment_view_count] raises the user's [view_count] by exactly
    one, returns the new count, leaves the user's [waifame] (as read by
    [data.get("waifame", 0)]) unchanged, and leaves every other user as
    it was. *)
Theorem increment_view_count_frame (st : Store) (uid : Z) :
  let '(st', n) := increment_view_count st uid in
  n = dget (view_count (observe st uid)) 0 + 1 /\
  dget (view_count (observe st' uid)) 0 = n /\
  dget (waifame (observe st' uid)) 0 = dget (waifame (observe st uid)) 0 /\
  (forall uid', uid' <> uid -> observe st' uid' = observe st uid').
Proof.
  unfold increment_view_count, get_user_data.
  refine (conj eq_refl (conj _ (conj _ _))).
  - rewrite observe_insert_eq. reflexivity.
  - rewrite observe_insert_eq. destruct (observe st uid); reflexivity.
  - intros uid' Hne. rewrite !observe_insert_ne by congruence. reflexivity.
Qed.

(** ** Claim theorems: rewind and the view handlers *)

Lemma length_removelast_pop {A} (l : list A) :
  l <> [] -> length (removelast l) = (length l - 1)%nat.
Proof.
  induction l as [|x l IH]; [congruence|]. intros _.
  destruct l as [|y l]; [reflexivity|].
  change (removelast (x :: y :: l)) with (x :: removelast (y :: l)).
  cbn [length]. rewrite IH by discriminate. cbn [length]. lia.
Qed.

(** C8: with fewer than two entries in the guild's history (or none at
    all) rewind is a no-op answering "nothing to go back to"; with two or
    more it pops exactly the last entry, so the length drops by one, and
    shows the post that is now last.  The same holds for the video
    history, and each rewind touches only its own history. *)
Theorem rewind_pops_one (w : World) (v : ImageView) (vv : VideoView) :
  (let l := dget (history w !! iv_guild_id v) [] in
   ((length l < 2)%nat -> image_rewind w v = Done w v NothingToRewind) /\
   ((2 <= length l)%nat ->
    exists p,
      image_rewind w v =
        Done (set_history (<[iv_guild_id v := removelast l]> (history w)) w)
             (set_iv_post p v) (ShowPost p) /\
      length (removelast l) = (length l - 1)%nat /\
      last (removelast l) = Some p)) /\
  (let l := dget (video_history w !! vv_guild_id vv) [] in
   ((length l < 2)%nat -> video_rewind w vv = Done w vv NothingToRewind) /\
   ((2 <= length l)%nat ->
    exists p,
      video_rewind w vv =
        Done (set_video_history
                (<[vv_guild_id vv := removelast l]> (video_history w)) w)
             (set_vv_post p vv) (ShowPost p) /\
      length (removelast l) = (length l - 1)%nat /\
      last (removelast l) = Some p)).
Proof.
  assert (Hlast : forall l : list Post, (2 <= length l)%nat ->
            exists p, last (removelast l) = Some p /\
                      length (removelast l) = (length l - 1)%nat).
  { intros l Hl.
    destruct (last (removelast l)) as [p|] eqn:E.
    - exists p. split; [reflexivity|].
      rewrite length_removelast_pop; [reflexivity|]. intros ->. simpl in Hl. lia.
    - apply last_None in E. exfalso.
      assert (length (removelast l) = (length l - 1)%nat) as HL.
      { apply length_removelast_pop. intros ->. simpl in Hl. lia. }
      rewrite E in HL. simpl in HL. lia. }
  cbv zeta. split; split.
  - intros Hl. unfold image_rewind.
    destruct (history w !! iv_guild_id v) as [l|]; [|reflexivity].
    simpl in Hl. rewrite bool_decide_eq_false_2 by lia. reflexivity.
  - intros Hl. destruct (Hlast _ Hl) as (p & Hp & Hlen). exists p.
    split; [|split; assumption].
    unfold image_rewind.
    destruct (history w !! iv_guild_id v) as [l|]; simpl in *; [|lia].
    rewrite bool_decide_eq_true_2 by lia. unfold pop_then_last.
    rewrite Hp. reflexivity.
  - intros Hl. unfold video_rewind.
    destruct (video_history w !! vv_guild_id vv) as [l|]; [|reflexivity].
    simpl in Hl. rewrite bool_decide_eq_false_2 by lia. reflexivity.
  - intros Hl. destruct (Hlast _ Hl) as (p & Hp & Hlen). exists p.
    split; [|split; assumption].
    unfold video_rewind.
    destruct (video_history w !! vv_guild_id vv) as [l|]; simpl in *; [|lia].
    rewrite bool_decide_eq_true_2 by lia. unfold pop_then_last.
    rewrite Hp. reflexivity.
Qed.

(** C10: on a successful fetch the [vnext] command, and the image and
    video advance paths of a session bound to a user, destructure the
    result of [increment_view_count] into three components; it is a
    single int, so each of them raises [TypeError] (after the history
    append and the view-count increment already happened). *)
Theorem view_handlers_unpack_int (w : World) (author guild : Z) (post : Post)
    (v : ImageView) (vv : VideoView) :
  (exists w', vnext w author guild (Some post) = Raised w' tt TypeError) /\
  (truthy (iv_user_id v) = true ->
   exists w' v', update_image w v (Some post) = Raised w' v' TypeError) /\
  (truthy (vv_user_id vv) = true ->
   exists w' v', update_video w vv (Some post) = Raised w' v' TypeError).
Proof.
  split; [|split].
  - unfold vnext. destruct (increment_view_count _ author). eauto.
  - intros H. unfold update_image. cbn [set_iv_post iv_user_id].
    rewrite H. destruct (increment_view_count _ _). eauto.
  - intros H. unfold update_video. cbn [set_vv_post vv_user_id].
    rewrite H. destruct (increment_view_count _ _). eauto.
Qed.

(** The image, video and blackjack views refuse every click but help
    from anyone other than their bound user, and change nothing. *)
Lemma bound_views_reject (w : World) (s : Session) (a : Action) (u clicker : Z)
    (today : string) (fetched : option Post) :
  bound_user s = Some u -> clicker <> u ->
  (forall q, s <> SQuiz q) -> is_help a = false ->
  (exists r, click w s a clicker today fetched = Done w s r).
Proof.
  intros Hb Hne Hq Hh.
  assert (Hc : forall o, truthy o = true -> o = Some u -> check_user o clicker = false).
  { intros o Ht ->. unfold check_user. rewrite Ht.
    rewrite bool_decide_eq_false_2 by congruence. reflexivity. }
  destruct s as [v|v|q|b]; simpl in Hb.
  - destruct (truthy (iv_user_id v)) eqn:Ht; [|discriminate].
    pose proof (Hc _ Ht Hb) as Hcu.
    destruct a as [ia| | | |]; try (eexists; reflexivity).
    destruct ia; try discriminate; cbn [click image_click];
      try (unfold fav_callback); rewrite Hcu; eexists;
      [reflexivity.. | cbn; destruct w; reflexivity].
  - destruct (truthy (vv_user_id v)) eqn:Ht; [|discriminate].
    pose proof (Hc _ Ht Hb) as Hcu.
    destruct a as [|va| | |]; try (eexists; reflexivity).
    destruct va; try discriminate; cbn [click video_click];
      rewrite Hcu; eexists; reflexivity.
  - exfalso. exact (Hq q eq_refl).
  - injection Hb as <-.
    destruct a; try (eexists; reflexivity); cbn [click];
      [unfold hit | unfold stand];
      rewrite bool_decide_eq_true_2 by exact Hne; eexists; reflexivity.
Qed.

(** ** Claim theorems: authorization and blackjack *)

(** C3 (the quiz slip): a quiz started by user 1 is answered by user 2,
    who is not its bound user: the click is not refused, the quiz is
    marked answered and the result is shown, while the image, video and
    blackjack views refuse such a click (see [bound_views_reject]). *)
Theorem quiz_accepts_other_user (w : World) :
  let q := mkQuizView "Rem" (Some 42) 1 false in
  bound_user (SQuiz q) = Some 1 /\
  click w (SQuiz q) (AQuiz "Rem") 2 "2026-10-14" None =
    Done w (SQuiz (mkQuizView "Rem" (Some 42) 1 true)) (QuizResult true) /\
  SQuiz (mkQuizView "Rem" (Some 42) 1 true) <> SQuiz q.
Proof. cbv zeta. split; [reflexivity | split; [reflexivity | discriminate]]. Qed.

(** ** Float arithmetic: rounding bounds and exact cases *)

Lemma round_div_bounds (a k : Z) :
  0 <= a -> 0 < k ->
  a / 2 ^ k <= round_div a k /\ round_div a k * 2 ^ k <= a + 2 ^ (k - 1).
Proof.
  intros Ha Hk. unfold round_div.
  assert (E : 2 ^ k = 2 * 2 ^ (k - 1)).
  { rewrite <- Z.pow_succ_r by lia. f_equal. lia. }
  pose proof (Z.pow_pos_nonneg 2 (k - 1) ltac:(lia) ltac:(lia)).
  pose proof (Z.div_mod a (2 ^ k) ltac:(lia)).
  pose proof (Z.mod_pos_bound a (2 ^ k) ltac:(lia)).
  destruct (_ || _) eqn:Eu.
  - apply orb_true_iff in Eu as [Eu|Eu].
    + apply Z.ltb_lt in Eu. lia.
    + apply andb_true_iff in Eu as [Eu _]. apply Z.eqb_eq in Eu. lia.
  - apply orb_false_iff in Eu as [Eu _]. apply Z.ltb_ge in Eu. lia.
Qed.

Lemma round_binary64_cases (m e : Z) :
  round_binary64 m e = NaN -> False.
Proof. unfold round_binary64. destruct (too_big _ _); discriminate. Qed.

Lemma round_exact (m e : Z) :
  0 <= m < 2 ^ 53 -> -1074 <= e <= 0 -> round_binary64 m e = Fin m e.
Proof.
  intros Hm He. unfold round_binary64. cbv zeta.
  rewrite Z.abs_eq by lia.
  assert (Hl : Z.log2 m <= 52).
  { destruct (Z.eq_dec m 0%Z) as [->|Hn]; [cbn; lia|].
    apply Z.lt_succ_r. apply Z.log2_lt_pow2; lia. }
  rewrite (proj2 (Z.ltb_ge 0 (round_shift m e))) by (unfold round_shift; lia).
  unfold too_big.
  assert (Hf : (if 0 <=? e then 2 ^ 1024 <=? m * 2 ^ e else 2 ^ (1024 - e) <=? m) = false).
  { destruct (Z.leb_spec 0 e).
    - assert (e = 0) as -> by lia. apply Z.leb_gt.
      assert (2 ^ 53 <= 2 ^ 1024) by (apply Z.pow_le_mono_r; lia). lia.
    - apply Z.leb_gt.
      assert (2 ^ 53 <= 2 ^ (1024 - e)) by (apply Z.pow_le_mono_r; lia). lia. }
  rewrite Hf. f_equal.
  destruct (Z.eq_dec m 0%Z) as [->|]; [reflexivity|]. rewrite Z.sgn_pos by lia. lia.
Qed.

Open Scope R_scope.

Lemma IZR_pow2 (k : Z) : (0 <= k)%Z -> IZR (2 ^ k) = powerRZ 2 k.
Proof.
  intros Hk. destruct k as [|p|p]; [reflexivity| |lia].
  cbn [powerRZ]. rewrite <- (positive_nat_Z p), <- pow_IZR. reflexivity.
Qed.

Lemma powerRZ_2_neg (k : Z) : (0 <= k)%Z -> powerRZ 2 (- k) = / IZR (2 ^ k).
Proof.
  intros Hk. rewrite IZR_pow2 by exact Hk.
  destruct k as [|p|p]; [| reflexivity | lia].
  cbn [powerRZ Z.opp]. rewrite Rinv_1. reflexivity.
Qed.

Lemma IZR_pow2_pos (k : Z) : (0 <= k)%Z -> 0 < IZR (2 ^ k).
Proof. intros Hk. apply IZR_lt. apply Z.pow_pos_nonneg; lia. Qed.

Lemma fval_nonneg (m e : Z) : (0 <= m)%Z -> 0 <= fval m e.
Proof.
  intros Hm. unfold fval. apply Rmult_le_pos; [apply IZR_le; exact Hm|].
  apply powerRZ_le; lra.
Qed.

Lemma fval_shift (q e k : Z) : (0 <= k)%Z -> fval q (e + k) = IZR (q * 2 ^ k) * powerRZ 2 e.
Proof.
  intros Hk. unfold fval. rewrite powerRZ_add by lra.
  rewrite mult_IZR, IZR_pow2 by exact Hk. ring.
Qed.

Lemma fval_mul (m1 e1 m2 e2 : Z) : fval (m1 * m2) (e1 + e2) = fval m1 e1 * fval m2 e2.
Proof. unfold fval. rewrite powerRZ_add, mult_IZR by lra. ring. Qed.

(** Rounding a non-negative value up by at most a relative [2^-53] and an
    absolute [2^-1075]. *)
Lemma round_le (m e m' e' : Z) :
  (0 <= m)%Z -> round_binary64 m e = Fin m' e' ->
  (0 <= m')%Z /\ fval m' e' <= fval m e * (1 + / IZR (2 ^ 53)) + / IZR (2 ^ 1075).
Proof.
  intros Hm H. unfold round_binary64 in H. cbv zeta in H.
  rewrite Z.abs_eq in H by exact Hm.
  pose proof (fval_nonneg m e Hm) as Hv.
  pose proof (IZR_pow2_pos 53 ltac:(lia)). pose proof (IZR_pow2_pos 1075 ltac:(lia)).
  assert (Hε : 0 <= / IZR (2 ^ 53)) by (left; apply Rinv_0_lt_compat; assumption).
  assert (Hη : 0 <= / IZR (2 ^ 1075)) by (left; apply Rinv_0_lt_compat; assumption).
  destruct (Z.ltb_spec 0 (round_shift m e)) as [Hk|Hk].
  - set (k := round_shift m e) in *.
    destruct (too_big _ _); [discriminate|]. injection H as <- <-.
    destruct (round_div_bounds m k Hm Hk) as [Hlo Hhi].
    pose proof (Z.pow_pos_nonneg 2 (k - 1) ltac:(lia) ltac:(lia)) as Hh.
    assert (E2 : (2 ^ k = 2 * 2 ^ (k - 1))%Z).
    { rewrite <- Z.pow_succ_r by lia. f_equal. lia. }
    assert (Hq0 : (0 <= m / 2 ^ k)%Z) by (apply Z.div_pos; lia).
    assert (Hs : (Z.sgn m * round_div m k = round_div m k)%Z).
    { destruct (Z.eq_dec m 0%Z) as [->|Hn]; [|rewrite Z.sgn_pos by lia; lia].
      assert (Hz : (round_div 0 k = 0)%Z) by nia. rewrite Hz. reflexivity. }
    rewrite Hs. split; [lia|].
    rewrite fval_shift by lia.
    assert (HB : IZR (2 ^ (k - 1)) * powerRZ 2 e <= fval m e * / IZR (2 ^ 53) + / IZR (2 ^ 1075)).
    { unfold k, round_shift in Hk |- *. destruct (Z.max_spec (Z.log2 m + 1 - 53) (-1074 - e))
        as [[Hc Hmax]|[Hc Hmax]]; rewrite Hmax in *.
      - replace (-1074 - e - 1)%Z with (-1075 - e)%Z by lia.
        rewrite IZR_pow2 by lia. rewrite <- powerRZ_add by lra.
        replace (-1075 - e + e)%Z with (- 1075)%Z by lia.
        replace (powerRZ 2 (-1075)) with (/ IZR (2 ^ 1075)) by (rewrite <- powerRZ_2_neg by lia; reflexivity).
        pose proof (Rmult_le_pos _ _ Hv Hε). lra.
      - assert (Hm0 : (0 < m)%Z).
        { destruct (Z.eq_dec m 0%Z) as [->|]; [cbn in Hk; lia | lia]. }
        pose proof (Z.log2_spec m Hm0) as [Hl _].
        assert (Hp : (2 ^ (Z.log2 m + 1 - 53 - 1) * 2 ^ 53 <= m)%Z).
        { rewrite <- Z.pow_add_r by lia. replace (Z.log2 m + 1 - 53 - 1 + 53)%Z with (Z.log2 m) by lia.
          exact Hl. }
        apply IZR_le in Hp. rewrite mult_IZR in Hp.
        assert (Hp' : IZR (2 ^ (Z.log2 m + 1 - 53 - 1)) <= IZR m * / IZR (2 ^ 53)).
        { apply (Rmult_le_reg_r (IZR (2 ^ 53))); [assumption|].
          rewrite Rmult_assoc, Rinv_l by lra. lra. }
        assert (0 <= powerRZ 2 e) by (apply powerRZ_le; lra).
        unfold fval. apply (Rmult_le_compat_r (powerRZ 2 e)) in Hp'; [|assumption].
        lra. }
    assert (Hq : IZR (round_div m k * 2 ^ k) <= IZR m + IZR (2 ^ (k - 1))).
    { rewrite <- plus_IZR. apply IZR_le. exact Hhi. }
    assert (0 <= powerRZ 2 e) by (apply powerRZ_le; lra).
    apply (Rmult_le_compat_r (powerRZ 2 e)) in Hq; [|assumption].
    unfold fval in HB |- *. lra.
  - destruct (too_big _ _); [discriminate|]. injection H as <- <-.
    assert (Hs : (Z.sgn m * m = m)%Z).
    { destruct (Z.eq_dec m 0%Z) as [->|Hn]; [reflexivity|rewrite Z.sgn_pos by lia; lia]. }
    rewrite Hs. split; [exact Hm|].
    pose proof (Rmult_le_pos _ _ Hv Hε). lra.
Qed.

Lemma trunc_le (m e n : Z) :
  (0 <= m)%Z -> py_int (Fin m e) = inr n -> IZR n <= fval m e.
Proof.
  intros Hm H. cbn in H. injection H as <-. unfold fval.
  destruct (Z.leb_spec 0 e) as [He|He].
  - rewrite mult_IZR, IZR_pow2 by exact He. lra.
  - pose proof (Z.pow_pos_nonneg 2 (- e) ltac:(lia) ltac:(lia)).
    rewrite Z.quot_div_nonneg by lia.
    replace e with (- - e)%Z at 2 by lia. rewrite powerRZ_2_neg by lia.
    pose proof (IZR_pow2_pos (- e) ltac:(lia)).
    assert (Hd : (m / 2 ^ (- e) * 2 ^ (- e) <= m)%Z).
    { rewrite Z.mul_comm. apply Z.mul_div_le. lia. }
    apply IZR_le in Hd. rewrite mult_IZR in Hd.
    apply (Rmult_le_reg_r (IZR (2 ^ (- e)))); [assumption|].
    rewrite Rmult_assoc, Rinv_l by lra. lra.
Qed.


Lemma float_of_int_fin (z : Z) (x : PyFloat) :
  float_of_int z = inr x -> exists m e, x = Fin m e /\ round_binary64 z 0 = Fin m e.
Proof.
  unfold float_of_int. destruct (round_binary64 z 0) as [m e| |] eqn:E; try discriminate.
  - intros H. injection H as <-. eauto.
  - exfalso. exact (round_binary64_cases _ _ E).
Qed.

Lemma percent_ok_bounds (m e : Z) :
  percent_ok (Fin m e) = true -> (0 <= m)%Z /\ 0 <= fval m e <= 3 / 10.
Proof.
  intros H. cbn [percent_ok] in H.
  apply andb_true_iff in H as [H H3]. apply andb_true_iff in H as [He H1].
  apply Z.ltb_lt in He. apply Z.leb_le in H1. apply Z.leb_le in H3.
  pose proof (Z.pow_pos_nonneg 2 (- e) ltac:(lia) ltac:(lia)).
  assert (Hm : (0 <= m)%Z) by lia. split; [exact Hm|].
  split; [apply fval_nonneg, Hm|].
  unfold fval. replace e with (- - e)%Z at 1 by lia. rewrite powerRZ_2_neg by lia.
  pose proof (IZR_pow2_pos (- e) ltac:(lia)).
  apply IZR_le in H3. rewrite !mult_IZR in H3.
  apply (Rmult_le_reg_r (10 * IZR (2 ^ (- e)))); [lra|].
  replace (IZR m * / IZR (2 ^ (- e)) * (10 * IZR (2 ^ (- e)))) with (10 * IZR m)
    by (field; lra).
  lra.
Qed.

(** [int(v * x)] for a fraction [x] in [0.10, 0.30] never exceeds [v]. *)
Lemma int_times_percent_le (v : Z) (x : PyFloat) (s : Z) :
  (0 <= v)%Z -> percent_ok x = true -> int_times_float v x = inr s -> (s <= v)%Z.
Proof.
  intros Hv Hx H. unfold int_times_float in H.
  destruct (float_of_int v) as [ex|fz] eqn:Ef; [discriminate|].
  destruct (float_of_int_fin v fz Ef) as (m1 & e1 & -> & E1).
  destruct x as [m2 e2| |]; try discriminate.
  destruct (percent_ok_bounds m2 e2 Hx) as (Hm2 & Hp0 & Hp1).
  cbn [fmul] in H.
  destruct (round_binary64 (m1 * m2) (e1 + e2)) as [m3 e3| |] eqn:E3; try discriminate.
  destruct (round_le v 0 m1 e1 Hv E1) as [Hm1 B1].
  destruct (round_le (m1 * m2) (e1 + e2) m3 e3 ltac:(lia) E3) as [Hm3 B3].
  pose proof (trunc_le m3 e3 s Hm3 H) as Bs.
  rewrite fval_mul in B3.
  assert (Hv0 : fval v 0 = IZR v) by (unfold fval; cbn; ring).
  rewrite Hv0 in B1.
  assert (Hε : / IZR (2 ^ 53) <= 1 / 100).
  { rewrite <- Rmult_1_l at 1. apply Rmult_le_reg_r with (IZR (2 ^ 53)); [now apply IZR_pow2_pos|].
    replace (1 * / IZR (2 ^ 53) * IZR (2 ^ 53)) with 1
      by (field; apply Rgt_not_eq, IZR_pow2_pos; lia).
    assert (100 <= IZR (2 ^ 53)) by (apply IZR_le; vm_compute; discriminate). lra. }
  assert (Hη : / IZR (2 ^ 1075) <= 1 / 100).
  { apply Rmult_le_reg_r with (IZR (2 ^ 1075)); [now apply IZR_pow2_pos|].
    replace (/ IZR (2 ^ 1075) * IZR (2 ^ 1075)) with 1
      by (field; apply Rgt_not_eq, IZR_pow2_pos; lia).
    assert (100 <= IZR (2 ^ 1075)) by (apply IZR_le; vm_compute; discriminate). lra. }
  assert (Hε0 : 0 <= / IZR (2 ^ 53)) by (left; apply Rinv_0_lt_compat, IZR_pow2_pos; lia).
  assert (Hη0 : 0 <= / IZR (2 ^ 1075)) by (left; apply Rinv_0_lt_compat, IZR_pow2_pos; lia).
  pose proof (fval_nonneg m1 e1 Hm1) as H1.
  assert (HA : fval m1 e1 <= IZR v * (101 / 100) + 1 / 100).
  { apply IZR_le in Hv. nra. }
  assert (HAB : fval m1 e1 * fval m2 e2 <= (IZR v * (101 / 100) + 1 / 100) * (3 / 10)).
  { apply Rmult_le_compat; [exact H1 | exact Hp0 | exact HA | exact Hp1]. }
  assert (HAB0 : 0 <= fval m1 e1 * fval m2 e2) by (apply Rmult_le_pos; assumption).
  assert (HC : fval m3 e3 <= fval m1 e1 * fval m2 e2 * (101 / 100) + 1 / 100) by nra.
  assert (Hlt : IZR s < IZR v + 1) by (apply IZR_le in Hv; nra).
  rewrite <- plus_IZR in Hlt. apply lt_IZR in Hlt. lia.
Qed.

Lemma fval_pow_shift (q g t : Z) : (0 <= t)%Z -> fval q (g + t) = fval (q * 2 ^ t) g.
Proof. intros Ht. rewrite fval_shift by exact Ht. reflexivity. Qed.

Lemma fval_le_same (x y g : Z) : fval x g <= fval y g <-> (x <= y)%Z.
Proof.
  unfold fval. assert (Hp : 0 < powerRZ 2 g) by (apply powerRZ_lt; lra).
  split.
  - intros H. apply le_IZR. apply (Rmult_le_reg_r (powerRZ 2 g)); assumption.
  - intros H. apply Rmult_le_compat_r; [lra | apply IZR_le; exact H].
Qed.

Lemma fval_lt_same (x y g : Z) : fval x g < fval y g <-> (x < y)%Z.
Proof.
  unfold fval. assert (Hp : 0 < powerRZ 2 g) by (apply powerRZ_lt; lra).
  split.
  - intros H. apply lt_IZR. apply (Rmult_lt_reg_r (powerRZ 2 g)); assumption.
  - intros H. apply Rmult_lt_compat_r; [lra | apply IZR_lt; exact H].
Qed.

(** Compare [fval x e] and [fval y f] at the smaller exponent. *)
Lemma fval_le_iff (x e y f : Z) :
  fval x e <= fval y f <->
  (if (e <=? f)%Z then (x <= y * 2 ^ (f - e))%Z else (x * 2 ^ (e - f) <= y)%Z).
Proof.
  destruct (Z.leb_spec e f).
  - replace f with (e + (f - e))%Z at 1 by lia. rewrite fval_pow_shift by lia.
    apply fval_le_same.
  - replace e with (f + (e - f))%Z at 1 by lia. rewrite fval_pow_shift by lia.
    apply fval_le_same.
Qed.

Lemma fval_int (x : Z) : fval x 0 = IZR x.
Proof. unfold fval. cbn [powerRZ]. ring. Qed.

Lemma too_big_val (q g : Z) : too_big q g = true -> IZR (2 ^ 1024) <= fval q g.
Proof.
  intros H. rewrite <- fval_int. apply fval_le_iff.
  unfold too_big in H. destruct (Z.leb_spec 0 g) as [Hg|Hg]; apply Z.leb_le in H.
  - rewrite Z.sub_0_r. exact H.
  - rewrite <- Z.pow_add_r by lia. rewrite Z.sub_0_l. replace (1024 + - g)%Z with (1024 - g)%Z by lia.
    exact H.
Qed.

Lemma fval_below_overflow (c f : Z) :
  (0 <= c < 2 ^ 53)%Z -> (f <= 971)%Z -> fval c f < IZR (2 ^ 1024).
Proof.
  intros Hc Hf. apply (Rlt_le_trans _ (fval (c + 1) f)).
  - apply fval_lt_same. lia.
  - rewrite <- fval_int. apply fval_le_iff.
    destruct (Z.leb_spec f 0) as [H0|H0].
    + rewrite Z.sub_0_l.
      assert (0 < 2 ^ (- f))%Z by (apply Z.pow_pos_nonneg; lia).
      assert (2 ^ 53 <= 2 ^ 1024)%Z by (apply Z.pow_le_mono_r; lia). nia.
    + rewrite Z.sub_0_r.
      assert (2 ^ 53 * 2 ^ f <= 2 ^ 1024)%Z
        by (rewrite <- Z.pow_add_r by lia; apply Z.pow_le_mono_r; lia).
      assert (0 < 2 ^ f)%Z by (apply Z.pow_pos_nonneg; lia). nia.
Qed.

Lemma round_shift_normal (a e : Z) :
  (-1074 - e < round_shift a e)%Z -> Z.log2 a = (round_shift a e + 52)%Z.
Proof. unfold round_shift. lia. Qed.

(** Rounding a non-negative value that lies below a representable bound stays
    finite and below that bound. *)
Lemma round_mono_up (m e c f : Z) :
  (0 <= m)%Z -> (0 <= c < 2 ^ 53)%Z -> (-1074 <= f <= 971)%Z ->
  fval m e <= fval c f ->
  exists m' e', round_binary64 m e = Fin m' e' /\ (0 <= m')%Z /\ fval m' e' <= fval c f.
Proof.
  intros Hm Hc Hf Hle. unfold round_binary64. cbv zeta. rewrite Z.abs_eq by exact Hm.
  set (k := round_shift m e).
  assert (Hq : (0 <= (if (0 <? k)%Z then round_div m k else m))%Z /\
               fval (if (0 <? k)%Z then round_div m k else m)
                    (if (0 <? k)%Z then (e + k)%Z else e) <= fval c f).
  { destruct (Z.ltb_spec 0 k) as [Hk|Hk]; [|split; [exact Hm | exact Hle]].
    pose proof (round_div_bounds m k Hm Hk) as [Hlo Hhi].
    assert (Hpk : (0 < 2 ^ k)%Z) by (apply Z.pow_pos_nonneg; lia).
    assert (0 <= m / 2 ^ k)%Z by (apply Z.div_pos; lia).
    split; [lia|].
    destruct (Z.leb_spec (e + k) f) as [Hg|Hg].
    - replace f with ((e + k) + (f - (e + k)))%Z in Hle |- * by lia.
      rewrite (fval_pow_shift c (e + k) (f - (e + k))) in Hle |- * by lia.
      set (C := (c * 2 ^ (f - (e + k)))%Z) in *.
      apply fval_le_iff in Hle.
      rewrite (proj2 (Z.leb_le e (e + k))) in Hle by lia.
      replace (e + k - e)%Z with k in Hle by lia.
      apply fval_le_same.
      assert (E2 : (2 ^ k = 2 * 2 ^ (k - 1))%Z)
        by (rewrite <- Z.pow_succ_r by lia; f_equal; lia).
      assert (round_div m k * 2 ^ k < (C + 1) * 2 ^ k)%Z by lia.
      apply Z.mul_lt_mono_pos_r in H0; lia.
    - exfalso.
      assert (Hn : (-1074 - e < k)%Z) by lia.
      apply round_shift_normal in Hn. fold k in Hn.
      assert (Hmpos : (0 < m)%Z).
      { destruct (Z.eq_dec m 0%Z) as [->|]; [cbn in Hn; lia | lia]. }
      pose proof (Z.log2_spec m Hmpos) as [Hl _]. rewrite Hn in Hl.
      apply fval_le_iff in Hle.
      destruct (Z.leb_spec e f).
      + assert (2 ^ (f - e) <= 2 ^ (k - 1))%Z by (apply Z.pow_le_mono_r; lia).
        assert (2 ^ (k + 52) = 2 ^ 53 * 2 ^ (k - 1))%Z
          by (rewrite <- Z.pow_add_r by lia; f_equal; lia).
        assert (0 < 2 ^ (f - e))%Z by (apply Z.pow_pos_nonneg; lia).
        nia.
      + assert (0 < 2 ^ (e - f))%Z by (apply Z.pow_pos_nonneg; lia).
        assert (2 ^ 53 <= 2 ^ (k + 52))%Z by (apply Z.pow_le_mono_r; lia).
        nia. }
  destruct Hq as [Hq0 Hq].
  destruct (too_big _ _) eqn:Et.
  - exfalso. apply too_big_val in Et.
    pose proof (fval_below_overflow c f Hc (proj2 Hf)). lra.
  - eexists _, _. split; [reflexivity|].
    destruct (Z.eq_dec m 0%Z) as [->|Hm0].
    + cbn [Z.sgn]. rewrite Z.mul_0_l. split; [lia|].
      unfold fval at 1. rewrite Rmult_0_l. apply fval_nonneg. lia.
    + rewrite Z.sgn_pos by lia. rewrite Z.mul_1_l. split; assumption.
Qed.

(** Rounding a non-negative value that lies above a representable bound stays
    above that bound. *)
Lemma round_mono_down (m e c f m' e' : Z) :
  (0 <= m)%Z -> (0 <= c < 2 ^ 53)%Z -> (-1074 <= f)%Z ->
  fval c f <= fval m e -> round_binary64 m e = Fin m' e' -> fval c f <= fval m' e'.
Proof.
  intros Hm Hc Hf Hle Hr. unfold round_binary64 in Hr. cbv zeta in Hr.
  rewrite Z.abs_eq in Hr by exact Hm.
  destruct (too_big _ _); [discriminate|]. injection Hr as <- <-.
  set (k := round_shift m e) in *.
  destruct (Z.eq_dec m 0%Z) as [->|Hm0].
  { cbn [Z.sgn]. rewrite Z.mul_0_l. unfold fval in Hle |- * at 2.
    rewrite Rmult_0_l in Hle |- *. exact Hle. }
  rewrite Z.sgn_pos by lia. rewrite Z.mul_1_l.
  destruct (Z.ltb_spec 0 k) as [Hk|Hk]; [|exact Hle].
  pose proof (round_div_bounds m k Hm Hk) as [Hlo Hhi].
  assert (Hpk : (0 < 2 ^ k)%Z) by (apply Z.pow_pos_nonneg; lia).
  destruct (Z.leb_spec (e + k) f) as [Hg|Hg].
  - replace f with ((e + k) + (f - (e + k)))%Z in Hle |- * by lia.
    rewrite (fval_pow_shift c (e + k) (f - (e + k))) in Hle |- * by lia.
    set (C := (c * 2 ^ (f - (e + k)))%Z) in *.
    apply fval_le_iff in Hle.
    rewrite (proj2 (Z.leb_gt (e + k) e)) in Hle by lia.
    replace (e + k - e)%Z with k in Hle by lia.
    apply fval_le_same.
    assert (C <= m / 2 ^ k)%Z by (apply Z.div_le_lower_bound; lia). lia.
  - assert (Hn : (-1074 - e < k)%Z) by lia.
    apply round_shift_normal in Hn. fold k in Hn.
    pose proof (Z.log2_spec m ltac:(lia)) as [Hl _]. rewrite Hn in Hl.
    assert (2 ^ 52 <= m / 2 ^ k)%Z.
    { apply Z.div_le_lower_bound; [lia|].
      rewrite <- Z.pow_add_r by lia. replace (52 + k)%Z with (k + 52)%Z by lia. exact Hl. }
    apply fval_le_iff. rewrite (proj2 (Z.leb_le f (e + k))) by lia.
    assert (2 <= 2 ^ (e + k - f))%Z.
    { change 2%Z with (2 ^ 1)%Z at 1. apply Z.pow_le_mono_r; lia. }
    assert (2 ^ 53 = 2 * 2 ^ 52)%Z by reflexivity.
    nia.
Qed.

Lemma fval_add (x y g : Z) : fval (x + y) g = fval x g + fval y g.
Proof. unfold fval. rewrite plus_IZR. ring. Qed.

Lemma fval_at (x e g : Z) : (g <= e)%Z -> fval x e = fval (x * 2 ^ (e - g)) g.
Proof.
  intros H. replace e with (g + (e - g))%Z at 1 by lia. apply fval_pow_shift. lia.
Qed.

Lemma fadd_fval (m1 e1 m2 e2 : Z) :
  let e := Z.min e1 e2 in
  fval (m1 * 2 ^ (e1 - e) + m2 * 2 ^ (e2 - e)) e = fval m1 e1 + fval m2 e2.
Proof.
  cbv zeta. rewrite fval_add.
  rewrite (fval_at m1 e1 (Z.min e1 e2)) by lia.
  rewrite (fval_at m2 e2 (Z.min e1 e2)) by lia. reflexivity.
Qed.

Lemma fval_neg_exp (x g : Z) : (0 <= g)%Z -> fval x (- g) = IZR x * / IZR (2 ^ g).
Proof. intros Hg. unfold fval. rewrite powerRZ_2_neg by exact Hg. reflexivity. Qed.

(** A float whose value lies in [[1/10, 3/10]] passes [percent_ok]. *)
Lemma percent_ok_of_bounds (m e : Z) :
  / 10 <= fval m e -> fval m e <= 3 / 10 -> percent_ok (Fin m e) = true.
Proof.
  intros Hlo Hhi. unfold percent_ok.
  destruct (Z.ltb_spec e 0) as [He|He].
  - replace e with (- (- e))%Z in Hlo, Hhi by lia.
    rewrite fval_neg_exp in Hlo, Hhi by lia.
    pose proof (IZR_pow2_pos (- e) ltac:(lia)) as HP.
    set (P := IZR (2 ^ (- e))) in *.
    assert (E : IZR m * / P * (10 * P) = 10 * IZR m) by (field; lra).
    apply (Rmult_le_compat_r (10 * P)) in Hlo, Hhi; [|lra|lra].
    rewrite E in Hlo, Hhi.
    replace (/ 10 * (10 * P)) with P in Hlo by (field; lra).
    replace (3 / 10 * (10 * P)) with (3 * P) in Hhi by (field; lra).
    unfold P in Hlo, Hhi.
    rewrite <- (mult_IZR 10 m) in Hlo, Hhi. rewrite <- (mult_IZR 3) in Hhi.
    apply le_IZR in Hlo, Hhi.
    cbn [andb]. rewrite (proj2 (Z.leb_le _ _) Hlo), (proj2 (Z.leb_le _ _) Hhi). reflexivity.
  - exfalso. unfold fval in Hlo, Hhi. rewrite <- IZR_pow2, <- mult_IZR in Hlo, Hhi by exact He.
    destruct (Z.le_gt_cases (m * 2 ^ e) 0) as [H|H].
    + apply IZR_le in H. lra.
    + assert (H1 : (1 <= m * 2 ^ e)%Z) by lia. apply IZR_le in H1. lra.
Qed.

(** [random.uniform(0.10, 0.30)] evaluated on any output [k * 2^-53] of
    [random.random()] passes [percent_ok]. *)
Lemma uniform_percent_ok (k : Z) :
  (0 <= k < 2 ^ 53)%Z -> percent_ok (py_uniform f0_10 f0_30 (Fin k (-53))) = true.
Proof.
  intros Hk. unfold py_uniform.
  replace (fsub f0_30 f0_10) with (Fin 7205759403792793 (-55)) by (vm_compute; reflexivity).
  cbn [fmul].
  destruct (round_mono_up (7205759403792793 * k) (-55 + -53) 7205759403792793 (-55))
    as (q & ep & Ep & Hq0 & Hqle); [lia | lia | lia | |].
  { rewrite fval_mul.
    assert (Hk1 : fval k (-53) <= 1).
    { rewrite <- (fval_int 1). apply fval_le_iff. cbn -[Z.pow]. lia. }
    pose proof (fval_nonneg 7205759403792793 (-55) ltac:(lia)).
    rewrite <- (Rmult_1_r (fval 7205759403792793 (-55))) at 2.
    apply Rmult_le_compat_l; assumption. }
  rewrite Ep. unfold f0_10. cbv beta iota zeta delta [fadd].
  pose proof (fadd_fval 7205759403792794 (-56) q ep) as Hs. cbv zeta in Hs.
  set (e := Z.min (-56) ep) in *.
  set (S := (7205759403792794 * 2 ^ (-56 - e) + q * 2 ^ (ep - e))%Z) in *.
  assert (HS0 : (0 <= S)%Z).
  { unfold S. assert (0 <= 2 ^ (-56 - e))%Z by (apply Z.pow_nonneg; lia).
    assert (0 <= 2 ^ (ep - e))%Z by (apply Z.pow_nonneg; lia). nia. }
  assert (HT : fval 7205759403792794 (-56) + fval 7205759403792793 (-55)
               = fval 5404319552844595 (-54)).
  { rewrite (fval_at 7205759403792793 (-55) (-56)) by lia.
    rewrite (fval_at 5404319552844595 (-54) (-56)) by lia.
    rewrite <- fval_add. f_equal. }
  destruct (round_mono_up S e 5404319552844595 (-54)) as (m' & e' & Er & Hm'0 & Hup);
    [exact HS0 | lia | lia | rewrite Hs, <- HT; lra |].
  rewrite Er.
  assert (Hdown : fval 7205759403792794 (-56) <= fval m' e').
  { apply (round_mono_down S e 7205759403792794 (-56) m' e' HS0 ltac:(lia) ltac:(lia)); [|exact Er].
    rewrite Hs. pose proof (fval_nonneg q ep Hq0). lra. }
  apply percent_ok_of_bounds.
  - refine (Rle_trans _ _ _ _ Hdown).
    rewrite (fval_neg_exp _ 56) by lia. change (2 ^ 56)%Z with 72057594037927936%Z. lra.
  - refine (Rle_trans _ _ _ Hup _).
    rewrite (fval_neg_exp _ 54) by lia. change (2 ^ 54)%Z with 18014398509481984%Z. lra.
Qed.

Close Scope R_scope.

Lemma round_div_0 (k : Z) : 0 < k -> round_div 0 k = 0.
Proof.
  intros Hk. unfold round_div. rewrite Zdiv_0_l, Zmod_0_l.
  pose proof (Z.pow_pos_nonneg 2 (k - 1) ltac:(lia) ltac:(lia)).
  destruct (Z.ltb_spec (2 ^ (k - 1)) 0); [lia|].
  destruct (Z.eqb_spec 0 (2 ^ (k - 1))); [lia|]. reflexivity.
Qed.

Lemma too_big_0 (e : Z) : too_big 0 e = false.
Proof.
  unfold too_big. destruct (Z.leb_spec 0 e).
  - apply Z.leb_gt. pose proof (Z.pow_pos_nonneg 2 1024). lia.
  - apply Z.leb_gt. apply Z.pow_pos_nonneg; lia.
Qed.

Lemma round_zero (e : Z) : exists e', round_binary64 0 e = Fin 0 e'.
Proof.
  unfold round_binary64. cbv zeta. change (Z.abs 0) with 0.
  destruct (Z.ltb_spec 0 (round_shift 0 e)).
  - rewrite round_div_0 by lia. rewrite too_big_0. eexists; reflexivity.
  - rewrite too_big_0. eexists; reflexivity.
Qed.

Lemma round_neg (m e : Z) :
  round_binary64 (- m) e = fneg (round_binary64 m e).
Proof.
  destruct (Z.eq_dec m 0) as [->|Hn].
  - change (- 0) with 0. destruct (round_zero e) as [e' ->]. reflexivity.
  - unfold round_binary64. cbv zeta. rewrite Z.abs_opp.
    destruct (too_big _ _).
    + cbn [fneg]. f_equal. destruct (Z.ltb_spec (- m) 0), (Z.ltb_spec m 0); try reflexivity; lia.
    + cbn [fneg]. f_equal. rewrite Z.sgn_opp. ring.
Qed.

Lemma int_times_float_opp (z m e : Z) :
  int_times_float (- z) (Fin m e) =
  match int_times_float z (Fin m e) with inl ex => inl ex | inr n => inr (- n) end.
Proof.
  unfold int_times_float, float_of_int. rewrite round_neg.
  destruct (round_binary64 z 0) as [m1 e1| |]; cbn [fneg]; try reflexivity.
  cbn [fmul]. replace (- m1 * m)%Z with (- (m1 * m))%Z by ring. rewrite round_neg.
  destruct (round_binary64 (m1 * m) (e1 + e)) as [m3 e3| |]; cbn [fneg py_int]; try reflexivity.
  f_equal. destruct (Z.leb_spec 0 e3); [ring|]. apply Z.quot_opp_l.
  apply Z.pow_nonzero; lia.
Qed.

(** [int(b * 0.20)] is [b // 5] for [0 <= b < 2^52]. *)
Lemma fine_exact (b : Z) : 0 <= b < 2 ^ 52 -> int_times_float b f0_20 = inr (b / 5).
Proof.
  intros Hb. unfold int_times_float, float_of_int.
  rewrite round_exact by lia. cbn [fmul f0_20]. change (0 + -55) with (-55).
  set (M := 7205759403792794). set (P := b * M).
  assert (HM : 5 * M = 2 ^ 55 + 2) by reflexivity.
  pose proof (Z.div_mod b 5 ltac:(lia)) as Hd. pose proof (Z.mod_pos_bound b 5 ltac:(lia)) as Hr.
  set (q := b / 5) in *. set (r := b mod 5) in *.
  assert (HP : 5 * P = b * 2 ^ 55 + 2 * b) by (unfold P; replace (b * 2 ^ 55 + 2 * b) with (b * (2 ^ 55 + 2)) by ring; rewrite <- HM; ring).
  assert (HqP : q * 2 ^ 55 <= P) by lia.
  assert (HPq : P + 2 ^ 51 < (q + 1) * 2 ^ 55) by (cbn in *; lia).
  assert (Hq0 : 0 <= q) by (apply Z.div_pos; lia).
  unfold round_binary64. cbv zeta.
  rewrite Z.abs_eq by (unfold P; lia).
  assert (HPlt : P < 2 ^ 105) by (unfold P, M; cbn in *; lia).
  assert (Hlog : Z.log2 P <= 104).
  { destruct (Z.eq_dec P 0) as [->|]; [cbn; lia|].
    apply Z.lt_succ_r. apply Z.log2_lt_pow2; [unfold P, M in *; lia|]. exact HPlt. }
  destruct (Z.ltb_spec 0 (round_shift P (-55))) as [Hk|Hk].
  - set (k := round_shift P (-55)) in *.
    assert (Hk52 : k <= 52) by (unfold k, round_shift; lia).
    destruct (round_div_bounds P k ltac:(unfold P, M; lia) Hk) as [Hlo Hhi].
    set (a3 := round_div P k) in *.
    assert (EK : 2 ^ 55 = 2 ^ (55 - k) * 2 ^ k) by (rewrite <- Z.pow_add_r by lia; f_equal; lia).
    assert (Hh : 2 ^ (k - 1) <= 2 ^ 51) by (apply Z.pow_le_mono_r; lia).
    pose proof (Z.pow_pos_nonneg 2 k ltac:(lia) ltac:(lia)) as HK.
    pose proof (Z.pow_pos_nonneg 2 (55 - k) ltac:(lia) ltac:(lia)) as HA.
    set (K := 2 ^ k) in *. set (A := 2 ^ (55 - k)) in *.
    assert (L1 : q * A <= a3).
    { enough (q * A <= P / K) by lia. apply Z.div_le_lower_bound; [lia|]. nia. }
    assert (L2 : a3 < (q + 1) * A) by nia.
    assert (Ht : too_big a3 (-55 + k) = false).
    { unfold too_big. rewrite (proj2 (Z.leb_gt 0 (-55 + k))) by lia.
      apply Z.leb_gt.
      assert (2 ^ 1024 <= 2 ^ (1024 - (-55 + k))) by (apply Z.pow_le_mono_r; lia).
      assert (A <= 2 ^ 55) by (apply Z.pow_le_mono_r; lia).
      assert (q < 2 ^ 52) by lia.
      assert (2 ^ 52 * 2 ^ 55 < 2 ^ 1024) by (cbn; lia). nia. }
    rewrite Ht. cbn [py_int].
    rewrite (proj2 (Z.leb_gt 0 (-55 + k))) by lia.
    assert (Hs : Z.sgn P * a3 = a3).
    { destruct (Z.eq_dec P 0) as [E|E].
      - assert (2 ^ (k - 1) < K) by (unfold K; apply Z.pow_lt_mono_r; lia).
        assert (a3 = 0) as -> by nia. ring.
      - rewrite Z.sgn_pos by (unfold P, M in *; lia). lia. }
    rewrite Hs. f_equal. replace (- (-55 + k)) with (55 - k) by lia. fold A.
    rewrite Z.quot_div_nonneg by lia.
    symmetry. apply Z.div_unique with (a3 - q * A); [lia | ring].
  - assert (Ht : too_big P (-55) = false).
    { unfold too_big. cbn -[Z.pow]. apply Z.leb_gt.
      assert (2 ^ 1024 <= 2 ^ (1024 - -55)) by (apply Z.pow_le_mono_r; lia).
      assert (2 ^ 105 < 2 ^ 1024) by (cbn; lia). lia. }
    rewrite Ht. cbn [py_int]. cbn -[Z.pow P].
    assert (Hs : Z.sgn P * P = P).
    { destruct (Z.eq_dec P 0) as [E|E]; [rewrite E; reflexivity|].
      rewrite Z.sgn_pos by (unfold P, M in *; lia). lia. }
    rewrite Hs. f_equal. rewrite Z.quot_div_nonneg by (cbn in *; lia).
    change (- (-55)) with 55. symmetry. apply Z.div_unique with (P - q * 2 ^ 55); [lia | ring].
Qed.

(** [int(m * 2.5)] is [floor(5 m / 2)] when [5 m < 2^53]. *)
Lemma natural_exact (m : Z) : 0 <= m -> 5 * m < 2 ^ 53 -> int_times_float m f2_5 = inr (m * 5 / 2).
Proof.
  intros H0 H1. unfold int_times_float, float_of_int.
  rewrite round_exact by lia. cbn [fmul f2_5].
  rewrite round_exact by lia. cbn [py_int]. rewrite Z.quot_div_nonneg by lia.
  reflexivity.
Qed.
Lemma int_times_float_exn (z m e : Z) (ex : Exn) :
  int_times_float z (Fin m e) = inl ex -> ex = OverflowError.
Proof.
  unfold int_times_float, float_of_int.
  destruct (round_binary64 z 0) as [m1 e1| |] eqn:E0; intros H.
  - cbn [fmul] in H. destruct (round_binary64 (m1 * m) (e1 + e)) eqn:E; cbn in H; try congruence.
    exfalso. exact (round_binary64_cases _ _ E).
  - congruence.
  - exfalso. exact (round_binary64_cases _ _ E0).
Qed.

Lemma soften_min (value : Z) (aces : nat) :
  soften value aces = value - 10 * Z.of_nat (Nat.min aces (aces_needed value)).
Proof.
  revert value. induction aces as [|a IH]; intros value; simpl.
  - lia.
  - unfold aces_needed. destruct (bool_decide (21 < value)) eqn:E.
    + apply bool_decide_eq_true_1 in E. rewrite IH. unfold aces_needed.
      assert (Hk : Z.to_nat ((value - 12) / 10) =
                   S (Z.to_nat ((value - 10 - 12) / 10))).
      { assert (Hd : (value - 12) / 10 = (value - 10 - 12) / 10 + 1).
        { replace (value - 12) with ((value - 10 - 12) + 1 * 10) by lia.
          rewrite Z.div_add by lia. reflexivity. }
        assert (0 <= (value - 10 - 12) / 10) by (apply Z.div_pos; lia).
        rewrite Hd, Z2Nat.inj_add by lia. simpl. lia. }
      rewrite Hk. destruct (bool_decide (21 < value - 10)) eqn:E2.
      * apply bool_decide_eq_true_1 in E2. simpl. lia.
      * apply bool_decide_eq_false_1 in E2.
        assert ((value - 10 - 12) / 10 = 0) as ->.
        { apply Z.div_small. lia. }
        simpl. rewrite Nat.min_0_r. lia.
    + simpl. lia.
Qed.

Lemma fold_card_add (hand : list Card) (v : Z) (a : nat) :
  fold_left card_add hand (v, a) =
  (v + fold_right (fun c s => spec_points c + s) 0 hand,
   (a + spec_aces hand)%nat).
Proof.
  revert v a. induction hand as [|[r s] hand IH]; intros v a; simpl.
  - unfold spec_aces; simpl. f_equal; lia.
  - unfold spec_aces in *. rewrite filter_cons.
    destruct r; cbn [card_add fst]; rewrite IH;
      case_decide as Hd; cbn [is_ace] in Hd; try congruence; cbn [spec_points fst length]; f_equal; lia.
Qed.

Ltac obs_simpl :=
  repeat (rewrite observe_insert_eq || rewrite observe_insert_ne by congruence).

Lemma observe_backfilled (st : Store) (uid : Z) :
  backfill (observe st uid) = observe st uid.
Proof. unfold observe. destruct (st !! uid); [apply backfill_idem | reflexivity]. Qed.

Lemma observe_get_user_data (st : Store) (uid uid' : Z) :
  observe (fst (get_user_data st uid)) uid' = observe st uid'.
Proof.
  unfold get_user_data; cbn [fst]. destruct (decide (uid = uid')) as [<-|E].
  - rewrite observe_insert_eq. apply observe_backfilled.
  - by rewrite observe_insert_ne.
Qed.

Lemma waifame_backfill (a : Account) :
  waifame (backfill a) = Some (dget (waifame a) 0).
Proof. reflexivity. Qed.

Lemma observe_some_waifame (st : Store) (uid : Z) :
  waifame (observe st uid) = Some (dget (waifame (observe st uid)) 0).
Proof. unfold observe. destruct (st !! uid); reflexivity. Qed.

(** C6 (corrected): [hand_value] counts faces as 10, numerals as their
    number and aces as 11 softened one by one to 1 while the total exceeds
    21, so Ace + King is 21.  When the two cards dealt to the player are
    worth 21, [blackjack] settles before any player action (no view is
    returned) with the payout [int(mise * 2.5)] computed in floats: the
    game is removed and the balance changes by [payout - mise].  The
    payout is [floor(2.5 * mise)] when [5 * mise < 2^53]; for larger
    wagers it is the rounded float product, and when that product
    overflows, [OverflowError] escapes, the game stays stored and no
    balance changes. *)
Theorem blackjack_natural (w : World) (uid m : Z) (rest : list Card)
    (p1 p2 c1 c2 : Card)
    (Hmin : 10 <= m) (Hbal : m <= dget (waifame (observe (user_data w) uid)) 0)
    (H21 : hand_value [p1; p2] = 21) :
  (forall hand, hand_value hand = spec_hand_value hand) /\
  (forall s1 s2, hand_value [(RA, s1); (RK, s2)] = 21) /\
  match int_times_float m f2_5 with
  | inr winnings =>
      (5 * m < 2 ^ 53 -> winnings = (m * 5) / 2) /\
      exists w',
        blackjack w uid m (rest ++ [c2; c1; p2; p1]) =
          Done w' None (BlackjackNatural winnings) /\
        blackjack_games w' !! uid = None /\
        dget (waifame (observe (user_data w') uid)) 0 =
          dget (waifame (observe (user_data w) uid)) 0 + winnings - m /\
        (forall uid', uid' <> uid -> observe (user_data w') uid' = observe (user_data w) uid')
  | inl e =>
      e = OverflowError /\
      exists w',
        blackjack w uid m (rest ++ [c2; c1; p2; p1]) = Raised w' None OverflowError /\
        blackjack_games w' !! uid = Some (mkGame rest [p1; p2] [c1; c2] m true) /\
        (forall uid', observe (user_data w') uid' = observe (user_data w) uid')
  end.
Proof.
  split; [|split].
  - intros hand. unfold hand_value, spec_hand_value.
    rewrite fold_card_add, soften_min. reflexivity.
  - intros. reflexivity.
  - assert (Hpop : forall (l : list Card) (x : Card),
              deck_pop (l ++ [x]) = Some (l, x)).
    { intros l x. unfold deck_pop. rewrite last_snoc, removelast_last.
      reflexivity. }
    unfold blackjack.
    rewrite bool_decide_eq_false_2 by lia.
    unfold get_user_data. cbn [user_data set_user_data].
    rewrite bool_decide_eq_false_2 by lia.
    replace (rest ++ [c2; c1; p2; p1])
      with ((((rest ++ [c2]) ++ [c1]) ++ [p2]) ++ [p1])
      by (rewrite <- !app_assoc; reflexivity).
    rewrite !Hpop.
    rewrite bool_decide_eq_true_2 by exact H21.
    destruct (int_times_float m f2_5) as [e|winnings] eqn:Ei.
    + split; [exact (int_times_float_exn m 5 (-1) e Ei)|].
      pose proof (int_times_float_exn m 5 (-1) e Ei) as ->.
      eexists. split; [reflexivity|].
      cbn [blackjack_games set_blackjack_games user_data set_user_data].
      split; [apply lookup_insert_eq|].
      intros uid'. apply (observe_get_user_data (user_data w) uid uid').
    + split.
      { intros Hs. rewrite natural_exact in Ei by lia. congruence. }
      eexists. split; [reflexivity|].
      cbn [blackjack_games set_blackjack_games user_data set_user_data].
      split; [by rewrite lookup_delete_eq|]. split.
      * rewrite observe_insert_eq. destruct (observe (user_data w) uid); reflexivity.
      * intros uid' Hne. rewrite !observe_insert_ne by congruence. reflexivity.
Qed.

(** ** Claim theorems: theft, daily claim, non-negative balances *)

Lemma observe_set_last_steal (st : Store) (uid now : Z) :
  backfill (set_last_steal now (observe st uid)) = set_last_steal now (observe st uid).
Proof. unfold observe. destruct (st !! uid); reflexivity. Qed.

(** The fine [max(int(a * 0.20), 10)] is [max(floor(a / 5), 10)] for
    [|a| < 2^52]. *)
Lemma fine_small (a f : Z) :
  - 2 ^ 52 < a < 2 ^ 52 -> int_times_float a f0_20 = inr f ->
  Z.max f 10 = Z.max (a / 5) 10.
Proof.
  intros Ha Hf. destruct (Z_le_gt_dec 0 a) as [Hp|Hn].
  - rewrite fine_exact in Hf by lia. congruence.
  - replace a with (- (- a)) in Hf by lia. unfold f0_20 in Hf.
    rewrite int_times_float_opp in Hf. fold f0_20 in Hf.
    rewrite fine_exact in Hf by lia. injection Hf as <-.
    assert (0 <= - a / 5) by (apply Z.div_pos; lia).
    assert (a / 5 <= 0) by (apply Z.div_le_upper_bound; lia). lia.
Qed.

(** C5 (corrected): a theft by [author] on the non-bot member [t]
    (another user), with the actor off cooldown and the fraction [x]
    (the float [random.uniform(0.10, 0.30)]) in [1/10, 3/10]; every value
    that call can return is in that range ([uniform_percent_ok]).  When the
    target holds at least 50, a success computes [s = int(v * x)] in
    floats, where [v] is the target's balance.  Then [s <= v], and
    [max(s, 10)] moves from the target to the actor: the sum of the two
    balances is kept and the target stays non-negative.  A failure
    computes the fine [max(int(a * 0.20), 10)] in floats, where [a] is
    the actor's balance; it equals [max(floor(a / 5), 10)] when
    [|a| < 2^52].  The failure charges the actor that fine, floored at
    0, and leaves the target as it was.  When a float product overflows,
    [OverflowError] escapes and only the actor's [last_steal] has
    changed.  When the target holds less than 50, the theft is refused
    and no user, history or game changes. *)
Theorem steal_transfer (w : World) (author : Z) (t : Member) (now : Z) (x : PyFloat)
    (Hne : member_id t <> author) (Hbot : member_bot t = false)
    (Hcool : dget (last_steal (observe (user_data w) author)) 0 + 60 * 60 - now <= 0)
    (Hx : percent_ok x = true) :
  let tid := member_id t in
  let v := dget (waifame (observe (user_data w) tid)) 0 in
  let a := dget (waifame (observe (user_data w) author)) 0 in
  (50 <= v ->
   let o := steal w author (Some t) now true x in
   let w' := outcome_world o in
   match int_times_float v x with
   | inr s =>
       let stolen := Z.max s 10 in
       o = Done w' tt Ok /\ s <= v /\
       dget (waifame (observe (user_data w') tid)) 0 = v - stolen /\
       dget (waifame (observe (user_data w') author)) 0 = a + stolen /\
       dget (waifame (observe (user_data w') tid)) 0 +
       dget (waifame (observe (user_data w') author)) 0 = v + a /\
       0 <= dget (waifame (observe (user_data w') tid)) 0
   | inl e =>
       e = OverflowError /\ o = Raised w' tt OverflowError /\
       observe (user_data w') author = set_last_steal now (observe (user_data w) author) /\
       (forall u, u <> author -> observe (user_data w') u = observe (user_data w) u)
   end) /\
  (50 <= v ->
   let o := steal w author (Some t) now false x in
   let w' := outcome_world o in
   match int_times_float a f0_20 with
   | inr f =>
       (- 2 ^ 52 < a < 2 ^ 52 -> Z.max f 10 = Z.max (a / 5) 10) /\
       o = Done w' tt Ok /\
       dget (waifame (observe (user_data w') author)) 0 = Z.max 0 (a - Z.max f 10) /\
       observe (user_data w') tid = observe (user_data w) tid
   | inl e =>
       e = OverflowError /\ o = Raised w' tt OverflowError /\
       observe (user_data w') author = set_last_steal now (observe (user_data w) author) /\
       (forall u, u <> author -> observe (user_data w') u = observe (user_data w) u)
   end) /\
  (v < 50 -> forall success : bool,
   let w' := outcome_world (steal w author (Some t) now success x) in
   (forall uid, observe (user_data w') uid = observe (user_data w) uid) /\
   history w' = history w /\ video_history w' = video_history w /\
   blackjack_games w' = blackjack_games w).
Proof.
  cbv zeta. unfold steal.
  rewrite bool_decide_eq_false_2 by exact Hne. rewrite Hbot.
  set (tid := member_id t) in *.
  unfold get_user_data. cbn [fst snd].
  rewrite (observe_insert_ne _ author tid) by congruence.
  rewrite bool_decide_eq_false_2 by lia.
  set (st := user_data w) in *.
  assert (Hrest : forall u, u <> author ->
            observe (<[author := set_last_steal now (observe st author)]>
                       (<[tid := observe st tid]> (<[author := observe st author]> st))) u =
            observe st u).
  { intros u Hu. rewrite observe_insert_ne by congruence.
    destruct (decide (u = tid)) as [->|E1];
      [rewrite observe_insert_eq; apply observe_backfilled|].
    rewrite !observe_insert_ne by congruence. reflexivity. }
  split; [|split].
  - intros Hv. rewrite bool_decide_eq_false_2 by lia.
    destruct (int_times_float (dget (waifame (observe st tid)) 0) x) as [e|sv] eqn:Ei.
    + destruct x as [m e0| |]; try discriminate.
      pose proof (int_times_float_exn _ _ _ _ Ei) as ->.
      split; [reflexivity|]. split; [reflexivity|].
      cbn [outcome_world user_data set_user_data]. split.
      * rewrite observe_insert_eq. apply observe_set_last_steal.
      * exact Hrest.
    + pose proof (int_times_percent_le (dget (waifame (observe st tid)) 0) x sv
                    ltac:(lia) Hx Ei) as Hle.
      split; [reflexivity|]. split; [exact Hle|].
      cbn [outcome_world user_data set_user_data].
      obs_simpl. cbn [backfill waifame set_waifame set_last_steal dget].
      repeat split; lia.
  - intros Hv. rewrite bool_decide_eq_false_2 by lia.
    cbn [waifame set_last_steal].
    destruct (int_times_float (dget (waifame (observe st author)) 0) f0_20)
      as [e|f] eqn:Ei.
    + pose proof (int_times_float_exn _ _ _ _ Ei) as ->.
      split; [reflexivity|]. split; [reflexivity|].
      cbn [outcome_world user_data set_user_data]. split.
      * rewrite observe_insert_eq. apply observe_set_last_steal.
      * exact Hrest.
    + split; [intros Ha; exact (fine_small _ f Ha Ei)|].
      split; [reflexivity|].
      cbn [outcome_world user_data set_user_data].
      obs_simpl. cbn [backfill waifame set_waifame set_last_steal dget].
      split; [reflexivity|].
      apply observe_backfilled.
  - intros Hv success. rewrite bool_decide_eq_true_2 by lia.
    cbn [outcome_world user_data set_user_data history video_history
         blackjack_games].
    refine (conj _ (conj eq_refl (conj eq_refl eq_refl))).
    intros uid.
    destruct (decide (uid = tid)) as [->|E1];
      [rewrite observe_insert_eq; apply observe_backfilled|].
    rewrite observe_insert_ne by congruence.
    destruct (decide (uid = author)) as [->|E2];
      [rewrite observe_insert_eq; apply observe_backfilled|].
    by rewrite observe_insert_ne.
Qed.

(** C7: a daily claim when the stored last-claim date is not today adds
    [base_reward + min(streak * 10, 100)] to the balance, where the streak
    is the stored one plus 1 when the stored date is [yesterday] and 1
    otherwise, and stores that streak and today's date; a claim when the
    stored date is today (in particular a second claim the same day) is
    refused and leaves every user as it was. *)
Theorem daily_streak_reward (w : World) (uid : Z) (today yesterday : string)
    (r : Z) :
  let a := observe (user_data w) uid in
  let last := dget (last_daily a) ""%string in
  let streak1 := if bool_decide (last = yesterday)
                 then dget (daily_streak a) 0 + 1 else 1 in
  let w' := outcome_world (daily w uid today yesterday r) in
  (last <> today ->
   dget (waifame (observe (user_data w') uid)) 0 =
     dget (waifame a) 0 + (r + Z.min (streak1 * 10) 100) /\
   daily_streak (observe (user_data w') uid) = Some streak1 /\
   last_daily (observe (user_data w') uid) = Some today /\
   (forall uid', uid' <> uid -> observe (user_data w') uid' = observe (user_data w) uid') /\
   (forall r2 uid',
      observe (user_data (outcome_world (daily w' uid today yesterday r2))) uid' =
      observe (user_data w') uid')) /\
  (last = today -> forall uid',
   observe (user_data w') uid' = observe (user_data w) uid').
Proof.
  assert (Hrej : forall w0 : World,
            dget (last_daily (observe (user_data w0) uid)) ""%string = today ->
            forall r0 uid',
            observe (user_data (outcome_world (daily w0 uid today yesterday r0))) uid' =
            observe (user_data w0) uid').
  { intros w0 Hl r0 uid'. unfold daily. unfold get_user_data at 1.
    cbn [fst snd]. rewrite bool_decide_eq_true_2 by exact Hl.
    cbn [outcome_world user_data set_user_data].
    change (<[uid:=observe (user_data w0) uid]> (user_data w0))
      with (fst (get_user_data (user_data w0) uid)).
    apply observe_get_user_data. }
  cbv zeta. split.
  - intros Hl.
    assert (Hw' : forall uid',
      observe (user_data (outcome_world (daily w uid today yesterday r))) uid' =
      if decide (uid' = uid) then
        backfill (set_daily_streak
          (if bool_decide (dget (last_daily (observe (user_data w) uid)) ""%string = yesterday)
           then dget (daily_streak (observe (user_data w) uid)) 0 + 1 else 1)
          (set_last_daily today
             (set_waifame (dget (waifame (observe (user_data w) uid)) 0 +
                (r + Z.min ((if bool_decide (dget (last_daily (observe (user_data w) uid)) ""%string = yesterday)
                             then dget (daily_streak (observe (user_data w) uid)) 0 + 1 else 1) * 10) 100))
                (observe (user_data w) uid))))
      else observe (user_data w) uid').
    { intros uid'. unfold daily, get_user_data. cbn [fst snd].
      rewrite bool_decide_eq_false_2 by exact Hl.
      cbn [outcome_world user_data set_user_data].
      destruct (decide (uid' = uid)) as [->|E].
      - by rewrite observe_insert_eq.
      - rewrite !observe_insert_ne by congruence. reflexivity. }
    refine (conj _ (conj _ (conj _ (conj _ _)))).
    + rewrite Hw', decide_True by reflexivity. reflexivity.
    + rewrite Hw', decide_True by reflexivity. reflexivity.
    + rewrite Hw', decide_True by reflexivity. reflexivity.
    + intros uid' Hne. rewrite Hw', decide_False by exact Hne. reflexivity.
    + intros r2 uid'. apply Hrej.
      rewrite Hw', decide_True by reflexivity. reflexivity.
  - intros Hl uid'. apply Hrej, Hl.
Qed.

(** C4 (code bug): a blackjack loss is subtracted from the balance with
    no clamp at 0 and no new check.  User 1 holds 100 and starts a blackjack round
    for 100 (both entry checks pass); while the round runs, a slots spin
    for 100 also passes its check and loses, leaving 0; the player then
    hits and busts, and the wager is subtracted without a new check:
    the balance is -100. *)
Lemma minigames_balance_goes_negative :
  let o1 := blackjack world0 1 100 bj_deck0 in
  let w1 := outcome_world o1 in
  let w2 := outcome_world (slots w1 1 100 Cherry Lemon Orange) in
  let w3 := outcome_world (hit w2 (mkBlackjackView 1 100) 1) in
  o1 = Done w1 (Some (mkBlackjackView 1 100)) BlackjackShown /\
  10 <= 100 <= dget (waifame (observe (user_data world0) 1)) 0 /\
  100 <= dget (waifame (observe (user_data w1) 1)) 0 /\
  dget (waifame (observe (user_data w2) 1)) 0 = 0 /\
  dget (waifame (observe (user_data w3) 1)) 0 = -100.
Proof. vm_compute. repeat split; discriminate. Qed.

Lemma fame_bonus_spec (pc : Z) : fame_bonus pc = spec_artist_bonus pc.
Proof.
  unfold fame_bonus, spec_artist_bonus.
  repeat match goal with
         | |- context [bool_decide (?a <= ?b)] =>
             destruct (Z.leb_spec a b);
             [rewrite (bool_decide_eq_true_2 (a <= b)) by lia
             |rewrite (bool_decide_eq_false_2 (a <= b)) by lia]
         end; reflexivity.
Qed.

(** C9: with a cache that holds what the API answers, the earned
    currency of a post is [1 + floor(max(0, score) / 50) +
    floor(fav_count / 100)] plus the table bonus of the post count of the
    first artist tag (0 when the post has no artist tag); the cache stays
    faithful; and a failed request, a non-200 status or an empty answer
    gives post count 0, hence bonus 0. *)
Theorem calculate_waifame_formula (tags_lookup : string -> TagResponse)
    (cache : gmap string Z) (post : Post)
    (Hcache : cache_ok tags_lookup cache) :
  let pc := match py_split (dget (tag_string_artist post) ""%string) with
            | [] => 0
            | name :: _ => lookup_post_count tags_lookup name
            end in
  snd (calculate_waifame tags_lookup cache post) =
    1 + Z.max 0 (dget (score post) 0) / 50 + dget (fav_count post) 0 / 100
      + spec_artist_bonus pc /\
  cache_ok tags_lookup (fst (calculate_waifame tags_lookup cache post)) /\
  (forall name : string,
     (tags_lookup name = RespError \/
      (exists status records, tags_lookup name = RespStatus status records /\
                              status <> 200) \/
      tags_lookup name = RespStatus 200 []) ->
     lookup_post_count tags_lookup name = 0 /\
     spec_artist_bonus (lookup_post_count tags_lookup name) = 0).
Proof.
  cbv zeta. split; [|split].
  - unfold calculate_waifame, get_artist_fame_bonus.
    destruct (py_split _) as [|name rest]; [reflexivity|].
    destruct (cache !! name) as [pc|] eqn:E; cbn [snd];
      rewrite fame_bonus_spec; [rewrite (Hcache name pc E)|]; reflexivity.
  - unfold calculate_waifame, get_artist_fame_bonus.
    destruct (py_split _) as [|name rest]; [exact Hcache|].
    destruct (cache !! name) as [pc|] eqn:E; [exact Hcache|].
    cbn [fst]. intros n pc Hl. destruct (decide (name = n)) as [<-|Ne].
    + rewrite lookup_insert_eq in Hl. congruence.
    + rewrite lookup_insert_ne in Hl by exact Ne. exact (Hcache n pc Hl).
  - intros name Hf.
    assert (H0 : lookup_post_count tags_lookup name = 0).
    { unfold lookup_post_count.
      destruct Hf as [->|[(status & records & -> & Hs)| ->]]; [reflexivity| |reflexivity].
      rewrite bool_decide_eq_false_2 by exact Hs. reflexivity. }
    rewrite H0. split; reflexivity.
Qed.

(** ** Witnesses *)

(** C1 at a new user 7 on 2026-10-14, clicking the image of post 42. *)
Lemma daily_favorite_gate_five_witness :
  (last_fav_date (observe (∅ : Store) 7) <> Some "2026-10-14"%string \/
   daily_favs (observe (∅ : Store) 7) = Some 0) /\
  fav_callback (consume_times 5 ∅ 7 "2026-10-14")
    (mkImageView 1 (mkPost (Some 42) None None None) (Some 7) "rating:safe") 7
    "2026-10-14" =
  (consume_times 5 ∅ 7 "2026-10-14",
   mkImageView 1 (mkPost (Some 42) None None None) (Some 7) "rating:safe",
   FavLimitReached).
Proof.
  split; [right; reflexivity|].
  destruct (daily_favorite_gate_five ∅ 7 "2026-10-14"
              (mkImageView 1 (mkPost (Some 42) None None None) (Some 7) "rating:safe")
              ltac:(right; reflexivity) eq_refl ltac:(lia) ltac:(vm_compute; reflexivity))
    as (_ & _ & H & _).
  exact H.
Defined.

(** C5 at the spec's example: the victim (user 2) holds 100, the thief
    (user 1) 30, the fraction is 0.20: 20 move, the victim keeps 80. *)
Lemma steal_transfer_witness :
  dget (last_steal (observe (user_data (mkWorld (<[2 := set_waifame 100 new_account]>
          {[1 := set_waifame 30 new_account]}) ∅ ∅ ∅)) 1)) 0 + 60 * 60 - 10000 <= 0 /\
  percent_ok f0_20 = true /\
  dget (waifame (observe (user_data (outcome_world
    (steal (mkWorld (<[2 := set_waifame 100 new_account]>
              {[1 := set_waifame 30 new_account]}) ∅ ∅ ∅)
           1 (Some (mkMember 2 false)) 10000 true f0_20))) 2)) 0 = 80 /\
  dget (waifame (observe (user_data (outcome_world
    (steal (mkWorld (<[2 := set_waifame 100 new_account]>
              {[1 := set_waifame 30 new_account]}) ∅ ∅ ∅)
           1 (Some (mkMember 2 false)) 10000 true f0_20))) 1)) 0 = 50.
Proof.
  assert (Hc : dget (last_steal (observe (user_data (mkWorld
            (<[2 := set_waifame 100 new_account]> {[1 := set_waifame 30 new_account]})
            ∅ ∅ ∅)) 1)) 0 + 60 * 60 - 10000 <= 0) by (vm_compute; congruence).
  assert (Hx : percent_ok f0_20 = true) by (vm_compute; reflexivity).
  split; [exact Hc|]. split; [exact Hx|].
  destruct (steal_transfer (mkWorld (<[2 := set_waifame 100 new_account]>
              {[1 := set_waifame 30 new_account]}) ∅ ∅ ∅)
              1 (mkMember 2 false) 10000 f0_20 ltac:(cbn; lia) eq_refl Hc Hx)
    as [Hs _].
  specialize (Hs ltac:(vm_compute; congruence)). cbn [member_id] in Hs.
  assert (Ei : int_times_float (dget (waifame (observe (user_data (mkWorld
                 (<[2 := set_waifame 100 new_account]> {[1 := set_waifame 30 new_account]})
                 ∅ ∅ ∅)) 2)) 0) f0_20 = inr 20) by (vm_compute; reflexivity).
  rewrite Ei in Hs. destruct Hs as (_ & _ & H1 & H2 & _).
  rewrite H1, H2. vm_compute. split; reflexivity.
Defined.

(** C5 (counterexample): [random.uniform(0.10, 0.30)] with
    [random.random() = 0.25] is the float [0.15], slightly below 3/20.
    A victim holding 100 loses [int(100 * 0.15) = 15], although the
    floor of [100] times the drawn fraction is 14.  A thief holding
    11258999068426243 who fails pays [int(b * 0.20) = 2251799813685249],
    one more than [floor(b / 5)]. *)
Lemma steal_float_rounding :
  py_uniform f0_10 f0_30 (Fin 1 (-2)) = f0_15 /\ percent_ok f0_15 = true /\
  (100 * 5404319552844595) / 2 ^ 55 = 14 /\
  dget (waifame (observe (user_data (outcome_world
    (steal (mkWorld (<[2 := set_waifame 100 new_account]>
              {[1 := set_waifame 30 new_account]}) ∅ ∅ ∅)
           1 (Some (mkMember 2 false)) 10000 true f0_15))) 2)) 0 = 85 /\
  11258999068426243 / 5 = 2251799813685248 /\
  dget (waifame (observe (user_data (outcome_world
    (steal (mkWorld (<[2 := set_waifame 100 new_account]>
              {[1 := set_waifame 11258999068426243 new_account]}) ∅ ∅ ∅)
           1 (Some (mkMember 2 false)) 10000 false f0_15))) 1)) 0 =
    11258999068426243 - 2251799813685249.
Proof. vm_compute. repeat split. Qed.

(** C6 with the player dealt Ace and King and a wager of 10 against a
    balance of 100: paid 25, balance 115. *)
Lemma blackjack_natural_witness :
  exists w',
    blackjack (mkWorld {[1 := set_waifame 100 new_account]} ∅ ∅ ∅) 1 10
      ([] ++ [(Num 2, "clubs"%string); (Num 7, "clubs"%string);
              (RK, "hearts"%string); (RA, "spades"%string)]) =
      Done w' None (BlackjackNatural 25) /\
    dget (waifame (observe (user_data w') 1)) 0 = 115.
Proof.
  assert (Hb : 10 <= dget (waifame (observe
                 (user_data (mkWorld {[1 := set_waifame 100 new_account]} ∅ ∅ ∅)) 1)) 0).
  { vm_compute. intro Hx. discriminate Hx. }
  assert (H21 : hand_value [(RA, "spades"%string); (RK, "hearts"%string)] = 21).
  { vm_compute. reflexivity. }
  destruct (blackjack_natural (mkWorld {[1 := set_waifame 100 new_account]} ∅ ∅ ∅)
              1 10 [] (RA, "spades"%string) (RK, "hearts"%string)
              (Num 7, "clubs"%string) (Num 2, "clubs"%string)
              ltac:(lia) Hb H21)
    as (_ & _ & H).
  assert (Ei : int_times_float 10 f2_5 = inr 25) by (vm_compute; reflexivity).
  rewrite Ei in H. destruct H as (_ & w' & H1 & _ & H3 & _).
  exists w'. split; [exact H1|]. rewrite H3. vm_compute. reflexivity.
Defined.

(** C6 (counterexample): a natural with the wager 2251799813685251 pays
    [int(m * 2.5) = 5629499534213128], one more than [floor(2.5 * m)]; with
    the wager 2^1023 the product overflows, [OverflowError] escapes and
    the game stays stored. *)
Lemma blackjack_natural_rounding :
  (2251799813685251 * 5) / 2 = 5629499534213127 /\
  (exists w',
    blackjack (mkWorld {[1 := set_waifame 2251799813685251 new_account]} ∅ ∅ ∅)
      1 2251799813685251
      [(Num 2, "clubs"%string); (Num 7, "clubs"%string);
       (RK, "hearts"%string); (RA, "spades"%string)] =
      Done w' None (BlackjackNatural 5629499534213128)) /\
  (exists w',
    blackjack (mkWorld {[1 := set_waifame (2 ^ 1023) new_account]} ∅ ∅ ∅) 1 (2 ^ 1023)
      [(Num 2, "clubs"%string); (Num 7, "clubs"%string);
       (RK, "hearts"%string); (RA, "spades"%string)] =
      Raised w' None OverflowError /\
    blackjack_games w' !! 1 =
      Some (mkGame [] [(RA, "spades"%string); (RK, "hearts"%string)]
              [(Num 7, "clubs"%string); (Num 2, "clubs"%string)] (2 ^ 1023) true)).
Proof.
  split; [vm_compute; reflexivity|]. split; eexists; vm_compute; [reflexivity|].
  split; reflexivity.
Qed.

(** C9 for a post with score 120, 250 favorites and an artist with 1234
    posts: 1 + 2 + 2 + 3 = 8. *)
Lemma calculate_waifame_formula_witness :
  cache_ok (fun _ => RespStatus 200 [Some 1234]) ∅ /\
  snd (calculate_waifame (fun _ => RespStatus 200 [Some 1234]) ∅
         (mkPost (Some 7) (Some 120) (Some 250) (Some "artist_a other"%string))) = 8.
Proof.
  assert (Hc : cache_ok (fun _ => RespStatus 200 [Some 1234]) ∅).
  { intros n pc H. rewrite lookup_empty in H. discriminate. }
  split; [exact Hc|].
  destruct (calculate_waifame_formula (fun _ => RespStatus 200 [Some 1234]) ∅
              (mkPost (Some 7) (Some 120) (Some 250) (Some "artist_a other"%string)) Hc)
    as [H _].
  rewrite H. vm_compute. reflexivity.
Defined.

(** ** Further properties of the program *)

Lemma fame_bonus_nonneg (pc : Z) : 0 <= fame_bonus pc.
Proof. unfold fame_bonus. repeat case_bool_decide; lia. Qed.

(** X1: [give] changes nothing unless the author is the admin, a member
    is named and the amount is positive; then the member's balance rises
    by the amount and no other user, history or game changes. *)
Theorem give_credits_target (w : World) (author : Z) (target : option Member)
    (amount : Z) :
  let w' := outcome_world (give w author target amount) in
  ((author <> ADMIN_ID \/ target = None \/ amount <= 0) -> w' = w) /\
  (forall t, author = ADMIN_ID -> target = Some t -> 0 < amount ->
     dget (waifame (observe (user_data w') (member_id t))) 0 =
       dget (waifame (observe (user_data w) (member_id t))) 0 + amount /\
     (forall uid, uid <> member_id t ->
        observe (user_data w') uid = observe (user_data w) uid) /\
     history w' = history w /\ video_history w' = video_history w /\
     blackjack_games w' = blackjack_games w).
Proof.
  cbv zeta. split.
  - intros H. unfold give. case_bool_decide; [reflexivity|].
    destruct target as [t|]; [|reflexivity].
    case_bool_decide; [reflexivity|]. exfalso. destruct H as [H|[H|H]]; [congruence..|lia].
  - intros t -> -> Ha. unfold give.
    rewrite bool_decide_eq_false_2 by congruence.
    rewrite bool_decide_eq_false_2 by lia.
    unfold get_user_data. cbn [outcome_world user_data set_user_data history
      video_history blackjack_games].
    rewrite !observe_insert_eq. split; [|split; [|auto]].
    + rewrite waifame_backfill. reflexivity.
    + intros uid Hne. obs_simpl. reflexivity.
Qed.

(** X2: [reset] is admin-only and acts only on a user already in the store
    (the named member, else the author): the entry becomes the zeroed
    account, nothing else changes, and the next daily claim pays the base
    reward plus 10 with a streak of 1. *)
Theorem reset_zeroes_existing (w : World) (author : Z) (target : option Member) :
  let uid := match target with None => author | Some t => member_id t end in
  let w' := outcome_world (reset w author target) in
  (author <> ADMIN_ID -> w' = w) /\
  (author = ADMIN_ID -> user_data w !! uid = None -> w' = w) /\
  (author = ADMIN_ID -> user_data w !! uid <> None ->
     user_data w' !! uid = Some reset_account /\
     (forall uid', uid' <> uid -> user_data w' !! uid' = user_data w !! uid') /\
     history w' = history w /\ video_history w' = video_history w /\
     blackjack_games w' = blackjack_games w /\
     (forall today yesterday r,
        today <> ""%string -> yesterday <> ""%string ->
        let w'' := outcome_world (daily w' uid today yesterday r) in
        dget (waifame (observe (user_data w'') uid)) 0 = r + 10 /\
        daily_streak (observe (user_data w'') uid) = Some 1)).
Proof.
  cbv zeta. split; [|split].
  - intros H. unfold reset. rewrite bool_decide_eq_true_2 by exact H. reflexivity.
  - intros -> Hn. unfold reset. rewrite bool_decide_eq_false_2 by congruence.
    rewrite Hn. reflexivity.
  - intros -> Hs. unfold reset. rewrite bool_decide_eq_false_2 by congruence.
    destruct (user_data w !! _) eqn:E; [|congruence].
    cbn [outcome_world user_data set_user_data history video_history blackjack_games].
    split; [by rewrite lookup_insert_eq|]. split.
    + intros u Hu. by rewrite lookup_insert_ne by congruence.
    + split; [reflexivity|]. split; [reflexivity|]. split; [reflexivity|].
      intros today yesterday r Ht Hy.
      unfold daily, get_user_data. cbn [user_data set_user_data].
      rewrite !observe_insert_eq. cbn.
      rewrite bool_decide_eq_false_2 by congruence.
      rewrite bool_decide_eq_false_2 by congruence.
      cbn [outcome_world user_data set_user_data].
      rewrite observe_insert_eq. cbn. split; [lia | reflexivity].
Qed.

(** X3: [stats] changes no observation; its daily remaining count is
    positive exactly when [can_add_favorite] admits, and after
    [use_daily_favorite] it equals the count that call returns. *)
Theorem stats_matches_gate (st : Store) (uid : Z) (today : string) :
  let r := stats_daily_remaining (snd (stats st uid today)) in
  (forall u, observe (fst (stats st uid today)) u = observe st u) /\
  (0 < r <-> snd (can_add_favorite st uid today) = true) /\
  snd (use_daily_favorite st uid today) =
    stats_daily_remaining (snd (stats (fst (use_daily_favorite st uid today)) uid today)).
Proof.
  cbv zeta. split; [|split].
  - intros u. unfold stats. apply observe_get_user_data.
  - unfold stats, can_add_favorite, get_user_data, reset_day. cbn [fst snd stats_daily_remaining].
    destruct (decide (last_fav_date (observe st uid) = Some today)) as [E|E].
    + rewrite bool_decide_eq_false_2 by tauto. cbn.
      split; intros H; [apply bool_decide_eq_true_2; lia | apply bool_decide_eq_true_1 in H; lia].
    + rewrite bool_decide_eq_true_2 by exact E. cbn.
      split; intros _; [apply bool_decide_eq_true_2; lia | lia].
  - unfold stats, use_daily_favorite, get_user_data, reset_day. cbn [fst snd stats_daily_remaining].
    rewrite observe_insert_eq.
    destruct (decide (last_fav_date (observe st uid) = Some today)) as [E|E]; cbn.
    + rewrite E. rewrite bool_decide_eq_false_2 by tauto. reflexivity.
    + rewrite bool_decide_eq_false_2 by tauto. reflexivity.
Qed.

(** X4: [add_waifame] credits the user with the [calculate_waifame] value,
    returns it with the new total, changes no other user, and credits at
    least 1 when the post's favorite count is not negative. *)
Theorem add_waifame_credits (tags_lookup : string -> TagResponse)
    (cache : gmap string Z) (st : Store) (uid : Z) (post : Post) :
  let '(_, st', (earned, total)) := add_waifame tags_lookup cache st uid post in
  earned = snd (calculate_waifame tags_lookup cache post) /\
  total = dget (waifame (observe st uid)) 0 + earned /\
  dget (waifame (observe st' uid)) 0 = total /\
  (forall u, u <> uid -> observe st' u = observe st u) /\
  (0 <= dget (fav_count post) 0 -> 1 <= earned).
Proof.
  unfold add_waifame, get_user_data.
  destruct (calculate_waifame tags_lookup cache post) as [c1 e] eqn:Ec.
  split; [reflexivity|]. split; [reflexivity|]. split.
  - rewrite observe_insert_eq. reflexivity.
  - split; [intros u Hu; obs_simpl; reflexivity|].
    intros Hf. unfold calculate_waifame in Ec.
    destruct (get_artist_fame_bonus tags_lookup cache post) as [c2 b] eqn:Eb.
    injection Ec as _ <-.
    assert (0 <= b).
    { unfold get_artist_fame_bonus in Eb. repeat case_match; injection Eb as _ <-;
      first [lia | apply fame_bonus_nonneg]. }
    pose proof (Z.div_pos _ 50 (Z.le_max_l 0 (dget (score post) 0)) ltac:(lia)).
    pose proof (Z.div_pos (dget (fav_count post) 0) 100 Hf ltac:(lia)). lia.
Qed.

Lemma fold_insert_lookup {A B} (f : A -> B) (l : list (Z * A)) (acc : gmap Z B) (k : Z) :
  NoDup l.*1 ->
  fold_left (fun acc '(uid, x) => <[uid := f x]> acc) l acc !! k =
  match (list_to_map l : gmap Z A) !! k with Some x => Some (f x) | None => acc !! k end.
Proof.
  revert acc. induction l as [|[k' x] l IH]; intros acc Hnd; [reflexivity|].
  cbn [fold_left]. inversion Hnd as [|? ? Hnot Hnd']; subst.
  rewrite IH by exact Hnd'. cbn [list_to_map foldr fst].
  destruct (decide (k = k')) as [-> |E].
  - rewrite lookup_insert_eq.
    rewrite (not_elem_of_list_to_map_1 l k' Hnot). by rewrite lookup_insert_eq.
  - rewrite !lookup_insert_ne by congruence. reflexivity.
Qed.

Lemma fold_insert_map_to_list {A B} (f : A -> B) (m : gmap Z A) (acc : gmap Z B) (k : Z) :
  fold_left (fun acc '(uid, x) => <[uid := f x]> acc) (map_to_list m) acc !! k =
  match m !! k with Some x => Some (f x) | None => acc !! k end.
Proof.
  rewrite fold_insert_lookup by apply NoDup_fst_map_to_list.
  by rewrite list_to_map_to_list.
Qed.

Lemma load_save_lookup (st : Store) (s : Storage) (st0 : Store) (uid : Z) (a : Account) :
  st !! uid = Some a -> save_ok st = true ->
  load_user_data true (save_user_data true st s) st0 !! uid = Some (account_of_row (db_row a)).
Proof.
  intros H Hok. unfold load_user_data, save_user_data. rewrite Hok. cbn [table].
  rewrite (fold_insert_map_to_list account_of_row).
  rewrite (fold_insert_map_to_list db_row). by rewrite H.
Qed.

(** X5: Saving a stored user to the database and loading it back keeps the
    favorites, view count, balance, daily favorite counter and its date,
    but loses last_daily, daily_streak and last_steal; this needs every
    user's view count, balance and daily favorite counter to fit the
    32-bit [INTEGER] columns, and otherwise the save leaves the database
    as it was.  Through the JSON file, save and load give the store back
    whole. *)
Theorem reload_drops_daily_fields (st : Store) (s : Storage) (st0 : Store) (uid : Z)
    (Hin : st !! uid <> None) :
  let a := observe st uid in
  (save_ok st = true ->
   let a' := observe (load_user_data true (save_user_data true st s) st0) uid in
   favorites a' = favorites a /\
   dget (view_count a') 0 = dget (view_count a) 0 /\
   waifame a' = waifame a /\ daily_favs a' = daily_favs a /\
   last_fav_date a' = last_fav_date a /\
   last_daily a' = None /\ daily_streak a' = None /\ last_steal a' = None) /\
  (save_ok st = false -> save_user_data true st s = s) /\
  load_user_data false (save_user_data false st s) st0 = st.
Proof.
  destruct (st !! uid) as [a|] eqn:E; [|congruence].
  cbv zeta. split; [|split].
  - intros Hok. unfold observe.
    rewrite (load_save_lookup st s st0 uid a E Hok), E. cbn.
    repeat split; reflexivity.
  - intros Hno. unfold save_user_data. by rewrite Hno.
  - reflexivity.
Qed.

Lemma daily_sets_today (w : World) (uid : Z) (today yesterday : string) (r : Z) :
  today <> ""%string ->
  exists b, user_data (outcome_world (daily w uid today yesterday r)) !! uid = Some b /\
            last_daily b = Some today.
Proof.
  intros Ht. unfold daily, get_user_data.
  case_bool_decide as Hl; cbn [outcome_world user_data set_user_data].
  - eexists; split; [by rewrite lookup_insert_eq|].
    destruct (last_daily (observe (user_data w) uid)) as [x|] eqn:E.
    + cbn in Hl. unfold observe in E |- *. destruct (user_data w !! uid); cbn in *; congruence.
    + cbn in Hl. congruence.
  - eexists; split; [by rewrite lookup_insert_eq|]. reflexivity.
Qed.

(** X6: A second [daily] on the same day changes nothing.  After a save
    to the database and a reload (as [on_ready] does), with every value
    fitting the [INTEGER] columns, the same-day claim pays again: the
    base reward plus 10 (the streak restarts at 1).  After a save to and
    a reload from the JSON file it is still refused. *)
Theorem reload_allows_second_daily (w : World) (s : Storage) (st0 : Store) (uid : Z)
    (today yesterday : string) (r1 r2 : Z)
    (Ht : today <> ""%string) (Hy : yesterday <> ""%string) :
  let w1 := outcome_world (daily w uid today yesterday r1) in
  let w_db := set_user_data (load_user_data true (save_user_data true (user_data w1) s) st0) w1 in
  let w_json := set_user_data (load_user_data false (save_user_data false (user_data w1) s) st0) w1 in
  (forall u, observe (user_data (outcome_world (daily w1 uid today yesterday r2))) u =
             observe (user_data w1) u) /\
  (save_ok (user_data w1) = true ->
   dget (waifame (observe (user_data (outcome_world (daily w_db uid today yesterday r2))) uid)) 0 =
     dget (waifame (observe (user_data w1) uid)) 0 + r2 + 10) /\
  (forall u, observe (user_data (outcome_world (daily w_json uid today yesterday r2))) u =
             observe (user_data w1) u).
Proof.
  cbv zeta.
  destruct (daily_sets_today w uid today yesterday r1 Ht) as (b & Hb & Hd).
  set (w1 := outcome_world (daily w uid today yesterday r1)) in *.
  assert (Hsame : forall w', user_data w' = user_data w1 -> forall u,
            observe (user_data (outcome_world (daily w' uid today yesterday r2))) u =
            observe (user_data w1) u).
  { intros w' Hw' u. unfold daily at 1. unfold get_user_data. rewrite Hw'.
    assert (Hl : dget (last_daily (observe (user_data w1) uid)) ""%string = today).
    { unfold observe. rewrite Hb. cbn. by rewrite Hd. }
    rewrite bool_decide_eq_true_2 by exact Hl.
    cbn [outcome_world user_data set_user_data].
    exact (observe_get_user_data (user_data w1) uid u). }
  split; [|split].
  - exact (Hsame w1 eq_refl).
  - intros Hok.
    pose proof (load_save_lookup (user_data w1) s st0 uid b Hb Hok) as Hr.
    assert (Ho : observe (load_user_data true (save_user_data true (user_data w1) s) st0) uid
                 = backfill (account_of_row (db_row b))) by (unfold observe; by rewrite Hr).
    assert (Hw1 : observe (user_data w1) uid = backfill b) by (unfold observe; by rewrite Hb).
    unfold daily at 1, get_user_data. cbn [user_data set_user_data].
    rewrite !Ho. cbn.
    rewrite bool_decide_eq_false_2 by congruence.
    rewrite bool_decide_eq_false_2 by congruence.
    cbn [outcome_world user_data set_user_data].
    rewrite observe_insert_eq, Hw1. cbn. lia.
  - apply Hsame. reflexivity.
Qed.

Lemma steal_sets_last_steal (w : World) (author : Z) (t : Member) (now : Z)
    (success : bool) (x : PyFloat) :
  member_id t <> author -> member_bot t = false ->
  dget (last_steal (observe (user_data w) author)) 0 + 60 * 60 - now <= 0 ->
  50 <= dget (waifame (observe (user_data w) (member_id t))) 0 ->
  last_steal (observe (user_data (outcome_world (steal w author (Some t) now success x)))
                author) = Some now.
Proof.
  intros Hne Hbot Hcool Hv. unfold steal.
  rewrite bool_decide_eq_false_2 by exact Hne. rewrite Hbot.
  destruct (get_user_data (user_data w) author) as [st1 thief] eqn:E1.
  destruct (get_user_data st1 (member_id t)) as [st2 victim] eqn:E2.
  assert (Ht : thief = observe (user_data w) author) by (unfold get_user_data in E1; congruence).
  assert (Hs1 : st1 = fst (get_user_data (user_data w) author)) by (rewrite E1; reflexivity).
  assert (Hvi : victim = observe (user_data w) (member_id t)).
  { assert (victim = observe st1 (member_id t)) by (unfold get_user_data in E2; congruence).
    subst victim. rewrite Hs1. apply observe_get_user_data. }
  subst thief victim.
  rewrite bool_decide_eq_false_2 by lia. rewrite bool_decide_eq_false_2 by lia.
  destruct success;
    [destruct (int_times_float _ x) | destruct (int_times_float _ f0_20)];
    cbn [outcome_world user_data set_user_data]; obs_simpl; reflexivity.
Qed.

Lemma steal_refused_on_cooldown (w : World) (author : Z) (target : option Member)
    (now : Z) (success : bool) (x : PyFloat) :
  0 < dget (last_steal (observe (user_data w) author)) 0 + 60 * 60 - now ->
  let w' := outcome_world (steal w author target now success x) in
  (forall u, observe (user_data w') u = observe (user_data w) u) /\
  history w' = history w /\ video_history w' = video_history w /\
  blackjack_games w' = blackjack_games w.
Proof.
  intros Hc. cbv zeta. unfold steal.
  destruct target as [t|]; [|repeat split].
  case_bool_decide; [repeat split|]. destruct (member_bot t); [repeat split|].
  destruct (get_user_data (user_data w) author) as [st1 thief] eqn:E1.
  destruct (get_user_data st1 (member_id t)) as [st2 victim] eqn:E2.
  assert (Ht : thief = observe (user_data w) author) by (unfold get_user_data in E1; congruence).
  assert (Hs1 : st1 = fst (get_user_data (user_data w) author)) by (rewrite E1; reflexivity).
  assert (Hs2 : st2 = fst (get_user_data st1 (member_id t))) by (rewrite E2; reflexivity).
  subst thief. rewrite bool_decide_eq_true_2 by exact Hc.
  cbn [outcome_world user_data set_user_data history video_history blackjack_games].
  split; [|repeat split].
  intros u. rewrite Hs2, observe_get_user_data, Hs1. apply observe_get_user_data.
Qed.

(** X7: A theft attempt that passes its checks stamps the thief's
    last_steal with [now]; any attempt less than an hour later changes no
    observation. *)
Theorem steal_cooldown_blocks_second (w : World) (author : Z) (t : Member) (now : Z)
    (success : bool) (x : PyFloat)
    (Hne : member_id t <> author) (Hbot : member_bot t = false)
    (Hcool : dget (last_steal (observe (user_data w) author)) 0 + 60 * 60 - now <= 0)
    (Hv : 50 <= dget (waifame (observe (user_data w) (member_id t))) 0) :
  let w1 := outcome_world (steal w author (Some t) now success x) in
  last_steal (observe (user_data w1) author) = Some now /\
  (forall target2 now2 success2 x2, now2 < now + 60 * 60 ->
    let w2 := outcome_world (steal w1 author target2 now2 success2 x2) in
    (forall u, observe (user_data w2) u = observe (user_data w1) u) /\
    history w2 = history w1 /\ video_history w2 = video_history w1 /\
    blackjack_games w2 = blackjack_games w1).
Proof.
  cbv zeta. pose proof (steal_sets_last_steal w author t now success x Hne Hbot Hcool Hv) as H.
  split; [exact H|]. intros target2 now2 success2 x2 Hlt.
  apply steal_refused_on_cooldown. rewrite H. cbn. lia.
Qed.

Lemma use_daily_favorite_frame (st : Store) (u : Z) (today : string) (u' : Z) :
  favorites (observe (fst (use_daily_favorite st u today)) u') = favorites (observe st u') /\
  (u' <> u -> observe (fst (use_daily_favorite st u today)) u' = observe st u').
Proof.
  unfold use_daily_favorite, get_user_data, reset_day. cbn [fst].
  destruct (decide (u = u')) as [-> |E].
  - rewrite observe_insert_eq. split; [|congruence]. case_decide; reflexivity.
  - rewrite !observe_insert_ne by congruence. split; reflexivity.
Qed.

Lemma can_add_favorite_frame (st : Store) (u : Z) (today : string) (u' : Z) :
  favorites (observe (fst (can_add_favorite st u today)) u') = favorites (observe st u') /\
  (u' <> u -> observe (fst (can_add_favorite st u today)) u' = observe st u').
Proof.
  unfold can_add_favorite, get_user_data, reset_day. cbn [fst].
  destruct (decide (u = u')) as [-> |E].
  - rewrite observe_insert_eq. split; [|congruence]. case_decide; reflexivity.
  - rewrite !observe_insert_ne by congruence. split; reflexivity.
Qed.

Lemma use_daily_favorite_remaining (st : Store) (u : Z) (today : string) :
  snd (use_daily_favorite st u today) =
  5 - dget (daily_favs (observe (fst (use_daily_favorite st u today)) u)) 0.
Proof.
  unfold use_daily_favorite, get_user_data. cbn [fst snd].
  rewrite observe_insert_eq. reflexivity.
Qed.

Lemma filter_none_fav (pid : option Z) (favs : list FavPost) (e : FavPost) :
  is_fav_of pid favs = false -> fav_id e = pid ->
  filter (fun q => fav_id q <> pid) (favs ++ [e]) = favs.
Proof.
  intros Hf He. induction favs as [|q favs IH]; cbn [app].
  - rewrite filter_cons_False by (intros H; apply H; exact He). reflexivity.
  - unfold is_fav_of in Hf. cbn [existsb] in Hf. apply orb_false_iff in Hf as [Hq Hr].
    rewrite filter_cons_True by (intros Heq; rewrite bool_decide_eq_true_2 in Hq by exact Heq; discriminate).
    f_equal. apply IH. exact Hr.
Qed.

Lemma observe_some_daily_favs (st : Store) (uid : Z) :
  daily_favs (observe st uid) = Some (dget (daily_favs (observe st uid)) 0).
Proof. unfold observe. destruct (st !! uid); reflexivity. Qed.

Lemma check_user_rebind (v : ImageView) (clicker : Z) :
  check_user (iv_user_id v) clicker = true ->
  let v1 := if truthy (iv_user_id v) then v
            else mkImageView (iv_guild_id v) (iv_post v) (Some clicker) (iv_current_tags v) in
  iv_user_id v1 = Some clicker /\ iv_post v1 = iv_post v.
Proof.
  unfold check_user. destruct (truthy (iv_user_id v)) eqn:Ht; cbn.
  - case_bool_decide as E; [|discriminate]. intros _. split; [congruence | reflexivity].
  - intros _. split; reflexivity.
Qed.

Lemma check_user_self (clicker : Z) : check_user (Some clicker) clicker = true.
Proof. unfold check_user. rewrite bool_decide_eq_true_2 by reflexivity. by rewrite andb_false_r. Qed.

(** X8: After a favorite click that adds, a second click on the returned view
    by the same user removes the post again: the favorites are back to
    what they were, the daily counter stays consumed, and no other user
    changes. *)
Theorem fav_toggle_restores (st : Store) (v : ImageView) (clicker : Z) (today : string)
    (st1 : Store) (v1 : ImageView) (r : Z)
    (Hadd : fav_callback st v clicker today = (st1, v1, FavAdded r)) :
  let st2 := fst (fst (fav_callback st1 v1 clicker today)) in
  snd (fav_callback st1 v1 clicker today) = FavRemoved /\
  favorites (observe st2 clicker) = favorites (observe st clicker) /\
  daily_favs (observe st2 clicker) = daily_favs (observe st1 clicker) /\
  r = 5 - dget (daily_favs (observe st2 clicker)) 0 /\
  (forall u, u <> clicker -> observe st2 u = observe st u).
Proof.
  unfold fav_callback in Hadd.
  destruct (check_user (iv_user_id v) clicker) eqn:Hc; cbn [negb] in Hadd; [|discriminate].
  pose proof (check_user_rebind v clicker Hc) as [Hid Hpost]. cbv zeta in Hid, Hpost.
  set (v1' := if truthy (iv_user_id v) then v else _) in Hadd, Hid, Hpost.
  rewrite Hid in Hadd. cbn [dget] in Hadd.
  unfold get_user_data at 1 in Hadd.
  set (st1' := <[clicker := observe st clicker]> st) in Hadd.
  destruct (is_fav_of (id (iv_post v1')) (favorites (observe st clicker))) eqn:Hf;
    [discriminate|].
  destruct (can_add_favorite st1' clicker today) as [st2' ok] eqn:Hca.
  destruct ok; cbn [negb] in Hadd; [|discriminate].
  unfold get_user_data at 1 in Hadd.
  set (data3 := observe st2' clicker) in Hadd.
  set (st4 := <[clicker := set_favorites (favorites data3 ++ [fav_entry (iv_post v1')]) data3]>
                (<[clicker := data3]> st2')) in Hadd.
  destruct (use_daily_favorite st4 clicker today) as [st5 rem] eqn:Hud.
  injection Hadd as <- <- <-.
  (* facts about the state after the first click *)
  assert (HF3 : favorites data3 = favorites (observe st clicker)).
  { unfold data3. pose proof (can_add_favorite_frame st1' clicker today clicker) as [H _].
    rewrite Hca in H. cbn [fst] in H. rewrite H. unfold st1'. by rewrite observe_insert_eq. }
  assert (HF5 : favorites (observe st5 clicker) =
                favorites (observe st clicker) ++ [fav_entry (iv_post v1')]).
  { pose proof (use_daily_favorite_frame st4 clicker today clicker) as [H _].
    rewrite Hud in H. cbn [fst] in H. rewrite H. unfold st4. rewrite observe_insert_eq.
    cbn. by rewrite HF3. }
  assert (Hrem : rem = 5 - dget (daily_favs (observe st5 clicker)) 0).
  { pose proof (use_daily_favorite_remaining st4 clicker today) as H.
    rewrite Hud in H. exact H. }
  (* the second click *)
  unfold fav_callback.
  replace (check_user (iv_user_id v1') clicker) with true
    by (rewrite Hid; symmetry; apply check_user_self). cbn [negb].
  pose proof (check_user_rebind v1' clicker ltac:(rewrite Hid; apply check_user_self))
    as [Hid2 Hpost2]. cbv zeta in Hid2, Hpost2.
  set (v2 := if truthy (iv_user_id v1') then v1' else _) in Hid2, Hpost2 |- *.
  rewrite Hid2. cbn [dget]. unfold get_user_data. rewrite Hpost2.
  assert (Hin : is_fav_of (id (iv_post v1')) (favorites (observe st5 clicker)) = true).
  { rewrite HF5. unfold is_fav_of. rewrite existsb_app. apply orb_true_iff. right.
    cbn. rewrite bool_decide_eq_true_2 by reflexivity. reflexivity. }
  rewrite Hin. cbn [fst snd].
  split; [reflexivity|]. split; [|split; [|split]].
  - rewrite observe_insert_eq. cbn. rewrite HF5. apply filter_none_fav; [exact Hf | reflexivity].
  - rewrite observe_insert_eq. cbn. symmetry. apply observe_some_daily_favs.
  - rewrite observe_insert_eq. cbn. exact Hrem.
  - intros u Hu. rewrite !observe_insert_ne by congruence.
    pose proof (use_daily_favorite_frame st4 clicker today u) as [_ H].
    rewrite Hud in H. cbn [fst] in H. rewrite H by exact Hu.
    unfold st4. rewrite !observe_insert_ne by congruence.
    pose proof (can_add_favorite_frame st1' clicker today u) as [_ H2].
    rewrite Hca in H2. cbn [fst] in H2. rewrite H2 by exact Hu.
    unfold st1'. by rewrite observe_insert_ne by congruence.
Qed.

(** X9: Once [get_artist_fame_bonus] has cached an artist's post count, a
    later post with the same first artist gets the same bonus from the
    cache, whatever the API now answers. *)
Theorem artist_cache_never_refreshed (f1 f2 : string -> TagResponse)
    (cache : gmap string Z) (p1 p2 : Post) (name : string) (rest1 rest2 : list string)
    (H1 : py_split (dget (tag_string_artist p1) ""%string) = name :: rest1)
    (H2 : py_split (dget (tag_string_artist p2) ""%string) = name :: rest2) :
  let '(cache1, b1) := get_artist_fame_bonus f1 cache p1 in
  get_artist_fame_bonus f2 cache1 p2 = (cache1, b1) /\
  cache1 !! name = Some (match cache !! name with
                         | Some pc => pc
                         | None => lookup_post_count f1 name
                         end).
Proof.
  unfold get_artist_fame_bonus. rewrite H1, H2.
  destruct (cache !! name) as [pc|] eqn:E.
  - rewrite E. split; reflexivity.
  - rewrite lookup_insert_eq. split; reflexivity.
Qed.

Lemma observe_add_to_waifame (st : Store) (uid delta uid' : Z) :
  dget (waifame (observe (add_to_waifame st uid delta) uid')) 0 =
    dget (waifame (observe st uid')) 0 + (if decide (uid = uid') then delta else 0) /\
  (uid <> uid' -> observe (add_to_waifame st uid delta) uid' = observe st uid').
Proof.
  unfold add_to_waifame, get_user_data.
  destruct (decide (uid = uid')) as [<-|E].
  - rewrite !observe_insert_eq. split; [|congruence]. cbn.
    unfold observe. destruct (st !! uid); cbn; lia.
  - rewrite !observe_insert_ne by congruence. split; [lia|]. intros _.
    reflexivity.
Qed.

Lemma deck_pop_some (d d' : list Card) (c : Card) :
  deck_pop d = Some (d', c) -> d = d' ++ [c].
Proof.
  unfold deck_pop. destruct (last d) as [c'|] eqn:E; [|discriminate].
  intros [= <- <-]. apply last_Some in E as [l ->].
  by rewrite removelast_last.
Qed.

Lemma deck_pop_none (d : list Card) : deck_pop d = None -> d = [].
Proof.
  unfold deck_pop. destruct (last d) eqn:E; [discriminate|].
  intros _. by apply last_None.
Qed.




Lemma insert_desc_perm (x : Z * Z) (l : list (Z * Z)) :
  Permutation (insert_desc x l) (x :: l).
Proof.
  induction l as [|y l IH]; cbn; [reflexivity|].
  case_bool_decide; [|reflexivity].
  rewrite IH. constructor.
Qed.

Lemma sort_desc_perm_acc (l acc : list (Z * Z)) :
  Permutation (fold_left (fun acc x => insert_desc x acc) l acc) (l ++ acc).
Proof.
  revert acc. induction l as [|x l IH]; intros acc; cbn; [reflexivity|].
  rewrite IH, insert_desc_perm. symmetry; apply Permutation_middle.
Qed.

Lemma sort_desc_perm (l : list (Z * Z)) : Permutation (sort_desc l) l.
Proof. unfold sort_desc. rewrite sort_desc_perm_acc. by rewrite app_nil_r. Qed.

Lemma insert_desc_sorted (x : Z * Z) (l : list (Z * Z)) :
  StronglySorted wf_ge l -> StronglySorted wf_ge (insert_desc x l).
Proof.
  induction l as [|y l IH]; intros Hs; cbn.
  - repeat constructor.
  - inversion Hs as [|? ? Hl Hf]; subst. case_bool_decide.
    + constructor; [by apply IH|].
      apply (Permutation_Forall (Permutation_sym (insert_desc_perm x l))).
      constructor; [unfold wf_ge; lia | exact Hf].
    + constructor; [exact Hs|]. constructor; [unfold wf_ge; lia|].
      eapply Forall_impl; [exact Hf|]. unfold wf_ge. intros z Hz. lia.
Qed.

Lemma sort_desc_sorted (l : list (Z * Z)) : StronglySorted wf_ge (sort_desc l).
Proof.
  unfold sort_desc.
  assert (H : forall acc, StronglySorted wf_ge acc ->
            StronglySorted wf_ge (fold_left (fun acc x => insert_desc x acc) l acc)).
  { induction l as [|x l IH]; intros acc Ha; cbn; [exact Ha|].
    apply IH, insert_desc_sorted, Ha. }
  apply H. constructor.
Qed.

Lemma strongly_sorted_lookup (l : list (Z * Z)) (i j : nat) (a b : Z * Z) :
  StronglySorted wf_ge l -> (i < j)%nat -> l !! i = Some a -> l !! j = Some b ->
  snd b <= snd a.
Proof.
  revert i j. induction l as [|y l IH]; intros i j Hs Hij Ha Hb; [discriminate|].
  inversion Hs as [|? ? Hl Hf]; subst.
  destruct i as [|i], j as [|j]; cbn in Ha, Hb; try lia.
  - injection Ha as <-. rewrite Forall_forall in Hf.
    apply Hf. apply list_elem_of_lookup. eauto.
  - eapply IH; [exact Hl | | exact Ha | exact Hb]. lia.
Qed.

Lemma length_filter_map_waifame (items : list (Z * Account)) :
  length (filter (fun e : Z * Z => 0 < snd e)
            (map (fun '(uid, data) => (uid, dget (waifame data) 0)) items)) =
  length (filter (fun e : Z * Account => 0 < dget (waifame (snd e)) 0) items).
Proof.
  induction items as [|[uid data] items IH]; cbn [map]; [reflexivity|].
  rewrite !filter_cons. cbn [snd]. case_decide; cbn [length]; lia.
Qed.

Lemma in_take {A} (n : nat) (l : list A) (x : A) : In x (take n l) -> In x l.
Proof. intros H. rewrite <- (take_drop n l). apply in_or_app. by left. Qed.

(** X13: [leaderboard] shows at most 10 rows in non-increasing order, each a
    user with a positive balance; a positive user not shown ranks no
    higher than any shown row, and the footer counts all positive users. *)
Theorem leaderboard_top10 (items : list (Z * Account)) :
  let '(rows, total) := leaderboard items in
  (length rows <= 10)%nat /\
  total = Z.of_nat (length (filter (fun e : Z * Account => 0 < dget (waifame (snd e)) 0) items)) /\
  (forall (i j : nat) (a b : Z * Z), (i < j)%nat -> rows !! i = Some a -> rows !! j = Some b ->
     snd b <= snd a) /\
  (forall e, In e rows ->
     0 < snd e /\ exists data, In (fst e, data) items /\ dget (waifame data) 0 = snd e) /\
  (forall uid data, In (uid, data) items -> 0 < dget (waifame data) 0 ->
     In (uid, dget (waifame data) 0) rows \/
     (length rows = 10%nat /\ forall e, In e rows -> dget (waifame data) 0 <= snd e)).
Proof.
  unfold leaderboard.
  set (L := filter (fun e : Z * Z => 0 < snd e)
              (map (fun '(uid, data) => (uid, dget (waifame data) 0)) items)).
  pose proof (sort_desc_perm L) as Hp. pose proof (sort_desc_sorted L) as Hs.
  set (S := sort_desc L) in *. cbv iota.
  assert (HL : forall e, In e L <-> 0 < snd e /\
             exists data, In (fst e, data) items /\ dget (waifame data) 0 = snd e).
  { intros [u wf]. unfold L. rewrite <- list_elem_of_In, list_elem_of_filter,
      list_elem_of_In, in_map_iff. cbn. split.
    - intros [Hw ([u' data] & [= <- <-] & Hi)]. split; [exact Hw|]. eauto.
    - intros [Hw (data & Hi & <-)]. split; [exact Hw|]. exists (u, data). auto. }
  split; [rewrite length_take; lia|]. split.
  { rewrite (Permutation_length Hp). unfold L. by rewrite length_filter_map_waifame. }
  split.
  { intros i j a b Hij Ha Hb.
    pose proof (lookup_lt_Some _ _ _ Hb) as Hj. rewrite length_take in Hj.
    rewrite lookup_take_lt in Ha by lia. rewrite lookup_take_lt in Hb by lia.
    eapply strongly_sorted_lookup; [exact Hs | exact Hij | exact Ha | exact Hb]. }
  split.
  { intros e He. apply HL. apply (Permutation_in _ Hp). exact (in_take _ _ _ He). }
  intros uid data Hi Hw.
  assert (HS : In (uid, dget (waifame data) 0) S).
  { apply (Permutation_in _ (Permutation_sym Hp)). apply HL. cbn. eauto. }
  apply list_elem_of_In, list_elem_of_lookup in HS as [j Hj].
  destruct (decide (j < 10)%nat) as [Hlt|Hge].
  - left. apply list_elem_of_In, list_elem_of_lookup. exists j.
    by rewrite lookup_take_lt.
  - right. pose proof (lookup_lt_Some _ _ _ Hj) as Hlen. split.
    + rewrite length_take. lia.
    + intros e He. apply list_elem_of_In, list_elem_of_lookup in He as [i Hi'].
      pose proof (lookup_lt_Some _ _ _ Hi') as Hi10. rewrite length_take in Hi10.
      rewrite lookup_take_lt in Hi' by lia.
      change (dget (waifame data) 0) with (snd (uid, dget (waifame data) 0)).
      eapply strongly_sorted_lookup; [exact Hs | | exact Hi' | exact Hj]. lia.
Qed.

Lemma backfill_set_favorites_observe (st : Store) (uid : Z) (l : list FavPost) :
  backfill (set_favorites l (observe st uid)) = set_favorites l (observe st uid).
Proof. unfold observe. destruct (st !! uid); reflexivity. Qed.

(** X14: [FavoritesView.delete_callback] at a valid index removes exactly that
    favorite, changes nothing else, and answers the empty-list message or
    the favorite at the index clamped to the new list, with fresh button
    flags; at an invalid index nothing observable changes and no answer
    is sent. *)
Theorem fav_delete_removes_entry (st : Store) (v : FavoritesView) :
  let u := fv_user_id v in
  let favs := favorites (observe st u) in
  let i := fv_index v in
  let '(st', v', r) := fv_delete_callback st v in
  (forall u', u' <> u -> observe st' u' = observe st u') /\
  if bool_decide (0 <= i < Z.of_nat (length favs)) then
    let rest := take (Z.to_nat i) favs ++ drop (S (Z.to_nat i)) favs in
    observe st' u = set_favorites rest (observe st u) /\
    length rest = pred (length favs) /\
    (rest = [] -> r = FavListEmpty) /\
    (rest <> [] ->
       let j := fv_index v' in
       fv_user_id v' = u /\
       j = Z.min i (Z.of_nat (length rest) - 1) /\
       prev_disabled v' = bool_decide (j = 0) /\
       next_disabled v' = bool_decide (j = Z.of_nat (length rest) - 1) /\
       exists p, rest !! Z.to_nat j = Some p /\
         r = FavShown j p (Z.of_nat (length rest)))
  else observe st' u = observe st u /\ v' = v /\ r = FavNoResponse.
Proof.
  cbv zeta. unfold fv_delete_callback, get_user_data.
  case_bool_decide as Hr.
  - set (rest := take (Z.to_nat (fv_index v)) (favorites (observe st (fv_user_id v)))
                 ++ drop (S (Z.to_nat (fv_index v))) (favorites (observe st (fv_user_id v)))).
    assert (Hlen : length rest = pred (length (favorites (observe st (fv_user_id v))))).
    { unfold rest. rewrite length_app, length_take, length_drop. lia. }
    assert (Ho : observe (<[fv_user_id v := set_favorites rest (observe st (fv_user_id v))]>
                   (<[fv_user_id v := observe st (fv_user_id v)]> st)) (fv_user_id v)
                 = set_favorites rest (observe st (fv_user_id v))).
    { rewrite observe_insert_eq. apply backfill_set_favorites_observe. }
    case_bool_decide as He.
    + split; [intros u' Hu; by obs_simpl|].
      split; [exact Ho|]. split; [exact Hlen|]. split; [reflexivity|].
      intros Hne. exfalso. apply Hne. by apply nil_length_inv.
    + unfold update_view, get_user_favs, get_user_data.
      cbn [fv_user_id fv_index set_fv_index]. rewrite Ho.
      unfold show_favorite, get_user_favs, get_user_data.
      cbn [fv_user_id fv_index favorites set_favorites].
      rewrite !observe_insert_eq, !backfill_set_favorites_observe. cbn [favorites set_favorites backfill].
      set (j := if bool_decide (Z.of_nat (length rest) <= fv_index v)
                then Z.of_nat (length rest) - 1 else fv_index v).
      assert (Hj : j = Z.min (fv_index v) (Z.of_nat (length rest) - 1)).
      { unfold j. case_bool_decide; lia. }
      assert (Hjr : 0 <= j < Z.of_nat (length rest)).
      { rewrite Hj. destruct (length rest); [congruence|]. lia. }
      rewrite bool_decide_eq_true_2 by exact Hjr.
      destruct (lookup_lt_is_Some_2 rest (Z.to_nat j)) as [p Hp]; [lia|].
      rewrite Hp.
      split; [intros u' Hu; by obs_simpl|].
      split; [by rewrite ?observe_insert_eq, ?backfill_set_favorites_observe|].
      split; [exact Hlen|]. split; [intros Hn; exfalso; apply He; by rewrite Hn|].
      intros _. split; [reflexivity|]. split; [exact Hj|].
      split; [reflexivity|]. split.
      * cbn. apply bool_decide_ext. lia.
      * exists p. split; [exact Hp | reflexivity].
  - split; [intros u' Hu; by obs_simpl|].
    split; [rewrite observe_insert_eq; apply observe_backfilled|]. auto.
Qed.

Lemma update_view_spec (st : Store) (v : FavoritesView) :
  update_view st v =
    (fst (get_user_data st (fv_user_id v)),
     mkFavoritesView (fv_user_id v) (fv_index v) (bool_decide (fv_index v = 0))
       (bool_decide (Z.of_nat (length (favorites (observe st (fv_user_id v)))) - 1
                     <= fv_index v))).
Proof. reflexivity. Qed.

Lemma show_favorite_spec (st : Store) (v : FavoritesView) :
  let favs := favorites (observe st (fv_user_id v)) in
  let j := fv_index v in
  fst (show_favorite st v) = fst (get_user_data st (fv_user_id v)) /\
  (0 <= j < Z.of_nat (length favs) ->
     exists p, favs !! Z.to_nat j = Some p /\
       snd (show_favorite st v) = FavShown j p (Z.of_nat (length favs))) /\
  (~ (0 <= j < Z.of_nat (length favs)) -> snd (show_favorite st v) = FavNoResponse).
Proof.
  cbv zeta. unfold show_favorite, get_user_favs. cbn [get_user_data fst snd].
  case_bool_decide as Hr.
  - destruct (lookup_lt_is_Some_2 (favorites (observe st (fv_user_id v)))
                (Z.to_nat (fv_index v))) as [p Hp]; [lia|].
    rewrite Hp. split; [reflexivity|]. split; [|tauto]. eauto.
  - split; [reflexivity|]. split; [tauto | reflexivity].
Qed.

Lemma fv_step_spec (st : Store) (v : FavoritesView) (d : Z) :
  let u := fv_user_id v in
  let favs := favorites (observe st u) in
  let j := fv_index v + d in
  let '(st1, v1) := update_view st (set_fv_index j v) in
  let '(st2, r) := show_favorite st1 v1 in
  (forall u', observe st2 u' = observe st u') /\
  v1 = mkFavoritesView u j (bool_decide (j = 0))
         (bool_decide (Z.of_nat (length favs) - 1 <= j)) /\
  (0 <= j < Z.of_nat (length favs) ->
     exists p, favs !! Z.to_nat j = Some p /\ r = FavShown j p (Z.of_nat (length favs))) /\
  (~ (0 <= j < Z.of_nat (length favs)) -> r = FavNoResponse).
Proof.
  cbv zeta. rewrite update_view_spec. cbn [fv_user_id fv_index set_fv_index].
  set (v1 := mkFavoritesView _ _ _ _).
  pose proof (show_favorite_spec (fst (get_user_data st (fv_user_id v))) v1)
    as (Hs1 & Hs2 & Hs3).
  cbv zeta in Hs2, Hs3.
  change (fv_user_id v1) with (fv_user_id v) in Hs1, Hs2, Hs3.
  change (fv_index v1) with (fv_index v + d) in Hs2, Hs3.
  rewrite observe_get_user_data in Hs2, Hs3.
  destruct (show_favorite _ v1) as [st2 r]. cbn [fst snd] in Hs1, Hs2, Hs3. subst st2.
  split; [intros u'; by rewrite !observe_get_user_data|].
  split; [reflexivity|]. split; assumption.
Qed.

(** X15: [prev_callback] and [next_callback] move the index by one, recompute
    both button flags, change no observation, and show the favorite at
    the new index when it is in range (no answer otherwise). *)
Theorem fv_prev_next_move (st : Store) (v : FavoritesView) :
  let u := fv_user_id v in
  let favs := favorites (observe st u) in
  let n := Z.of_nat (length favs) in
  (let '(st1, v1, r) := fv_prev_callback st v in
   let j := fv_index v - 1 in
   (forall u', observe st1 u' = observe st u') /\
   v1 = mkFavoritesView u j (bool_decide (j = 0)) (bool_decide (n - 1 <= j)) /\
   (0 <= j < n -> exists p, favs !! Z.to_nat j = Some p /\ r = FavShown j p n) /\
   (~ (0 <= j < n) -> r = FavNoResponse)) /\
  (let '(st1, v1, r) := fv_next_callback st v in
   let j := fv_index v + 1 in
   (forall u', observe st1 u' = observe st u') /\
   v1 = mkFavoritesView u j (bool_decide (j = 0)) (bool_decide (n - 1 <= j)) /\
   (0 <= j < n -> exists p, favs !! Z.to_nat j = Some p /\ r = FavShown j p n) /\
   (~ (0 <= j < n) -> r = FavNoResponse)).
Proof.
  cbv zeta. split.
  - pose proof (fv_step_spec st v (-1)) as H. cbv zeta in H.
    unfold fv_prev_callback. replace (fv_index v - 1) with (fv_index v + -1) by lia.
    destruct (update_view _ _) as [st1 v1].
    destruct (show_favorite st1 v1) as [st2 r]. exact H.
  - pose proof (fv_step_spec st v 1) as H. cbv zeta in H.
    unfold fv_next_callback.
    destruct (update_view _ _) as [st1 v1].
    destruct (show_favorite st1 v1) as [st2 r]. exact H.
Qed.

(** X16: [favorites_list] with no favorites gives no view; otherwise the view
    starts at index 0 with the previous button disabled, the next button
    disabled exactly for a single favorite, and shows the first one. *)
Theorem favorites_list_first (st : Store) (uid : Z) :
  let favs := favorites (observe st uid) in
  let '(st', res) := favorites_list st uid in
  (forall u', observe st' u' = observe st u') /\
  match favs with
  | [] => res = None
  | p :: rest =>
      res = Some (mkFavoritesView uid 0 true (bool_decide (rest = [])), p)
  end.
Proof.
  cbv zeta. unfold favorites_list. cbn [get_user_data].
  destruct (favorites (observe st uid)) as [|p rest] eqn:Ef.
  - split; [intros u'; apply (observe_get_user_data st uid u') | reflexivity].
  - rewrite update_view_spec. cbn [fv_user_id fv_index].
    split; [intros u'; rewrite observe_get_user_data; apply (observe_get_user_data st uid u')|].
    rewrite observe_insert_eq, observe_backfilled, Ef. cbn [length].
    do 3 f_equal.
    apply bool_decide_ext. destruct rest; cbn [length]; split; intros; try lia; congruence.
Qed.

Lemma send_main_view_spec (w : World) (guild : Z) (post : Post) (tags : string)
    (uid : Z) :
  let '(w1, v, n) := send_main_view w guild post tags uid in
  v = mkImageView guild post (Some uid) tags /\
  history w1 = hist_append (history w) guild post /\
  video_history w1 = video_history w /\ blackjack_games w1 = blackjack_games w /\
  n = dget (view_count (observe (user_data w) uid)) 0 + 1 /\
  observe (user_data w1) uid =
    set_view_count n (observe (user_data w) uid) /\
  (forall u', u' <> uid -> observe (user_data w1) u' = observe (user_data w) u').
Proof.
  unfold send_main_view, increment_view_count, image_view_init, get_user_data.
  cbn [user_data set_history history].
  assert (Hb : forall a : Account, backfill a = a -> 
             backfill (set_view_count (dget (view_count a) 0 + 1) a) =
               set_view_count (dget (view_count a) 0 + 1) a).
  { intros [] H. unfold backfill, set_view_count in *. cbn in *.
    injection H as H1 H2 H3. f_equal; congruence. }
  assert (Hob := observe_backfilled (user_data w) uid).
  destruct (truthy (Some uid)); cbn.
  - split; [reflexivity|]. do 3 (split; [reflexivity|]).
    rewrite !observe_insert_eq, !Hb by exact Hob. cbn. split; [reflexivity|].
    split; [reflexivity|]. intros u' Hu. by obs_simpl.
  - split; [reflexivity|]. do 3 (split; [reflexivity|]).
    rewrite !observe_insert_eq, !Hb by exact Hob. cbn. split; [reflexivity|].
    split; [reflexivity|]. intros u' Hu. by obs_simpl.
Qed.

(** X17: A successful [next] appends the post to the guild history and adds
    one view for the author; a rewind by the author on the returned view
    then restores the history and shows the previous last post, or has
    nothing to rewind when the history was empty. *)
Theorem next_then_rewind (w : World) (author guild : Z) (tags : string)
    (post : Post) (today : string) (fetched : option Post) :
  let old := dget (history w !! guild) [] in
  match next_cmd w author guild tags (Some post) with
  | (w1, Some v) =>
      v = mkImageView guild post (Some author) tags /\
      history w1 !! guild = Some (old ++ [post]) /\
      dget (view_count (observe (user_data w1) author)) 0 =
        dget (view_count (observe (user_data w) author)) 0 + 1 /\
      (forall u', u' <> author -> observe (user_data w1) u' = observe (user_data w) u') /\
      match last old with
      | Some p =>
          exists w2, image_click w1 v IRewind author today fetched =
                       Done w2 (set_iv_post p v) (ShowPost p) /\
                     history w2 = history w /\ user_data w2 = user_data w1
      | None => image_click w1 v IRewind author today fetched = Done w1 v NothingToRewind
      end
  | (_, None) => False
  end.
Proof.
  cbv zeta. unfold next_cmd.
  pose proof (send_main_view_spec w guild post tags author) as H.
  destruct (send_main_view w guild post tags author) as [[w1 v] n].
  destruct H as (-> & Hh & _ & _ & Hn & Hu & Ho).
  split; [reflexivity|].
  assert (Hg : history w1 !! guild = Some (dget (history w !! guild) [] ++ [post])).
  { rewrite Hh. unfold hist_append. apply lookup_insert_eq. }
  split; [exact Hg|]. split; [rewrite Hu; cbn; exact Hn|]. split; [exact Ho|].
  unfold image_click. cbn [iv_user_id]. rewrite check_user_self. cbn [negb].
  unfold image_rewind. cbn [iv_guild_id]. rewrite Hg.
  unfold pop_then_last. rewrite removelast_last.
  destruct (history w !! guild) as [old|] eqn:Eo; cbn [dget].
  - destruct (last old) as [p|] eqn:El.
    + rewrite bool_decide_eq_true_2.
      2:{ apply last_Some in El as [l' ->]. rewrite !length_app. cbn. lia. }
      eexists. split; [reflexivity|]. split; [|reflexivity].
      cbn [history set_history]. rewrite Hh. unfold hist_append.
      rewrite insert_insert_eq. by apply insert_id.
    + apply last_None in El as ->. reflexivity.
  - reflexivity.
Qed.

Lemma do_search_send_main_view (w : World) (uid guild : Z) (tags : string) (post : Post) :
  do_search w uid guild tags (Some post) =
    (fst (fst (send_main_view w guild post tags uid)),
     Some (snd (fst (send_main_view w guild post tags uid)))).
Proof.
  unfold do_search, send_main_view.
  destruct (increment_view_count _ _) as [st2 n].
  destruct (image_view_init _ _ _ _ _) as [[st3 v] b]. reflexivity.
Qed.

Lemma length_substring_0 (m : nat) (s : string) :
  (String.length (String.substring 0 m s) <= m)%nat.
Proof.
  revert s. induction m as [|m IH]; intros [|c s]; cbn; try lia.
  specialize (IH s). lia.
Qed.

Lemma length_get_tag_suggestions (resp : AutoResponse) :
  (length (get_tag_suggestions resp) <= 10)%nat.
Proof.
  destruct resp as [|status items]; cbn; [lia|].
  case_bool_decide; cbn; [|lia]. rewrite length_map, length_take. lia.
Qed.

(** X18: [TagSearchModal.on_submit] with more than one suggestion changes
    nothing and offers the suggestions cut to 100 characters then the
    query; otherwise it searches directly, appending the found post and
    adding one view for the user. *)
Theorem on_submit_routes (w : World) (uid guild : Z) (query : string)
    (resp : AutoResponse) (fetched : option Post) :
  let sugg := get_tag_suggestions resp in
  let old := dget (history w !! guild) [] in
  let '(w1, step) := on_submit w uid guild query resp fetched in
  (length sugg <= 10)%nat /\
  ((1 < length sugg)%nat ->
     w1 = w /\
     exists values, step = TagSelector values /\
       length values = S (length sugg) /\ last values = Some query /\
       (forall x, In x (removelast values) -> (String.length x <= 100)%nat)) /\
  ((length sugg <= 1)%nat ->
     match fetched with
     | None => w1 = w /\ step = Searched None
     | Some post =>
         step = Searched (Some (mkImageView guild post (Some uid) query)) /\
         history w1 !! guild = Some (old ++ [post]) /\
         dget (view_count (observe (user_data w1) uid)) 0 =
           dget (view_count (observe (user_data w) uid)) 0 + 1 /\
         (forall u', u' <> uid -> observe (user_data w1) u' = observe (user_data w) u')
     end).
Proof.
  cbv zeta. unfold on_submit.
  pose proof (length_get_tag_suggestions resp) as H10.
  case_bool_decide as Hs.
  - split; [exact H10|]. split; [|lia]. intros _. split; [reflexivity|].
    eexists. split; [reflexivity|]. unfold tag_select_values.
    rewrite length_app, length_map, length_take. cbn [length].
    split; [lia|]. split; [apply last_snoc|].
    rewrite removelast_last. intros x Hx. apply in_map_iff in Hx as (t & <- & _).
    apply length_substring_0.
  - destruct fetched as [post|].
    + rewrite do_search_send_main_view.
      pose proof (send_main_view_spec w guild post query uid) as H.
      destruct (send_main_view w guild post query uid) as [[w1 v] n].
      destruct H as (-> & Hh & _ & _ & Hn & Hu & Ho). cbn [fst snd].
      split; [exact H10|]. split; [lia|]. intros _.
      split; [reflexivity|]. split.
      * rewrite Hh. unfold hist_append. apply lookup_insert_eq.
      * split; [rewrite Hu; cbn; exact Hn | exact Ho].
    + cbn. split; [exact H10|]. split; [lia|]. auto.
Qed.

Lemma first_image_scan (data : list ApiPost) :
  match first_image data with
  | Some p => exists pre q rest u, data = pre ++ q :: rest /\ image_ok q = Some u /\
                p = set_ap_file_url u q /\ Forall (fun q' => image_ok q' = None) pre
  | None => Forall (fun q' => image_ok q' = None) data
  end.
Proof.
  induction data as [|q data IH]; cbn [first_image]; [constructor|].
  destruct (file_url_of q) as [u|] eqn:Eu.
  - destruct (str_truthy (Some u) && is_image_url u) eqn:Ek.
    + exists [], q, data, u. split; [reflexivity|]. unfold image_ok. rewrite Eu, Ek.
      auto.
    + destruct (first_image data) as [p|]; cbv iota beta.
      * destruct IH as (pre & q' & rest & u' & -> & H1 & H2 & H3).
        exists (q :: pre), q', rest, u'. repeat split; auto.
        constructor; [|exact H3]. unfold image_ok. by rewrite Eu, Ek.
      * constructor; [|exact IH]. unfold image_ok. by rewrite Eu, Ek.
  - destruct (first_image data) as [p|]; cbv iota beta.
    + destruct IH as (pre & q' & rest & u' & -> & H1 & H2 & H3).
      exists (q :: pre), q', rest, u'. repeat split; auto.
      constructor; [|exact H3]. unfold image_ok. by rewrite Eu.
    + constructor; [|exact IH]. unfold image_ok. by rewrite Eu.
Qed.

Lemma first_video_scan (data : list ApiPost) :
  match first_video data with
  | Some p => exists pre q rest u, data = pre ++ q :: rest /\ video_ok q = Some u /\
                p = set_ap_file_url u q /\ Forall (fun q' => video_ok q' = None) pre
  | None => Forall (fun q' => video_ok q' = None) data
  end.
Proof.
  induction data as [|q data IH]; cbn [first_video]; [constructor|].
  destruct (file_url_of q) as [u|] eqn:Eu.
  - destruct (str_truthy (Some u) && _) eqn:Ek.
    + exists [], q, data, u. split; [reflexivity|]. unfold video_ok. rewrite Eu, Ek.
      auto.
    + destruct (first_video data) as [p|]; cbv iota beta.
      * destruct IH as (pre & q' & rest & u' & -> & H1 & H2 & H3).
        exists (q :: pre), q', rest, u'. repeat split; auto.
        constructor; [|exact H3]. unfold video_ok. by rewrite Eu, Ek.
      * constructor; [|exact IH]. unfold video_ok. by rewrite Eu, Ek.
  - destruct (first_video data) as [p|]; cbv iota beta.
    + destruct IH as (pre & q' & rest & u' & -> & H1 & H2 & H3).
      exists (q :: pre), q', rest, u'. repeat split; auto.
      constructor; [|exact H3]. unfold video_ok. by rewrite Eu.
    + constructor; [|exact IH]. unfold video_ok. by rewrite Eu.
Qed.

Lemma image_ok_none (q : ApiPost) :
  image_ok q = None <->
  forall u, file_url_of q = Some u -> u = ""%string \/ is_image_url u = false.
Proof.
  unfold image_ok, str_truthy. destruct (file_url_of q) as [u|]; [|split; [discriminate|auto]].
  split.
  - intros H u' [= <-]. destruct (String.eqb_spec u ""%string); [auto|].
    destruct (is_image_url u); [discriminate|auto].
  - intros H. destruct (H u eq_refl) as [-> | ->]; [reflexivity|].
    by rewrite andb_false_r.
Qed.

Lemma image_ok_some (q : ApiPost) (u : string) :
  image_ok q = Some u <->
  file_url_of q = Some u /\ u <> ""%string /\ is_image_url u = true.
Proof.
  unfold image_ok, str_truthy.
  destruct (file_url_of q) as [u'|]; [|split; [discriminate | intros (H & _); discriminate H]].
  split.
  - intros H. destruct (_ && _) eqn:E; [|discriminate]. injection H as <-.
    apply andb_prop in E as [E1 E2]. split; [reflexivity|]. split; [|exact E2].
    intros ->. discriminate E1.
  - intros ([= <-] & H2 & H3). rewrite H3.
    destruct (String.eqb_spec u' ""%string); [contradiction | reflexivity].
Qed.

Lemma video_ok_none (q : ApiPost) :
  video_ok q = None <->
  forall u, file_url_of q = Some u -> u = ""%string \/
    (dget (ap_file_ext q) ""%string <> "mp4"%string /\
     dget (ap_file_ext q) ""%string <> "webm"%string).
Proof.
  unfold video_ok, str_truthy. destruct (file_url_of q) as [u|]; [|split; [discriminate|auto]].
  split.
  - intros H u' [= <-]. destruct (String.eqb_spec u ""%string); [auto|]. right.
    destruct (String.eqb_spec (dget (ap_file_ext q) ""%string) "mp4"),
      (String.eqb_spec (dget (ap_file_ext q) ""%string) "webm"); cbn in H;
      try discriminate H. auto.
  - intros H. destruct (H u eq_refl) as [-> | [H1 H2]]; [reflexivity|].
    apply String.eqb_neq in H1, H2. rewrite H1, H2. by rewrite andb_false_r.
Qed.

Lemma video_ok_some (q : ApiPost) (u : string) :
  video_ok q = Some u <->
  file_url_of q = Some u /\ u <> ""%string /\
    (dget (ap_file_ext q) ""%string = "mp4"%string \/
     dget (ap_file_ext q) ""%string = "webm"%string).
Proof.
  unfold video_ok, str_truthy.
  destruct (file_url_of q) as [u'|]; [|split; [discriminate | intros (H & _); discriminate H]].
  split.
  - intros H. destruct (_ && _) eqn:E; [|discriminate]. injection H as <-.
    apply andb_prop in E as [E1 E2]. split; [reflexivity|]. split.
    + intros ->. discriminate E1.
    + apply orb_prop in E2 as [E2|E2]; apply String.eqb_eq in E2; auto.
  - intros ([= <-] & H2 & H3).
    destruct (String.eqb_spec u' ""%string); [contradiction|]. cbn.
    destruct H3 as [-> | ->]; reflexivity.
Qed.

(** X19: [get_danbooru_image] returns the first post of a 200 answer whose
    file or large-file URL is non-empty with an image extension (case
    insensitive), with that URL as file_url; it returns None on an error,
    a non-200 status, or when no post qualifies. *)
Theorem get_danbooru_image_first_valid (resp : PostsResponse) :
  match get_danbooru_image resp with
  | Some p => exists data pre q rest u,
      resp = PostsStatus 200 data /\ data = pre ++ q :: rest /\
      file_url_of q = Some u /\ u <> ""%string /\ is_image_url u = true /\
      p = set_ap_file_url u q /\
      (forall q' u', In q' pre -> file_url_of q' = Some u' ->
         u' = ""%string \/ is_image_url u' = false)
  | None => resp = PostsError \/
      exists status data, resp = PostsStatus status data /\
        (status <> 200 \/
         forall q' u', In q' data -> file_url_of q' = Some u' ->
           u' = ""%string \/ is_image_url u' = false)
  end.
Proof.
  destruct resp as [|status data]; cbn [get_danbooru_image]; [auto|].
  case_bool_decide as Hs.
  - subst status. pose proof (first_image_scan data) as H.
    destruct (first_image data) as [p|].
    + destruct H as (pre & q & rest & u & -> & Hq & -> & Hpre).
      apply image_ok_some in Hq as (H1 & H2 & H3).
      exists (pre ++ q :: rest), pre, q, rest, u. do 6 (split; [auto|]).
      intros q' u' Hin. rewrite Forall_forall in Hpre.
      apply image_ok_none, Hpre, list_elem_of_In, Hin.
    + right. exists 200, data. split; [reflexivity|]. right.
      intros q' u' Hin. rewrite Forall_forall in H.
      apply image_ok_none, H, list_elem_of_In, Hin.
  - right. eauto.
Qed.

(** X20: [get_danbooru_video] returns the first post of a 200 answer with a
    non-empty URL and extension mp4 or webm, with that URL as file_url;
    otherwise None. *)
Theorem get_danbooru_video_first_valid (resp : PostsResponse) :
  match get_danbooru_video resp with
  | Some p => exists data pre q rest u,
      resp = PostsStatus 200 data /\ data = pre ++ q :: rest /\
      file_url_of q = Some u /\ u <> ""%string /\
      (dget (ap_file_ext q) ""%string = "mp4"%string \/
       dget (ap_file_ext q) ""%string = "webm"%string) /\
      p = set_ap_file_url u q /\
      (forall q' u', In q' pre -> file_url_of q' = Some u' -> u' = ""%string \/
         (dget (ap_file_ext q') ""%string <> "mp4"%string /\
          dget (ap_file_ext q') ""%string <> "webm"%string))
  | None => resp = PostsError \/
      exists status data, resp = PostsStatus status data /\
        (status <> 200 \/
         forall q' u', In q' data -> file_url_of q' = Some u' -> u' = ""%string \/
           (dget (ap_file_ext q') ""%string <> "mp4"%string /\
            dget (ap_file_ext q') ""%string <> "webm"%string))
  end.
Proof.
  destruct resp as [|status data]; cbn [get_danbooru_video]; [auto|].
  case_bool_decide as Hs.
  - subst status. pose proof (first_video_scan data) as H.
    destruct (first_video data) as [p|].
    + destruct H as (pre & q & rest & u & -> & Hq & -> & Hpre).
      apply video_ok_some in Hq as (H1 & H2 & H3).
      exists (pre ++ q :: rest), pre, q, rest, u. do 6 (split; [auto|]).
      intros q' u' Hin. rewrite Forall_forall in Hpre.
      apply video_ok_none, Hpre, list_elem_of_In, Hin.
    + right. exists 200, data. split; [reflexivity|]. right.
      intros q' u' Hin. rewrite Forall_forall in H.
      apply video_ok_none, H, list_elem_of_In, Hin.
  - right. eauto.
Qed.

Lemma map_nth_seq_id (l : list string) (d : string) :
  map (fun i => nth i l d) (seq 0 (length l)) = l.
Proof.
  induction l as [|x l IH]; cbn; [reflexivity|]. f_equal.
  rewrite <- seq_shift, map_map. exact IH.
Qed.

Lemma permute_perm (perm : list nat) (l : list string) :
  Permutation perm (seq 0 (length l)) -> Permutation (permute perm l) l.
Proof.
  intros Hp. unfold permute. rewrite (Permutation_map _ Hp).
  by rewrite map_nth_seq_id.
Qed.

Lemma quiz_cmd_shape (author : Z) (f1 f2 : option (Post * option string))
    (sample perm : list nat) (q : QuizView) (answers : list string) :
  quiz_cmd author f1 f2 sample perm = Some (q, answers) ->
  exists post tag,
    q = mkQuizView (py_title (replace_underscore tag)) (id post) author false /\
    answers = permute perm (py_title (replace_underscore tag) ::
      map (fun i => nth i (filter (fun d => py_lower d <> py_lower
                                       (py_title (replace_underscore tag))) all_decoys) ""%string)
          sample).
Proof.
  unfold quiz_cmd. destruct f1 as [[p1 c1]|]; [|discriminate].
  destruct (py_split (dget c1 ""%string)) as [|t ts].
  - destruct f2 as [[p2 c2]|]; [|discriminate].
    destruct (py_split (dget c2 ""%string)) as [|t ts]; [discriminate|].
    intros [= <- <-]. eauto.
  - intros [= <- <-]. eauto.
Qed.

Lemma filter_all_true {A} (P : A -> Prop) `{!forall x, Decision (P x)} (l : list A) :
  (forall x, In x l -> P x) -> filter P l = l.
Proof.
  induction l as [|x l IH]; intros Hall; [reflexivity|].
  rewrite filter_cons_True by (apply Hall; left; reflexivity).
  f_equal. apply IH. intros y Hy. apply Hall. by right.
Qed.

Lemma filter_drops_at_most_one {A} (g : A -> string) (c : string) (l : list A) :
  NoDup (map g l) -> (length l <= S (length (filter (fun d => g d <> c) l)))%nat.
Proof.
  induction l as [|x l IH]; intros Hn; cbn [length map] in Hn |- *; [lia|].
  inversion Hn as [|? ? Hx Hl]; subst. rewrite filter_cons.
  case_decide as Hc.
  - cbn. specialize (IH Hl). lia.
  - rewrite filter_all_true; [lia|].
    intros y Hy Hyc. apply Hx. rewrite Hc, <- Hyc. apply list_elem_of_In. by apply in_map.
Qed.

Lemma all_decoys_lower_nodup : NoDup (map py_lower all_decoys).
Proof. apply (bool_decide_eq_true_1 _). vm_compute. reflexivity. Qed.

Lemma all_decoys_nodup : NoDup all_decoys.
Proof. apply (bool_decide_eq_true_1 _). vm_compute. reflexivity. Qed.

Lemma nodup_map_nth (l : list string) (s : list nat) :
  NoDup l -> NoDup s -> Forall (fun i => (i < length l)%nat) s ->
  NoDup (map (fun i => nth i l ""%string) s).
Proof.
  intros Hl. induction s as [|i s IH]; intros Hs Hb; cbn; [constructor|].
  inversion Hs as [|? ? Hi Hs']; subst. inversion Hb as [|? ? Hib Hb']; subst.
  constructor; [|by apply IH].
  intros Hin. apply list_elem_of_In, in_map_iff in Hin as (j & Hj & Hjs). apply Hi.
  rewrite Forall_forall in Hb'.
  assert (Hjl : (j < length l)%nat) by (apply Hb', list_elem_of_In, Hjs).
  rewrite (proj1 (NoDup_nth l ""%string) (proj1 (NoDup_ListNoDup l) Hl) i j Hib Hjl (eq_sym Hj)). by apply list_elem_of_In.
Qed.

Lemma filter_all_false {A} (P : A -> Prop) `{!forall x, Decision (P x)} (l : list A) :
  (forall x, In x l -> ~ P x) -> filter P l = [].
Proof.
  induction l as [|x l IH]; intros Hall; [reflexivity|].
  rewrite filter_cons_False by (apply Hall; left; reflexivity).
  apply IH. intros y Hy. apply Hall. by right.
Qed.

Lemma judged_correct_fresh (c : string) (pid : option Z) (author : Z) (a : string) :
  judged_correct (mkQuizView c pid author false) a = String.eqb (py_lower a) (py_lower c).
Proof. reflexivity. Qed.

(** X21: A [quiz] built from a valid sample of decoys and a shuffle has one
    more answer than decoys, contains the correct answer, and exactly one
    of its answers is judged correct; the answers are distinct when the
    sampled positions are. At least 64 decoys remain after filtering. *)
Theorem quiz_exactly_one_correct (author : Z) (f1 f2 : option (Post * option string))
    (sample perm : list nat) (q : QuizView) (answers : list string)
    (Hq : quiz_cmd author f1 f2 sample perm = Some (q, answers))
    (Hb : Forall (fun i => (i < length (filter (fun d => py_lower d <> py_lower (correct_answer q))
                                          all_decoys))%nat) sample)
    (Hp : Permutation perm (seq 0 (S (length sample)))) :
  (64 <= length (filter (fun d => py_lower d <> py_lower (correct_answer q)) all_decoys))%nat /\
  qv_user_id q = author /\ answered q = false /\
  length answers = S (length sample) /\
  In (correct_answer q) answers /\
  length (filter (fun a => judged_correct q a = true) answers) = 1%nat /\
  (NoDup sample -> NoDup answers).
Proof.
  apply quiz_cmd_shape in Hq as (post & tag & -> & ->). cbn [correct_answer] in Hb |- *.
  set (c := py_title (replace_underscore tag)) in *.
  set (avail := filter (fun d => py_lower d <> py_lower c) all_decoys) in *.
  set (wrong := map (fun i => nth i avail ""%string) sample).
  assert (Hperm : Permutation (permute perm (c :: wrong)) (c :: wrong)).
  { apply permute_perm. cbn [length]. unfold wrong. by rewrite length_map. }
  assert (Hw : forall x, In x wrong -> py_lower x <> py_lower c).
  { intros x Hx. unfold wrong in Hx. apply in_map_iff in Hx as (i & <- & Hi).
    rewrite Forall_forall in Hb.
    assert (Hil : (i < length avail)%nat) by (apply Hb, list_elem_of_In, Hi).
    pose proof (nth_In avail ""%string Hil) as Hin.
    apply list_elem_of_In in Hin. unfold avail in Hin.
    apply list_elem_of_filter in Hin as [Hne _]. exact Hne. }
  split.
  { pose proof (filter_drops_at_most_one py_lower (py_lower c) all_decoys
                 all_decoys_lower_nodup) as H.
    unfold avail. assert (E : length all_decoys = 65%nat) by reflexivity. rewrite E in H. lia. }
  split; [reflexivity|]. split; [reflexivity|].
  split; [rewrite (Permutation_length Hperm); cbn; unfold wrong; by rewrite length_map|].
  split; [apply (Permutation_in _ (Permutation_sym Hperm)); by left|].
  split.
  - rewrite (filter_Permutation _ _ _ Hperm).
    rewrite filter_cons_True by (rewrite judged_correct_fresh; apply String.eqb_refl).
    rewrite filter_all_false; [reflexivity|].
    intros x Hx. rewrite judged_correct_fresh.
    destruct (String.eqb_spec (py_lower x) (py_lower c)) as [E|E]; [|discriminate].
    exfalso. exact (Hw x Hx E).
  - intros Hs. rewrite Hperm. apply NoDup_cons_2.
    + intros Hc. apply list_elem_of_In in Hc. exact (Hw c Hc eq_refl).
    + apply nodup_map_nth; [|exact Hs | exact Hb].
      unfold avail. apply NoDup_filter, all_decoys_nodup.
Qed.

(** X11: [BlackjackView.hit] by the player on an active game draws the last
    card of the deck: above 21 the wager is lost and the game removed,
    otherwise the game continues with that card and balances are kept;
    an empty deck raises IndexError with no change. *)
Theorem hit_draws_last_card (w : World) (v : BlackjackView) (g : Game)
    (Hg : blackjack_games w !! bj_user_id v = Some g) (Ha : active g = true) :
  let u := bj_user_id v in
  match hit w v u with
  | Done w' v' r =>
      v' = v /\
      exists d' c, deck g = d' ++ [c] /\
        if bool_decide (21 < hand_value (player g ++ [c])) then
          r = BlackjackBust /\ blackjack_games w' !! u = None /\
          dget (waifame (observe (user_data w') u)) 0 =
            dget (waifame (observe (user_data w) u)) 0 - bj_mise v /\
          (forall u', u' <> u -> observe (user_data w') u' = observe (user_data w) u')
        else
          r = BlackjackShown /\
          blackjack_games w' !! u = Some (mkGame d' (player g ++ [c]) (dealer g) (mise g) true) /\
          user_data w' = user_data w
  | Raised w' _ e => e = IndexError /\ deck g = [] /\ w' = w
  end.
Proof.
  cbv zeta. unfold hit. rewrite bool_decide_eq_false_2 by congruence.
  rewrite Hg, Ha. cbn [negb].
  destruct (deck_pop (deck g)) as [[d' c]|] eqn:Ep.
  - pose proof (deck_pop_some _ _ _ Ep) as Hd.
    cbn [set_game_deck_player player].
    case_bool_decide as Hb.
    + split; [reflexivity|]. exists d', c. split; [exact Hd|].
      rewrite bool_decide_eq_true_2 by exact Hb.
      cbn [blackjack_games set_blackjack_games user_data set_user_data].
      split; [reflexivity|]. split; [apply lookup_delete_eq|].
      destruct (observe_add_to_waifame (user_data w) (bj_user_id v) (- bj_mise v)
                  (bj_user_id v)) as [H1 _].
      split.
      * rewrite H1, decide_True by reflexivity. lia.
      * intros u' Hu. apply observe_add_to_waifame. congruence.
    + split; [reflexivity|]. exists d', c. split; [exact Hd|].
      rewrite bool_decide_eq_false_2 by exact Hb.
      cbn [blackjack_games set_blackjack_games user_data].
      split; [reflexivity|]. split; [|reflexivity].
      rewrite lookup_insert_eq. destruct g; cbn in Ha |- *. by subst.
  - split; [reflexivity|]. split; [by apply deck_pop_none | reflexivity].
Qed.

Lemma deck_pop_snoc (l : list Card) (x : Card) : deck_pop (l ++ [x]) = Some (l, x).
Proof. unfold deck_pop. rewrite last_snoc, removelast_last. reflexivity. Qed.

(** X12: A [blackjack] deal without a natural stores the game with the four
    cards popped from the end of the deck, returns the view, and changes
    no balance. *)
Theorem blackjack_deal (w : World) (uid m : Z) (rest : list Card) (p1 p2 c1 c2 : Card)
    (Hm : 10 <= m) (Hbal : m <= dget (waifame (observe (user_data w) uid)) 0)
    (Hn : hand_value [p1; p2] <> 21) :
  match blackjack w uid m (rest ++ [c2; c1; p2; p1]) with
  | Done w' (Some bv) r =>
      r = BlackjackShown /\ bv = mkBlackjackView uid m /\
      blackjack_games w' !! uid = Some (mkGame rest [p1; p2] [c1; c2] m true) /\
      (forall u', observe (user_data w') u' = observe (user_data w) u')
  | _ => False
  end.
Proof.
  unfold blackjack. rewrite bool_decide_eq_false_2 by lia.
  unfold get_user_data. cbn [user_data set_user_data].
  rewrite bool_decide_eq_false_2 by lia.
  replace (rest ++ [c2; c1; p2; p1])
    with ((((rest ++ [c2]) ++ [c1]) ++ [p2]) ++ [p1])
    by (rewrite <- !app_assoc; reflexivity).
  rewrite !deck_pop_snoc. rewrite bool_decide_eq_false_2 by exact Hn.
  cbn [blackjack_games set_blackjack_games user_data set_user_data].
  split; [reflexivity|]. split; [reflexivity|]. split; [apply lookup_insert_eq|].
  intros u'. apply (observe_get_user_data (user_data w) uid u').
Qed.

(** ** Witnesses of the further properties *)

(** X5 for user 1 holding 40, saved to an empty database. *)
Lemma reload_drops_daily_fields_witness :
  ({[1 := set_waifame 40 new_account]} : Store) !! 1 <> None /\
  save_ok {[1 := set_waifame 40 new_account]} = true /\
  waifame (observe (load_user_data true (save_user_data true {[1 := set_waifame 40 new_account]}
                                          (mkStorage ∅ None)) ∅) 1)
    = waifame (observe {[1 := set_waifame 40 new_account]} 1).
Proof.
  assert (Hin : ({[1 := set_waifame 40 new_account]} : Store) !! 1 <> None).
  { vm_compute. intro Hx. discriminate Hx. }
  assert (Hok : save_ok {[1 := set_waifame 40 new_account]} = true) by (vm_compute; reflexivity).
  split; [exact Hin|]. split; [exact Hok|].
  destruct (reload_drops_daily_fields {[1 := set_waifame 40 new_account]}
              (mkStorage ∅ None) ∅ 1 Hin) as [H _].
  destruct (H Hok) as (_ & _ & H3 & _). exact H3.
Defined.

(** X6 for a new user claiming on 2026-10-14 with base rewards 100 and 50. *)
Lemma reload_allows_second_daily_witness :
  "2026-10-14"%string <> ""%string /\ "2026-10-13"%string <> ""%string /\
  save_ok (user_data (outcome_world (daily (mkWorld ∅ ∅ ∅ ∅) 1 "2026-10-14" "2026-10-13" 100)))
    = true /\
  dget (waifame (observe (user_data (outcome_world (daily
    (set_user_data (load_user_data true (save_user_data true (user_data (outcome_world
       (daily (mkWorld ∅ ∅ ∅ ∅) 1 "2026-10-14" "2026-10-13" 100))) (mkStorage ∅ None)) ∅)
       (outcome_world (daily (mkWorld ∅ ∅ ∅ ∅) 1 "2026-10-14" "2026-10-13" 100)))
    1 "2026-10-14" "2026-10-13" 50))) 1)) 0 = 170.
Proof.
  assert (Ht : "2026-10-14"%string <> ""%string) by discriminate.
  assert (Hy : "2026-10-13"%string <> ""%string) by discriminate.
  assert (Hok : save_ok (user_data (outcome_world
                  (daily (mkWorld ∅ ∅ ∅ ∅) 1 "2026-10-14" "2026-10-13" 100))) = true)
    by (vm_compute; reflexivity).
  split; [exact Ht|]. split; [exact Hy|]. split; [exact Hok|].
  destruct (reload_allows_second_daily (mkWorld ∅ ∅ ∅ ∅) (mkStorage ∅ None) ∅ 1
              "2026-10-14" "2026-10-13" 100 50 Ht Hy) as (_ & H & _).
  rewrite (H Hok). vm_compute. reflexivity.
Defined.

(** X7 with the world of the C5 witness: a successful theft at time
    10000, then a second try at 10001. *)
Lemma steal_cooldown_blocks_second_witness :
  member_id (mkMember 2 false) <> 1 /\ member_bot (mkMember 2 false) = false /\
  dget (last_steal (observe (user_data (mkWorld (<[2 := set_waifame 100 new_account]>
          {[1 := set_waifame 30 new_account]}) ∅ ∅ ∅)) 1)) 0 + 60 * 60 - 10000 <= 0 /\
  50 <= dget (waifame (observe (user_data (mkWorld (<[2 := set_waifame 100 new_account]>
          {[1 := set_waifame 30 new_account]}) ∅ ∅ ∅)) (member_id (mkMember 2 false)))) 0 /\
  last_steal (observe (user_data (outcome_world
    (steal (mkWorld (<[2 := set_waifame 100 new_account]>
              {[1 := set_waifame 30 new_account]}) ∅ ∅ ∅)
           1 (Some (mkMember 2 false)) 10000 true f0_20))) 1) = Some 10000.
Proof.
  assert (Hne : member_id (mkMember 2 false) <> 1) by (cbn; lia).
  assert (Hc : dget (last_steal (observe (user_data (mkWorld
            (<[2 := set_waifame 100 new_account]> {[1 := set_waifame 30 new_account]})
            ∅ ∅ ∅)) 1)) 0 + 60 * 60 - 10000 <= 0) by (vm_compute; congruence).
  assert (Hv : 50 <= dget (waifame (observe (user_data (mkWorld
            (<[2 := set_waifame 100 new_account]> {[1 := set_waifame 30 new_account]})
            ∅ ∅ ∅)) (member_id (mkMember 2 false)))) 0) by (vm_compute; congruence).
  split; [exact Hne|]. split; [reflexivity|]. split; [exact Hc|]. split; [exact Hv|].
  destruct (steal_cooldown_blocks_second (mkWorld (<[2 := set_waifame 100 new_account]>
              {[1 := set_waifame 30 new_account]}) ∅ ∅ ∅)
              1 (mkMember 2 false) 10000 true f0_20 Hne eq_refl Hc Hv) as [H _].
  exact H.
Defined.

(** X8: user 7, new, clicks the favorite button of post 42 twice. *)
Lemma fav_toggle_restores_witness :
  fav_callback ∅ (mkImageView 1 (mkPost (Some 42) None None None) (Some 7) "rating:safe")
    7 "2026-10-14" =
  (fst (fst (fav_callback ∅ (mkImageView 1 (mkPost (Some 42) None None None) (Some 7)
                               "rating:safe") 7 "2026-10-14")),
   snd (fst (fav_callback ∅ (mkImageView 1 (mkPost (Some 42) None None None) (Some 7)
                               "rating:safe") 7 "2026-10-14")),
   FavAdded 4) /\
  favorites (observe (fst (fst (fav_callback
    (fst (fst (fav_callback ∅ (mkImageView 1 (mkPost (Some 42) None None None) (Some 7)
                                 "rating:safe") 7 "2026-10-14")))
    (snd (fst (fav_callback ∅ (mkImageView 1 (mkPost (Some 42) None None None) (Some 7)
                                 "rating:safe") 7 "2026-10-14")))
    7 "2026-10-14"))) 7) = [].
Proof.
  assert (Hadd : fav_callback ∅ (mkImageView 1 (mkPost (Some 42) None None None) (Some 7)
                   "rating:safe") 7 "2026-10-14" =
    (fst (fst (fav_callback ∅ (mkImageView 1 (mkPost (Some 42) None None None) (Some 7)
                                 "rating:safe") 7 "2026-10-14")),
     snd (fst (fav_callback ∅ (mkImageView 1 (mkPost (Some 42) None None None) (Some 7)
                                 "rating:safe") 7 "2026-10-14")),
     FavAdded 4)) by (vm_compute; reflexivity).
  split; [exact Hadd|].
  destruct (fav_toggle_restores ∅ (mkImageView 1 (mkPost (Some 42) None None None) (Some 7)
              "rating:safe") 7 "2026-10-14" _ _ 4 Hadd) as (_ & H & _).
  rewrite H. reflexivity.
Defined.

(** X9: two posts by "artist_a", the API answering 1234 posts first and
    1 post later; the second post still gets the bonus of 1234. *)
Lemma artist_cache_never_refreshed_witness :
  py_split (dget (tag_string_artist (mkPost (Some 1) None None (Some "artist_a other"%string)))
              ""%string) = "artist_a"%string :: ["other"%string] /\
  py_split (dget (tag_string_artist (mkPost (Some 2) None None (Some "artist_a"%string)))
              ""%string) = "artist_a"%string :: [] /\
  snd (get_artist_fame_bonus (fun _ => RespStatus 200 [Some 1])
         (fst (get_artist_fame_bonus (fun _ => RespStatus 200 [Some 1234]) ∅
                 (mkPost (Some 1) None None (Some "artist_a other"%string))))
         (mkPost (Some 2) None None (Some "artist_a"%string))) = 3.
Proof.
  assert (H1 : py_split (dget (tag_string_artist (mkPost (Some 1) None None
                 (Some "artist_a other"%string))) ""%string) = "artist_a"%string :: ["other"%string])
    by (vm_compute; reflexivity).
  assert (H2 : py_split (dget (tag_string_artist (mkPost (Some 2) None None
                 (Some "artist_a"%string))) ""%string) = "artist_a"%string :: [])
    by (vm_compute; reflexivity).
  split; [exact H1|]. split; [exact H2|].
  pose proof (artist_cache_never_refreshed (fun _ => RespStatus 200 [Some 1234])
                (fun _ => RespStatus 200 [Some 1]) ∅
                (mkPost (Some 1) None None (Some "artist_a other"%string))
                (mkPost (Some 2) None None (Some "artist_a"%string))
                "artist_a" ["other"%string] [] H1 H2) as H.
  destruct (get_artist_fame_bonus (fun _ => RespStatus 200 [Some 1234]) ∅
              (mkPost (Some 1) None None (Some "artist_a other"%string))) as [c1 b1] eqn:E.
  destruct H as [H _]. cbn [fst]. rewrite H. cbn [snd].
  vm_compute in E. injection E as _ <-. reflexivity.
Defined.


(** X11: the player hits, draws the 9 and busts with 26. *)
Lemma hit_draws_last_card_witness :
  blackjack_games world1 !! bj_user_id (mkBlackjackView 1 10) = Some game1 /\
  active game1 = true /\
  match hit world1 (mkBlackjackView 1 10) 1 with
  | Done w' _ r => r = BlackjackBust /\ blackjack_games w' !! 1 = None
  | Raised _ _ _ => False
  end.
Proof.
  assert (Hg : blackjack_games world1 !! bj_user_id (mkBlackjackView 1 10) = Some game1)
    by (vm_compute; reflexivity).
  split; [exact Hg|]. split; [reflexivity|].
  pose proof (hit_draws_last_card world1 (mkBlackjackView 1 10) game1 Hg eq_refl) as H.
  cbv zeta in H. cbn [bj_user_id] in H.
  destruct (hit world1 (mkBlackjackView 1 10) 1) as [w' v' r|w' v' e].
  - destruct H as (_ & d' & c & Hd & H).
    assert (Hc : c = (Num 9, "hearts"%string)).
    { cbn [deck game1] in Hd.
      destruct (app_inj_tail d' [(Num 2, "clubs"%string)] c (Num 9, "hearts"%string))
        as [_ ->]; [symmetry; exact Hd | reflexivity]. }
    subst c. rewrite bool_decide_eq_true_2 in H by (vm_compute; reflexivity).
    destruct H as (H1 & H2 & _). split; assumption.
  - destruct H as (_ & H & _). discriminate H.
Defined.

(** X12: user 1 (balance 100) bets 10 and is dealt 5 and 9 (14). *)
Lemma blackjack_deal_witness :
  10 <= 10 /\
  10 <= dget (waifame (observe (user_data world0) 1)) 0 /\
  hand_value [(Num 5, "clubs"%string); (Num 9, "hearts"%string)] <> 21 /\
  exists w', blackjack world0 1 10
    ([] ++ [(Num 2, "spades"%string); (Num 3, "spades"%string);
            (Num 9, "hearts"%string); (Num 5, "clubs"%string)]) =
    Done w' (Some (mkBlackjackView 1 10)) BlackjackShown.
Proof.
  assert (Hb : 10 <= dget (waifame (observe (user_data world0) 1)) 0).
  { vm_compute. intro Hx. discriminate Hx. }
  assert (Hn : hand_value [(Num 5, "clubs"%string); (Num 9, "hearts"%string)] <> 21).
  { vm_compute. intro Hx. discriminate Hx. }
  split; [lia|]. split; [exact Hb|]. split; [exact Hn|].
  pose proof (blackjack_deal world0 1 10 [] (Num 5, "clubs"%string) (Num 9, "hearts"%string)
                (Num 3, "spades"%string) (Num 2, "spades"%string) ltac:(lia) Hb Hn) as H.
  destruct (blackjack world0 1 10 _) as [w' [bv|] r|w' s e]; try contradiction.
  destruct H as (-> & -> & _). eauto.
Defined.

(** X21: the first fetch shows "hatsune_miku"; the decoys picked are the
    first three remaining, and the shuffle swaps both pairs. *)
Lemma quiz_exactly_one_correct_witness :
  quiz_cmd 9 (Some (mkPost (Some 5) None None None, Some "hatsune_miku"%string)) None
    [0; 1; 2]%nat [1; 0; 3; 2]%nat =
    Some (mkQuizView "Hatsune Miku" (Some 5) 9 false,
          ["Sakura Haruno"; "Hatsune Miku"; "Emilia"; "Rem"]%string) /\
  Forall (fun i => (i < length (filter (fun d => py_lower d <> py_lower
     (correct_answer (mkQuizView "Hatsune Miku" (Some 5%Z) 9%Z false))) all_decoys))%nat)
    [0; 1; 2]%nat /\
  Permutation [1; 0; 3; 2]%nat (seq 0 (S (length [0; 1; 2]%nat))) /\
  length (filter (fun a => judged_correct (mkQuizView "Hatsune Miku" (Some 5) 9 false) a = true)
            ["Sakura Haruno"; "Hatsune Miku"; "Emilia"; "Rem"]%string) = 1%nat.
Proof.
  assert (Hq : quiz_cmd 9 (Some (mkPost (Some 5) None None None, Some "hatsune_miku"%string))
                 None [0; 1; 2]%nat [1; 0; 3; 2]%nat =
               Some (mkQuizView "Hatsune Miku" (Some 5) 9 false,
                     ["Sakura Haruno"; "Hatsune Miku"; "Emilia"; "Rem"]%string))
    by (vm_compute; reflexivity).
  assert (Hb : Forall (fun i => (i < length (filter (fun d => py_lower d <> py_lower
     (correct_answer (mkQuizView "Hatsune Miku" (Some 5%Z) 9%Z false))) all_decoys))%nat)
    [0; 1; 2]%nat).
  { constructor; [apply Nat.ltb_lt; vm_compute; reflexivity|].
    constructor; [apply Nat.ltb_lt; vm_compute; reflexivity|].
    constructor; [apply Nat.ltb_lt; vm_compute; reflexivity|].
    constructor. }
  assert (Hp : Permutation [1; 0; 3; 2]%nat (seq 0 (S (length [0; 1; 2]%nat)))).
  { cbn. etransitivity; [apply perm_swap|]. do 2 apply perm_skip. apply perm_swap. }
  split; [exact Hq|]. split; [exact Hb|]. split; [exact Hp|].
  destruct (quiz_exactly_one_correct 9 _ None _ _ _ _ Hq Hb Hp) as (_ & _ & _ & _ & _ & H & _).
  exact H.
Defined.
